(** * Trading foundation: the backtest engine of [trading_foundation.py]

    A shallow embedding of the simulation core of
    [resources/skills/trading-foundation/scripts/trading_foundation.py]:
    the pair-spread builder, the indicator engine, the probability
    overlay, the per-bar strategy/risk loop of [run_backtest], the Sharpe
    aggregation, and the risk-block bookkeeping of [run_execute].

    Python [float] is IEEE-754 binary64, and so is Rocq's primitive
    [float]: every float of the script is a [float] here, with Python's
    comparison and [max]/[min] conventions written out in [Py].  Python
    [int] is [Z], [str] is [string], [None] is [option], a raised exception
    is the [None] of an [option] result. *)

From Stdlib Require Import ZArith Lia Bool Ascii String Floats.
From stdpp Require Import base option list sorting strings gmap fin_maps.

Set Warnings "-inexact-float".
Local Open Scope string_scope.
Local Open Scope list_scope.
Local Open Scope Z_scope.

(** ** Python's float conventions *)

Module Py.

(** [a > b], [a >= b], [a != b] on floats; all but [!=] are false on NaN. *)
Definition gt (a b : float) : bool := PrimFloat.ltb b a.
Definition ge (a b : float) : bool := PrimFloat.leb b a.
Definition lt (a b : float) : bool := PrimFloat.ltb a b.
Definition le (a b : float) : bool := PrimFloat.leb a b.
Definition eq (a b : float) : bool := PrimFloat.eqb a b.
Definition ne (a b : float) : bool := negb (PrimFloat.eqb a b).

(** Truthiness of a float: [if x:] is [x != 0]. *)
Definition truthy (x : float) : bool := ne x 0%float.

(** [max(a, b)] keeps [a] unless [b > a]; [min(a, b)] keeps [a] unless
    [b < a] (CPython's left-to-right scan). *)
Definition max2 (a b : float) : float := if gt b a then b else a.
Definition min2 (a b : float) : float := if lt b a then b else a.

(** [float(b)] for a bool. *)
Definition of_bool (b : bool) : float := if b then 1%float else 0%float.

(** [a / b] on Python floats raises [ZeroDivisionError] when [b == 0]. *)
Definition div (a b : float) : option float :=
  if eq b 0%float then None else Some (a / b)%float.

Definition isnan (x : float) : bool := negb (PrimFloat.eqb x x).
Definition isinf (x : float) : bool :=
  PrimFloat.eqb x infinity || PrimFloat.eqb x neg_infinity.
Definition isfinite (x : float) : bool := negb (isnan x) && negb (isinf x).

(** [int(x)]: truncation toward zero; raises on NaN and on infinities. *)
Definition to_int (x : float) : option Z :=
  match Prim2SF x with
  | S754_zero _ => Some 0
  | S754_finite s m e =>
      let v := match e with
               | Zneg p => Z.shiftr (Zpos m) (Zpos p)
               | _ => Z.shiftl (Zpos m) e
               end in
      Some (if s then - v else v)
  | S754_infinity _ | S754_nan => None
  end.

(** [float(n)] for an int: the nearest binary64. *)
Definition of_int (n : Z) : float :=
  SF2Prim (binary_normalize prec emax n 0 false).

(** Zero, nonzero finite and positive finite floats, read off their
    IEEE-754 decomposition. *)
Definition is_zero (x : float) : Prop := ∃ s, Prim2SF x = S754_zero s.
Definition is_nonzero_finite (x : float) : Prop :=
  ∃ s m e, Prim2SF x = S754_finite s m e.
Definition is_positive_finite (x : float) : Prop :=
  ∃ m e, Prim2SF x = S754_finite false m e.

End Py.

(** ** Configuration normalisation at simulation start ([run_backtest]) *)

(** The two trend windows: [max(2, int(args.momentum_fast))],
    [max(2, int(args.momentum_slow))], then the fast window is pulled under
    the slow one with the same floor of 2. The result is (fast, slow). *)
Definition normalize_momentum (fast_arg slow_arg : Z) : Z * Z :=
  let momentum_fast := Z.max 2 fast_arg in
  let momentum_slow := Z.max 2 slow_arg in
  if momentum_fast >=? momentum_slow
  then (Z.max 2 (momentum_slow - 1), momentum_slow)
  else (momentum_fast, momentum_slow).

(** ** Order validation: the risk blocks of [run_execute] *)

Module Execute.

(** One entry of [risk_blocks]. The optional [message]/[details] are free
    text built from the same arguments and are not kept. *)
Record Block := { name : string; status : string }.

(** The two objects every report shares: the [risk_blocks] list and the
    [risk_summary] dict (string keys, counters). *)
Record RiskLog := {
  risk_blocks : list Block;
  risk_summary : gmap string nat;
}.

Definition initial_log : RiskLog :=
  {| risk_blocks := [];
     risk_summary :=
       <["pass" := 0%nat]> (<["skip" := 0%nat]>
         (<["blocked" := 0%nat]> (<["fail" := 0%nat]> ∅))) |}.

(** [sum(risk_summary.values())]. *)
Definition summary_total (m : gmap string nat) : nat :=
  map_fold (λ _ n acc, n + acc)%nat 0%nat m.

(** What [run_execute] hands back apart from the log. *)
Record Reply := { success : bool; reply_status : string }.

(** A statement of the function body either falls through with a value,
    returns from [run_execute], or raises. *)
Inductive flow (A : Type) : Type :=
| Next (a : A)
| Return (r : Reply)
| Raised.
Arguments Next {A} a.
Arguments Return {A} r.
Arguments Raised {A}.

Definition M (A : Type) : Type := RiskLog → RiskLog * flow A.

Definition ret {A} (a : A) : M A := λ l, (l, Next a).
Definition bind {A B} (m : M A) (k : A → M B) : M B :=
  λ l, match m l with
       | (l', Next a) => k a l'
       | (l', Return r) => (l', Return r)
       | (l', Raised) => (l', Raised)
       end.
Definition return_ {A} (r : Reply) : M A := λ l, (l, Return r).
Definition raise {A} : M A := λ l, (l, Raised).
(** [try: body / except Exception: handler]. *)
Definition try_except {A} (body handler : M A) : M A :=
  λ l, match body l with
       | (l', Raised) => handler l'
       | other => other
       end.

Notation "'let!' x ':=' m 'in' k" := (bind m (λ x, k))
  (at level 10, x name, m at level 100, k at level 200).
Notation "m >>> k" := (bind m (λ _ : unit, k))
  (at level 100, k at level 200, right associativity).

(** [_add_risk_block]: append the block, and count it when its status is a
    key of [risk_summary]. *)
Definition _add_risk_block (name status : string) : M unit :=
  λ l, ({| risk_blocks := risk_blocks l ++ [{| name := name; status := status |}];
           risk_summary :=
             match risk_summary l !! status with
             | Some n => <[status := S n]> (risk_summary l)
             | None => risk_summary l
             end |}, Next tt).

(** *** Arguments and the exchange *)

Record Args := {
  symbol : string;
  side : string;
  order_type : string;
  amount : option float;
  price : option float;
  confirm : bool;
  test : bool;
  api_key : option string;
  api_secret : option string;
  max_order_notional : float;
  max_account_fraction : float;
  skip_balance_check : bool;
}.

(** [not s] for an optional string: [None] and [""] are falsy. *)
Definition falsy_str (s : option string) : bool :=
  match s with None => true | Some s => String.eqb s "" end.

(** [_to_float(value, default)] on an optional float. *)
Definition _to_float (v : option float) (default : float) : float :=
  match v with Some x => x | None => default end.

(** A balance entry as the exchange sends it: a number, or something
    [float(...)] rejects. *)
Inductive BalVal := BNum (x : float) | BBad.
Definition _to_float_bal (v : BalVal) (default : float) : float :=
  match v with BNum x => x | BBad => default end.
Definition float_bal (v : BalVal) : option float :=
  match v with BNum x => Some x | BBad => None end.

(** The four ticker fields after [_to_float(..., None)]. *)
Record Ticker := { last : option float; close : option float;
                   mark : option float; bid : option float }.

(** What the exchange does when called; [None] is a raised exception. The
    ticker is indexed by the call (it may be asked twice). *)
Record Exchange := {
  create_exchange_ok : bool;
  fetch_ticker : nat → option (option Ticker);
  fetch_balance_free : option (gmap string BalVal);
  create_order_ok : bool;
}.

(** Python's [a or b] on optional floats. *)
Definition por (a b : option float) : option float :=
  match a with
  | Some x => if Py.truthy x then a else b
  | None => b
  end.

(** [_market_price_from_exchange]. *)
Definition _market_price_from_exchange (ex : Exchange) (call : nat)
  : M (option float) :=
  match fetch_ticker ex call with
  | None => raise
  | Some None => ret None
  | Some (Some t) => ret (por (last t) (por (close t) (por (mark t) (bid t))))
  end.

(** [str.upper], [str.split("/")] and [str.strip]. A [string] is a
    sequence of code points below 256. On these [str.upper] capitalises
    [a-z] and U+00E0-U+00FE (U+00F7, the division sign, apart) and writes
    U+00DF as ["SS"]; the capitals of U+00B5 and U+00FF lie above U+00FF,
    and these two code points are left as they are here. [str.strip]
    removes the code points [str.isspace] accepts: 9-13, 28-32, 133, 160. *)
Definition upper_code (c : ascii) : ascii :=
  let n := nat_of_ascii c in
  if ((97 <=? n) && (n <=? 122)
      || (224 <=? n) && (n <=? 254) && negb (n =? 247))%nat
  then ascii_of_nat (n - 32) else c.
Definition upper_char (c : ascii) : string :=
  if (nat_of_ascii c =? 223)%nat then "SS"
  else String (upper_code c) EmptyString.
Fixpoint upper (s : string) : string :=
  match s with
  | EmptyString => EmptyString
  | String c r => upper_char c ++ upper r
  end.
Fixpoint split_slash (s : string) : list string :=
  match s with
  | EmptyString => [EmptyString]
  | String c r =>
      if Ascii.eqb c "/" then EmptyString :: split_slash r
      else match split_slash r with
           | [] => [String c EmptyString]
           | h :: t => String c h :: t
           end
  end.
Definition isspace (c : ascii) : bool :=
  let n := nat_of_ascii c in
  ((9 <=? n) && (n <=? 13) || (28 <=? n) && (n <=? 32)
   || (n =? 133) || (n =? 160))%nat.
Fixpoint lstrip (s : string) : string :=
  match s with
  | EmptyString => EmptyString
  | String c r => if isspace c then lstrip r else s
  end.
Definition strip (s : string) : string :=
  String.rev (lstrip (String.rev (lstrip s))).

Definition blocked_reply (st : string) : Reply :=
  {| success := false; reply_status := st |}.

(** [args.price is None or args.price <= 0]. *)
Definition price_missing_or_nonpositive (p : option float) : bool :=
  match p with Some x => Py.le x 0 | None => true end.

(** [args.price is not None and args.price > 0]. *)
Definition price_positive (p : option float) : bool :=
  match p with Some x => Py.gt x 0 | None => false end.

(** The body of [run_execute]. Past the first check [args.amount] is a
    float, read here as [amt]. The ticker is call 0 at the notional check
    and call 1 at the balance check. *)
Definition run_execute_body (args : Args) (ex : Exchange) : M Reply :=
  let symbol := upper (symbol args) in
  let symbol_parts := split_slash symbol in
  let amt := _to_float (amount args) 0 in
  let is_limit := String.eqb (order_type args) "limit" in
  let is_market := String.eqb (order_type args) "market" in
  (if match amount args with None => true | Some a => Py.le a 0 end
   then _add_risk_block "order_amount" "blocked" >>>
        return_ (blocked_reply "invalid_input")
   else ret tt) >>>
  _add_risk_block "order_amount" "pass" >>>
  (if is_limit && price_missing_or_nonpositive (price args)
   then _add_risk_block "order_price" "blocked" >>>
        return_ (blocked_reply "invalid_input")
   else ret tt) >>>
  (if is_limit then _add_risk_block "order_price" "pass"
   else _add_risk_block "order_price" "skip") >>>
  (if negb (length symbol_parts =? 2)%nat
   then _add_risk_block "symbol_format" "blocked" >>>
        return_ (blocked_reply "symbol_blocked")
   else ret tt) >>>
  _add_risk_block "symbol_format" "pass" >>>
  let base_currency := strip (nth 0 symbol_parts "") in
  let quote_currency := strip (nth 1 symbol_parts "") in
  let notional_cap := max_order_notional args in
  if negb (confirm args) then
    _add_risk_block "execution_confirmation" "skip" >>>
    (if Py.gt notional_cap 0 then
       if is_limit then
         let estimated_notional := (amt * _to_float (price args) 0)%float in
         if Py.gt estimated_notional notional_cap
         then _add_risk_block "notional_cap" "blocked" >>>
              return_ (blocked_reply "risk_limit_blocked")
         else _add_risk_block "notional_cap" "pass"
       else
         if price_positive (price args) then
           let estimated_notional := (amt * _to_float (price args) 0)%float in
           if Py.gt estimated_notional notional_cap
           then _add_risk_block "notional_cap" "blocked" >>>
                return_ (blocked_reply "risk_limit_blocked")
           else _add_risk_block "notional_cap" "pass"
         else _add_risk_block "notional_cap" "skip"
     else _add_risk_block "notional_cap" "skip") >>>
    (if Py.gt (max_account_fraction args) 0 && negb (skip_balance_check args)
     then _add_risk_block "balance_cap" "skip"
     else _add_risk_block "balance_cap" "skip") >>>
    return_ {| success := true; reply_status := "dry_run" |}
  else
    _add_risk_block "execution_confirmation" "pass" >>>
    (if falsy_str (api_key args) || falsy_str (api_secret args)
     then _add_risk_block "exchange_credentials" "blocked" >>>
          return_ (blocked_reply "live_blocked")
     else ret tt) >>>
    _add_risk_block "exchange_credentials" "pass" >>>
    (if create_exchange_ok ex
     then _add_risk_block "exchange_connection" "pass"
     else _add_risk_block "exchange_connection" "fail" >>>
          return_ (blocked_reply "live_blocked")) >>>
    (if Py.gt notional_cap 0 then
       let! notional_estimate :=
         (if is_market then
            let! market_price := _market_price_from_exchange ex 0 in
            match market_price with
            | Some mp =>
                if Py.le mp 0
                then _add_risk_block "notional_cap" "fail" >>>
                     return_ (blocked_reply "live_blocked")
                else ret (amt * mp)%float
            | None => _add_risk_block "notional_cap" "fail" >>>
                      return_ (blocked_reply "live_blocked")
            end
          else ret (amt * _to_float (price args) 0)%float) in
       if Py.le notional_estimate 0
       then _add_risk_block "notional_cap" "fail" >>>
            return_ (blocked_reply "live_blocked")
       else if Py.gt notional_estimate notional_cap
       then _add_risk_block "notional_cap" "blocked" >>>
            return_ (blocked_reply "risk_limit_blocked")
       else _add_risk_block "notional_cap" "pass"
     else _add_risk_block "notional_cap" "skip") >>>
    (let maf := max_account_fraction args in
     if negb (skip_balance_check args) && Py.truthy maf
        && Py.lt 0 maf && Py.le maf 1
     then
       try_except
         (match fetch_balance_free ex with
          | None => raise
          | Some free_funds =>
              if String.eqb (side args) "buy" then
                match free_funds !! quote_currency with
                | Some v =>
                    let available_quote := _to_float_bal v 0 in
                    let cap_quote := (available_quote * maf)%float in
                    let! notional_estimate :=
                      (if is_market then
                         let! market_price := _market_price_from_exchange ex 1 in
                         match market_price with
                         | Some mp => if Py.gt mp 0 then ret (Some (amt * mp)%float)
                                      else ret None
                         | None => ret None
                         end
                       else ret (Some (amt * _to_float (price args) 0)%float)) in
                    match notional_estimate with
                    | Some est =>
                        if Py.gt est cap_quote
                        then _add_risk_block "balance_cap" "blocked" >>>
                             return_ (blocked_reply "risk_limit_blocked")
                        else _add_risk_block "balance_cap" "pass"
                    | None => _add_risk_block "balance_cap" "skip"
                    end
                | None => _add_risk_block "balance_cap" "skip"
                end
              else
                match free_funds !! base_currency with
                | Some v =>
                    if Py.gt amt (_to_float_bal v 0)
                    then _add_risk_block "balance_cap" "blocked" >>>
                         match float_bal v with
                         | Some _ => return_ (blocked_reply "risk_limit_blocked")
                         | None => raise
                         end
                    else match float_bal v with
                         | Some _ => _add_risk_block "balance_cap" "pass"
                         | None => raise
                         end
                | None => _add_risk_block "balance_cap" "pass"
                end
          end)
         (_add_risk_block "balance_cap" "fail" >>>
          return_ (blocked_reply "risk_check_failed"))
     else _add_risk_block "balance_cap" "skip") >>>
    (if create_order_ok ex
     then _add_risk_block "order_submission" "pass" >>>
          ret {| success := true; reply_status := "submitted" |}
     else _add_risk_block "order_submission" "fail" >>>
          return_ (blocked_reply "execution_failed")).

(** The response: the reply fields, and the two shared objects, which
    [execution_report] references too. *)
Record Response := {
  resp_success : bool;
  resp_status : string;
  resp_risk_blocks : list Block;
  resp_risk_summary : gmap string nat;
  execution_report : RiskLog;
}.

Definition run_execute (args : Args) (ex : Exchange) : option Response :=
  match run_execute_body args ex initial_log with
  | (l, Next r) | (l, Return r) =>
      Some {| resp_success := success r; resp_status := reply_status r;
              resp_risk_blocks := risk_blocks l;
              resp_risk_summary := risk_summary l;
              execution_report := l |}
  | (_, Raised) => None
  end.

(** The four keys of [risk_summary]. *)
Definition summary_keys : list string := ["pass"; "skip"; "blocked"; "fail"].

(** The state of the two shared objects between statements: the counters
    add up to the number of blocks, and the dict has exactly its four keys. *)
Definition counted (l : RiskLog) : Prop :=
  summary_total (risk_summary l) = length (risk_blocks l)
  ∧ dom (risk_summary l) = list_to_set summary_keys.

Definition preserves {A} (m : M A) : Prop :=
  ∀ l, counted l → counted (m l).1.

(** The dry run of the test suite: a limit buy of 0.01 BTC/USDT at 100 with
    a notional cap of 2. *)
Definition dry_run_args : Args :=
  {| symbol := "btc/usdt"; side := "buy"; order_type := "limit";
     amount := Some 0.01%float; price := Some 100%float;
     confirm := false; test := false; api_key := None; api_secret := None;
     max_order_notional := 2%float; max_account_fraction := 0.2%float;
     skip_balance_check := false |}.

Definition offline_exchange : Exchange :=
  {| create_exchange_ok := false; fetch_ticker := λ _, None;
     fetch_balance_free := None; create_order_ok := false |}.
End Execute.

(** ** pandas Series conventions *)

(** A Series of floats is a [list float]; a missing value is NaN. The
    operations below have exact results (no rounding), so they are written
    out; the rounding aggregates are the fields of [Numerics]. *)

Module Pd.

(** What belongs to pandas and numpy rather than to the script: the
    aggregates, whose floating-point evaluation order is theirs (compensated
    and online summation); Python's [round(x, ndigits)];
    [Series.dt.total_seconds()], the float seconds of a gap given in
    nanoseconds (its rounding differs between pandas versions); and
    [sort_values], whose default sort is not stable, so that the order it
    gives rows with equal keys is its own. The engine is stated over any
    such implementation; [naive] below is one, used to run examples. *)
Class Numerics := {
  mean_of : list float → float;
  std_of : nat → list float → float;
  corr_of : list float → list float → float;
  round_nd : float → Z → float;
  total_seconds_of : Z → float;
  sort_by : ∀ A : Type, (A → Z) → list A → list A;
  sort_by_permutation : ∀ (A : Type) (key : A → Z) (l : list A),
    sort_by A key l ≡ₚ l;
  sort_by_sorted : ∀ (A : Type) (key : A → Z) (l : list A),
    StronglySorted Z.le (map key (sort_by A key l));
}.
Arguments sort_by {_ A} key l.

Definition isna (x : float) : bool := Py.isnan x.
Definition notna (x : float) : bool := negb (Py.isnan x).

(** [s.shift(k)] for [k >= 0] and [s.shift(-h)]. *)
Definition shift (k : nat) (xs : list float) : list float :=
  take (length xs) (replicate k nan ++ xs).
Definition shift_back (h : nat) (xs : list float) : list float :=
  drop h xs ++ replicate (Nat.min h (length xs)) nan.

(** [s.diff()] and [s.pct_change(k)]. *)
Definition diff (xs : list float) : list float :=
  zip_with PrimFloat.sub xs (shift 1 xs).
Definition pct_change (k : nat) (xs : list float) : list float :=
  zip_with (λ x p, x / p - 1)%float xs (shift k xs).

(** [s.clip(lower=0.0)] and [s.clip(upper=0.0)]: NaN stays NaN. *)
Definition clip_lower0 (xs : list float) : list float :=
  map (λ x, if Py.lt x 0 then 0%float else x) xs.
Definition clip_upper0 (xs : list float) : list float :=
  map (λ x, if Py.gt x 0 then 0%float else x) xs.

(** The window of [rolling(w)] ending at row [i]: present once [w] rows
    exist. *)
Definition window (w i : nat) (xs : list float) : option (list float) :=
  if (w =? 0)%nat then None
  else if (i + 1 <? w)%nat then None
  else Some (take w (drop (i + 1 - w) xs)).

(** [s.rolling(w).agg()] with the default [min_periods = w]: NaN until [w]
    rows exist and wherever the window holds a NaN. *)
Definition rolling (w : nat) (agg : list float → float) (xs : list float)
  : list float :=
  imap (λ i _, match window w i xs with
               | Some ws => if existsb isna ws then nan else agg ws
               | None => nan
               end) xs.

(** [s.replace(0, nan)] and [s.replace([0, inf, -inf], nan)]. *)
Definition replace_zero (xs : list float) : list float :=
  map (λ x, if Py.eq x 0 then nan else x) xs.
Definition replace_zero_inf (xs : list float) : list float :=
  map (λ x, if Py.eq x 0 || Py.isinf x then nan else x) xs.

(** [s.bfill()], [s.ffill()], [s.fillna(v)], [s.fillna(other)]. *)
Fixpoint bfill (xs : list float) : list float :=
  match xs with
  | [] => []
  | x :: r => let r' := bfill r in
              (if isna x then hd nan r' else x) :: r'
  end.
Fixpoint ffill_from (prev : float) (xs : list float) : list float :=
  match xs with
  | [] => []
  | x :: r => let v := if isna x then prev else x in v :: ffill_from v r
  end.
Definition ffill (xs : list float) : list float := ffill_from nan xs.
Definition fill1 (v x : float) : float := if isna x then v else x.
Definition fillna (v : float) (xs : list float) : list float :=
  map (fill1 v) xs.
Definition fillna_with (other xs : list float) : list float :=
  zip_with (λ x o, if isna x then o else x) xs other.

(** [s.min()]: NaN is skipped; NaN when nothing is left. *)
Definition series_min (xs : list float) : float :=
  foldl (λ acc x, if isna x then acc
                  else if isna acc then x
                  else if Py.lt x acc then x else acc) nan xs.

(** [s.median()]: NaN is skipped; the middle of the sorted values, the
    mean of the two middle ones when their number is even; NaN when nothing
    is left. *)
Definition median (xs : list float) : float :=
  let sorted := merge_sort (λ a b, Is_true (Py.le a b)) (List.filter notna xs) in
  let n := length sorted in
  let mid := (n / 2)%nat in
  if (n =? 0)%nat then nan
  else if Nat.odd n then default nan (sorted !! mid)
  else ((default nan (sorted !! (mid - 1)%nat) + default nan (sorted !! mid))
        / 2)%float.

(** Row-wise [max(axis=1)] and [min(axis=1)] of two columns, NaN skipped. *)
Definition max_skipna (a b : float) : float :=
  if isna a then b else if isna b then a else if Py.lt a b then b else a.
Definition min_skipna (a b : float) : float :=
  if isna a then b else if isna b then a else if Py.lt b a then b else a.

(** [s.nunique()]: the number of distinct non-NaN values. *)
Fixpoint distinct (xs : list float) : list float :=
  match xs with
  | [] => []
  | x :: r => let d := distinct r in
              if isna x || existsb (Py.eq x) d then d else x :: d
  end.
Definition nunique (xs : list float) : nat := length (distinct xs).

(** *** A plain implementation of the aggregates *)

Definition fsum (xs : list float) : float := foldl PrimFloat.add 0%float xs.
Definition flen (xs : list float) : float := Py.of_int (Z.of_nat (length xs)).
Definition naive_mean (xs : list float) : float := (fsum xs / flen xs)%float.
Definition naive_var (ddof : nat) (xs : list float) : float :=
  let m := naive_mean xs in
  (fsum (map (λ x, (x - m) * (x - m)) xs)
   / Py.of_int (Z.of_nat (length xs) - Z.of_nat ddof))%float.
Definition naive_std (ddof : nat) (xs : list float) : float :=
  PrimFloat.sqrt (naive_var ddof xs).
Definition naive_corr (xs ys : list float) : float :=
  let mx := naive_mean xs in
  let my := naive_mean ys in
  let sxy := fsum (zip_with (λ x y, (x - mx) * (y - my))%float xs ys) in
  let sxx := fsum (map (λ x, (x - mx) * (x - mx))%float xs) in
  let syy := fsum (map (λ y, (y - my) * (y - my))%float ys) in
  (sxy / PrimFloat.sqrt (sxx * syy))%float.

(** The integer nearest to a float (ties to even), when it has one. *)
Definition nearest_int (x : float) : option Z :=
  match Prim2SF x with
  | S754_zero _ => Some 0
  | S754_finite s m e =>
      let v := match e with
               | Zneg p =>
                   let q := Z.shiftr (Zpos m) (Zpos p) in
                   let r := Zpos m - Z.shiftl q (Zpos p) in
                   let half := Z.shiftl 1 (Zpos p - 1) in
                   if r <? half then q
                   else if half <? r then q + 1
                   else if Z.even q then q else q + 1
               | _ => Z.shiftl (Zpos m) e
               end in
      Some (if s then - v else v)
  | S754_infinity _ | S754_nan => None
  end.

(** Scale, round to the nearest integer, scale back. *)
Definition naive_round (x : float) (ndigits : Z) : float :=
  let p := Py.of_int (10 ^ ndigits) in
  match nearest_int (x * p) with
  | Some k => (Py.of_int k / p)%float
  | None => x
  end.

(** The gap in nanoseconds over 1e9. *)
Definition naive_total_seconds (ns : Z) : float :=
  (Py.of_int ns / 1e9)%float.

(** A stable sort: insertion from the right. *)
Fixpoint insert_by {A} (key : A → Z) (x : A) (l : list A) : list A :=
  match l with
  | [] => [x]
  | y :: r => if key x <=? key y then x :: l else y :: insert_by key x r
  end.
Definition insertion_sort {A} (key : A → Z) (l : list A) : list A :=
  foldr (insert_by key) [] l.

Lemma insert_by_permutation {A} (key : A → Z) (x : A) (l : list A) :
  insert_by key x l ≡ₚ x :: l.
Proof.
  induction l as [|y l IH]; simpl; [done|].
  destruct (_ <=? _); [done|]. rewrite IH. apply Permutation_swap.
Qed.

Lemma insertion_sort_permutation (A : Type) (key : A → Z) (l : list A) :
  insertion_sort key l ≡ₚ l.
Proof.
  induction l as [|x l IH]; simpl; [done|].
  by rewrite insert_by_permutation, IH.
Qed.

Lemma insert_by_sorted {A} (key : A → Z) (x : A) (l : list A) :
  StronglySorted Z.le (map key l) →
  StronglySorted Z.le (map key (insert_by key x l)).
Proof.
  induction l as [|y l IH]; simpl; intros Hs.
  - repeat constructor.
  - apply StronglySorted_inv in Hs as [Hs Hall].
    destruct (Z.leb_spec (key x) (key y)); simpl.
    + constructor; [by constructor|]. constructor; [done|].
      eapply Forall_impl; [exact Hall|]. simpl. lia.
    + constructor; [by apply IH|].
      rewrite insert_by_permutation. simpl. constructor; [lia|done].
Qed.

Lemma insertion_sort_sorted (A : Type) (key : A → Z) (l : list A) :
  StronglySorted Z.le (map key (insertion_sort key l)).
Proof.
  induction l as [|x l IH]; simpl; [constructor|]. by apply insert_by_sorted.
Qed.

Definition naive : Numerics :=
  {| mean_of := naive_mean; std_of := naive_std;
     corr_of := naive_corr; round_nd := naive_round;
     total_seconds_of := naive_total_seconds;
     sort_by := @insertion_sort;
     sort_by_permutation := insertion_sort_permutation;
     sort_by_sorted := insertion_sort_sorted |}.

End Pd.

(** ** Bars and the Pair-Spread Builder ([_build_stat_arb_df]) *)

(** One row of [_load_ohlcv_csv]: the timestamp in nanoseconds since the
    epoch (the loader has dropped unparseable ones), five floats. *)
Record Bar := {
  timestamp : Z;
  open : float;
  high : float;
  low : float;
  close : float;
  volume : float;
}.

(** A row of the frame the builder returns: a bar with the two extra
    columns. *)
Record SpreadBar := {
  spread_bar : Bar;
  pair_symbol : string;
  hedge_ratio : float;
}.

Module Spread.
Import Pd.

(** [drop_duplicates("timestamp")] on a frame sorted by timestamp: the
    first row of every timestamp is kept. *)
Fixpoint drop_duplicates_from (seen : option Z) (l : list Bar) : list Bar :=
  match l with
  | [] => []
  | x :: r =>
      if bool_decide (seen = Some (timestamp x)) then drop_duplicates_from seen r
      else x :: drop_duplicates_from (Some (timestamp x)) r
  end.
Definition drop_duplicates (l : list Bar) : list Bar :=
  drop_duplicates_from None l.

(** The join tolerance: [int(step_ns * 1.5)] nanoseconds, where [step_ns]
    is the smaller of the two median steps, one hour when neither is known.
    [None] is an exception: [int] of an infinity, or a [pd.Timedelta] beyond
    the int64 nanoseconds. *)
Definition tolerance_ns (base_step pair_step : option Z) : option Z :=
  let step_ns :=
    match base_step, pair_step with
    | Some a, Some b => Z.min a b
    | Some a, None => a
    | None, Some b => b
    | None, None => 3600 * 1000000000
    end in
  match Py.to_int (Py.of_int step_ns * 1.5)%float with
  | Some tol => if tol <=? 9223372036854775807 then Some tol else None
  | None => None
  end.

(** [pd.merge_asof(..., direction="nearest", tolerance=tol)] for one left
    timestamp: the last right row at or before it and the first at or after
    it, each within the tolerance; the nearer of the two, the earlier on a
    tie. *)
Definition asof_backward (tol t : Z) (pair : list Bar) : option Bar :=
  match last (List.filter (λ b, timestamp b <=? t) pair) with
  | Some b => if t - timestamp b <=? tol then Some b else None
  | None => None
  end.
Definition asof_forward (tol t : Z) (pair : list Bar) : option Bar :=
  match List.filter (λ b, t <=? timestamp b) pair with
  | b :: _ => if timestamp b - t <=? tol then Some b else None
  | [] => None
  end.
Definition asof_nearest (tol t : Z) (pair : list Bar) : option Bar :=
  match asof_backward tol t pair, asof_forward tol t pair with
  | Some b, Some f =>
      if t - timestamp b <=? timestamp f - t then Some b else Some f
  | Some b, None => Some b
  | None, f => f
  end.

(** A joined row that survived [dropna] on the pair columns. *)
Record Merged := { base_row : Bar; pair_row : Bar }.

Definition pair_columns_present (b : Bar) : bool :=
  notna (open b) && notna (high b) && notna (low b)
  && notna (close b) && notna (volume b).

Definition merge_rows (base pair : list Bar) (tol : Z) : list Merged :=
  omap (λ b, match asof_nearest tol (timestamp b) pair with
             | Some p => if pair_columns_present p
                         then Some {| base_row := b; pair_row := p |}
                         else None
             | None => None
             end) base.

(** The shift that lifts the spread: [abs(spread_min) + 1e-8] when the
    minimum is a number and [<= 0], else [0.0]. *)
Definition spread_shift_of (spread_min : float) : float :=
  if notna spread_min && Py.le spread_min 0
  then (abs spread_min + 1e-8)%float
  else 0%float.

Section Builder.
Context `{Numerics}.

(** [sort_values("timestamp")]. *)
Definition sort_values (bars : list Bar) : list Bar := sort_by timestamp bars.

(** [_median_step_ns]: the median gap between consecutive timestamps, taken
    through float seconds and back to nanoseconds, truncated by [int], when
    it is positive. The outer [None] is the exception [int] raises on an
    infinity. *)
Definition _median_step_ns (ts : list Z) : option (option Z) :=
  let sorted := merge_sort Z.le ts in
  let deltas := zip_with Z.sub (drop 1 sorted) sorted in
  let ns :=
    List.filter notna
      (map (λ d, total_seconds_of d * 1000000000)%float deltas) in
  match ns with
  | [] => Some None
  | _ =>
      match Py.to_int (median ns) with
      | Some step => Some (if 0 <? step then Some step else None)
      | None => None
      end
  end.

(** The hedge-ratio column. *)
Definition hedge_ratio_column (hedge_window : nat) (merged : list Merged)
  : list float :=
  let ratio :=
    replace_zero_inf
      (map (λ m, close (base_row m) / close (pair_row m))%float merged) in
  let rolled := rolling hedge_window mean_of ratio in
  fillna 1 (ffill (bfill (replace_zero_inf rolled))).

(** The [pair_spread] column before and after the shift. *)
Definition raw_spread (hedge_window : nat) (merged : list Merged) : list float :=
  zip_with (λ m h, close (base_row m) - h * close (pair_row m))%float
    merged (hedge_ratio_column hedge_window merged).

Definition pair_spread (hedge_window : nat) (merged : list Merged) : list float :=
  let raw := raw_spread hedge_window merged in
  let spread_shift := spread_shift_of (series_min raw) in
  map (λ x, x + spread_shift)%float raw.

Definition spread_rows (pair_symbol : string) (hedge_window : nat)
    (merged : list Merged) : list SpreadBar :=
  let hedge := hedge_ratio_column hedge_window merged in
  let spread := pair_spread hedge_window merged in
  let spread_open := fillna_with spread (shift 1 spread) in
  let rows :=
    zip_with (λ m '(h, (c, o)),
      {| spread_bar :=
           {| timestamp := timestamp (base_row m);
              open := o;
              high := max_skipna c o;
              low := min_skipna c o;
              close := c;
              volume := (fill1 0 (volume (base_row m))
                         + fill1 0 (volume (pair_row m)))%float |};
         pair_symbol := pair_symbol;
         hedge_ratio := h |})
      merged (zip hedge (zip spread spread_open)) in
  List.filter (λ r, let b := spread_bar r in
                    notna (open b) && notna (high b) && notna (low b)
                    && notna (close b) && notna (volume b)) rows.

(** The join of the two legs: [merged], from the sorted legs to the
    [dropna] on the pair columns. [None] is an exception of the tolerance
    computation. *)
Definition merged_legs (primary secondary : list Bar) : option (list Merged) :=
  let base := drop_duplicates (sort_values primary) in
  let pair := drop_duplicates (sort_values secondary) in
  match _median_step_ns (map timestamp base),
        _median_step_ns (map timestamp pair) with
  | Some base_step, Some pair_step =>
      match tolerance_ns base_step pair_step with
      | Some tolerance => Some (merge_rows base pair tolerance)
      | None => None
      end
  | _, _ => None
  end.

(** [_build_stat_arb_df]. [None] is a raised exception: the [ValueError] of
    an empty join, or one of the tolerance computation. *)
Definition _build_stat_arb_df (primary secondary : list Bar)
    (pair_symbol : string) (hedge_window : nat) : option (list SpreadBar) :=
  match merged_legs primary secondary with
  | Some (m :: merged) =>
      Some (spread_rows pair_symbol hedge_window (m :: merged))
  | Some [] => None
  | None => None
  end.

End Builder.

(** Fifty hourly bars per leg at prices in the billions: the primary closes
    at 2^31 on every bar, the secondary alternates between 2^31 and 2^30. *)
Definition flat_bar (i : nat) (c : float) : Bar :=
  {| timestamp := 1700000000000000000 + Z.of_nat i * 3600000000000;
     open := c; high := c; low := c; close := c; volume := 1000 |}.
Definition big_primary : list Bar :=
  map (λ i, flat_bar i 0x1p31) (seq 0 50).
Definition big_secondary : list Bar :=
  map (λ i, flat_bar i (if Nat.even i then 0x1p31 else 0x1p30)%float) (seq 0 50).

End Spread.

(** ** The Indicator Engine ([_rsi], [_add_indicators]) *)

(** A row of the frame after [_add_indicators]: the bar and its nine
    indicator columns. *)
Record Row := {
  bar : Bar;
  sma : float;
  std : float;
  bb_upper : float;
  bb_lower : float;
  rsi : float;
  ma_fast : float;
  ma_slow : float;
  trend_strength : float;
  atr : float;
}.

(** The window parameters, as [run_backtest] passes them: each window is an
    [int] already floored at 2. *)
Record Windows := {
  bb_window : nat;
  bb_std : float;
  rsi_period : nat;
  momentum_fast : nat;
  momentum_slow : nat;
  atr_window : nat;
}.

Module Indicators.
Import Pd.

Section Engine.
Context `{Numerics}.

(** [_rsi(series, period)]. *)
Definition _rsi (series : list float) (period : nat) : list float :=
  let delta := diff series in
  let up := clip_lower0 delta in
  let down := map PrimFloat.opp (clip_upper0 delta) in
  let avg_gain := rolling period mean_of up in
  let avg_loss := rolling period mean_of down in
  let rs := zip_with PrimFloat.div avg_gain (replace_zero avg_loss) in
  map (λ r, 100 - 100 / (1 + r))%float rs.

(** The true range column: the row-wise maximum, NaN skipped, of
    [high - low], [|high - prev_close|], [|low - prev_close|]. *)
Definition true_range (bars : list Bar) : list float :=
  let prev_close := shift 1 (map close bars) in
  zip_with (λ b pc,
      max_skipna
        (max_skipna (high b - low b)%float (abs (high b - pc)))
        (abs (low b - pc)))
    bars prev_close.

(** [_add_indicators(df, params)]. *)
Definition _add_indicators (bars : list Bar) (p : Windows) : list Row :=
  let closes := map close bars in
  let sma_c := rolling (bb_window p) mean_of closes in
  let std_c := rolling (bb_window p) (std_of 0) closes in
  let rsi_c := _rsi closes (rsi_period p) in
  let fast_c := rolling (momentum_fast p) mean_of closes in
  let slow_c := rolling (momentum_slow p) mean_of closes in
  let strength_c :=
    zip_with (λ d s, abs d / s)%float
      (zip_with PrimFloat.sub fast_c slow_c) (replace_zero slow_c) in
  let atr_c := rolling (atr_window p) mean_of (true_range bars) in
  imap (λ i b,
      let at_ (col : list float) := default nan (col !! i) in
      {| bar := b;
         sma := at_ sma_c;
         std := at_ std_c;
         bb_upper := (at_ sma_c + bb_std p * at_ std_c)%float;
         bb_lower := (at_ sma_c - bb_std p * at_ std_c)%float;
         rsi := at_ rsi_c;
         ma_fast := at_ fast_c;
         ma_slow := at_ slow_c;
         trend_strength := at_ strength_c;
         atr := at_ atr_c |}) bars.

(** A row [dropna] keeps: none of the nine indicator columns is NaN. *)
Definition indicators_defined (r : Row) : bool :=
  notna (sma r) && notna (std r) && notna (bb_upper r) && notna (bb_lower r)
  && notna (rsi r) && notna (atr r) && notna (ma_fast r) && notna (ma_slow r)
  && notna (trend_strength r).

(** The frame the loop of [run_backtest] walks:
    [_add_indicators(df, params).dropna(subset=[...])]. *)
Definition simulation_rows (bars : list Bar) (p : Windows) : list Row :=
  List.filter indicators_defined (_add_indicators bars p).

End Engine.

(** The longest configured window, and the number of leading rows the
    columns need before all of them exist (the oscillator reads
    [rsi_period + 1] closes). *)
Definition max_of (ws : list nat) : nat := foldr Nat.max 0%nat ws.
Definition max_window (p : Windows) : nat :=
  max_of [bb_window p; rsi_period p; momentum_fast p; momentum_slow p;
          atr_window p].
Definition warmup (p : Windows) : nat :=
  (max_of [bb_window p; S (rsi_period p); momentum_fast p; momentum_slow p;
           atr_window p] - 1)%nat.

(** Six hourly bars with strictly rising closes, and windows of 2 and 3. *)
Definition rising_bars : list Bar :=
  map (λ i, let c := Py.of_int (10 + Z.of_nat i) in
            {| timestamp := 1700000000000000000 + Z.of_nat i * 3600000000000;
               open := c; high := (c + 1)%float; low := (c - 1)%float;
               close := c; volume := 1000 |}) (seq 0 6).
Definition small_windows : Windows :=
  {| bb_window := 2; bb_std := 2; rsi_period := 2; momentum_fast := 2;
     momentum_slow := 3; atr_window := 2 |}.

End Indicators.

(** ** The strategy/risk loop of [run_backtest] *)

Module Backtest.
Import Pd.

(** The entries of [params] the loop reads. *)
Record Params := {
  rsi_buy : float;
  rsi_sell : float;
  strategy_mode : string;
  trend_threshold : float;
  use_regime : bool;
  max_portfolio_risk : float;
  ml_enabled : bool;
  ml_model_type : string;
  ml_confidence : float;
  sentiment_threshold : float;
  fee_rate : float;
  stop_atr_mult : float;
  strategy_correlation_cap : float;
  strategy_correlation_window : nat;
  statarb_z_entry : float;
  statarb_z_exit : float;
  statarb_z_stop : float;
  position_size : float;
  max_drawdown : float;
}.

(** What the loop reads at index [idx]: the frame row, [ml_probs.iloc[idx]]
    and [sentiment.iloc[idx]]. *)
Record Tick := {
  row : Row;
  ml_probability : float;
  sentiment_score : float;
}.

(** The loop's [enumerate(df.itertuples())] with the two overlay series
    read by position: [sentiment] falls back to 0.0 past its end, and
    [ml_probs] has the length of the frame. *)
Definition ticks_of (rows : list Row) (ml_probs sentiment : list float)
    : list Tick :=
  imap (λ idx r, {| row := r;
                    ml_probability := default nan (ml_probs !! idx);
                    sentiment_score := default 0%float (sentiment !! idx) |})
    rows.

(** An entry of [trades]. [amount] is set by [_open_trade] only, [pnl] and
    [pnl_pct] by [_close_trade] only. *)
Record Trade := {
  side : string;
  trade_timestamp : Z;
  price : float;
  qty : float;
  amount : option float;
  pnl : option float;
  pnl_pct : option float;
  reason : string;
  position_open_timestamp : option Z;
}.

(** An entry of [risk_events], by its ["type"]. *)
Inductive RiskEvent :=
| drawdown_circuit_breaker (ts : Z) (equity drawdown : float)
| strategy_correlation_block (ts : Z) (correlation cap : float)
| statarb_entry_block (ts : Z) (price : option float).

(** The four [nonlocal] position variables. *)
Record Position := {
  position_qty : float;
  position_entry : float;
  position_entry_ts : option Z;
  position_fees : float;
}.

(** The [risk_controls] dict. *)
Record RiskControls := {
  drawdown_circuit_enabled : bool;
  drawdown_circuit_level : float;
  drawdown_circuit_hits : nat;
  strategy_correlation_cap_echo : float;
  strategy_correlation_window_echo : nat;
  strategy_correlation_hits : nat;
  max_strategy_correlation_abs : float;
}.

(** [strategy_signal_history]: its two lists. *)
Record SignalHistory := {
  momentum : list float;
  mean_reversion : list float;
}.

(** Everything the loop mutates. [halt_reason] keeps the two numbers the
    message is formatted from. *)
Record State := {
  cash : float;
  peak_equity : float;
  position : Position;
  halted : bool;
  halt_reason : option (float * float);
  equity_curve : list float;
  trades : list Trade;
  strategy_signal_history : SignalHistory;
  risk_events : list RiskEvent;
  risk_controls : RiskControls;
}.

Definition flat_position : Position :=
  {| position_qty := 0; position_entry := 0;
     position_entry_ts := None; position_fees := 0 |}.

Definition set_cash_position (s : State) (c : float) (pos : Position)
    (ts : list Trade) : State :=
  {| cash := c; peak_equity := peak_equity s; position := pos;
     halted := halted s; halt_reason := halt_reason s;
     equity_curve := equity_curve s; trades := ts;
     strategy_signal_history := strategy_signal_history s;
     risk_events := risk_events s; risk_controls := risk_controls s |}.

Definition set_peak_equity (s : State) (v : float) : State :=
  {| cash := cash s; peak_equity := v; position := position s;
     halted := halted s; halt_reason := halt_reason s;
     equity_curve := equity_curve s; trades := trades s;
     strategy_signal_history := strategy_signal_history s;
     risk_events := risk_events s; risk_controls := risk_controls s |}.

Definition set_halted (s : State) (why : float * float) (ev : RiskEvent)
    : State :=
  let rc := risk_controls s in
  {| cash := cash s; peak_equity := peak_equity s; position := position s;
     halted := true; halt_reason := Some why;
     equity_curve := equity_curve s; trades := trades s;
     strategy_signal_history := strategy_signal_history s;
     risk_events := risk_events s ++ [ev];
     risk_controls :=
       {| drawdown_circuit_enabled := drawdown_circuit_enabled rc;
          drawdown_circuit_level := drawdown_circuit_level rc;
          drawdown_circuit_hits := S (drawdown_circuit_hits rc);
          strategy_correlation_cap_echo := strategy_correlation_cap_echo rc;
          strategy_correlation_window_echo := strategy_correlation_window_echo rc;
          strategy_correlation_hits := strategy_correlation_hits rc;
          max_strategy_correlation_abs := max_strategy_correlation_abs rc |} |}.

Definition append_equity (s : State) (equity : float) : State :=
  {| cash := cash s; peak_equity := peak_equity s; position := position s;
     halted := halted s; halt_reason := halt_reason s;
     equity_curve := equity_curve s ++ [equity]; trades := trades s;
     strategy_signal_history := strategy_signal_history s;
     risk_events := risk_events s; risk_controls := risk_controls s |}.

Definition set_history (s : State) (h : SignalHistory) : State :=
  {| cash := cash s; peak_equity := peak_equity s; position := position s;
     halted := halted s; halt_reason := halt_reason s;
     equity_curve := equity_curve s; trades := trades s;
     strategy_signal_history := h;
     risk_events := risk_events s; risk_controls := risk_controls s |}.

Definition set_max_correlation (s : State) (v : float) : State :=
  let rc := risk_controls s in
  {| cash := cash s; peak_equity := peak_equity s; position := position s;
     halted := halted s; halt_reason := halt_reason s;
     equity_curve := equity_curve s; trades := trades s;
     strategy_signal_history := strategy_signal_history s;
     risk_events := risk_events s;
     risk_controls :=
       {| drawdown_circuit_enabled := drawdown_circuit_enabled rc;
          drawdown_circuit_level := drawdown_circuit_level rc;
          drawdown_circuit_hits := drawdown_circuit_hits rc;
          strategy_correlation_cap_echo := strategy_correlation_cap_echo rc;
          strategy_correlation_window_echo := strategy_correlation_window_echo rc;
          strategy_correlation_hits := strategy_correlation_hits rc;
          max_strategy_correlation_abs := v |} |}.

Definition record_correlation_block (s : State) (ev : RiskEvent) : State :=
  let rc := risk_controls s in
  {| cash := cash s; peak_equity := peak_equity s; position := position s;
     halted := halted s; halt_reason := halt_reason s;
     equity_curve := equity_curve s; trades := trades s;
     strategy_signal_history := strategy_signal_history s;
     risk_events := risk_events s ++ [ev];
     risk_controls :=
       {| drawdown_circuit_enabled := drawdown_circuit_enabled rc;
          drawdown_circuit_level := drawdown_circuit_level rc;
          drawdown_circuit_hits := drawdown_circuit_hits rc;
          strategy_correlation_cap_echo := strategy_correlation_cap_echo rc;
          strategy_correlation_window_echo := strategy_correlation_window_echo rc;
          strategy_correlation_hits := S (strategy_correlation_hits rc);
          max_strategy_correlation_abs := max_strategy_correlation_abs rc |} |}.

Definition append_risk_event (s : State) (ev : RiskEvent) : State :=
  {| cash := cash s; peak_equity := peak_equity s; position := position s;
     halted := halted s; halt_reason := halt_reason s;
     equity_curve := equity_curve s; trades := trades s;
     strategy_signal_history := strategy_signal_history s;
     risk_events := risk_events s ++ [ev]; risk_controls := risk_controls s |}.

(** The state before the first bar, from [params] and [initial_cash]. *)
Definition initial_state (p : Params) (initial_cash : float) : State :=
  {| cash := initial_cash; peak_equity := initial_cash;
     position := flat_position; halted := false; halt_reason := None;
     equity_curve := []; trades := [];
     strategy_signal_history := {| momentum := []; mean_reversion := [] |};
     risk_events := [];
     risk_controls :=
       {| drawdown_circuit_enabled := Py.gt (max_drawdown p) 0;
          drawdown_circuit_level := max_drawdown p;
          drawdown_circuit_hits := 0;
          strategy_correlation_cap_echo := strategy_correlation_cap p;
          strategy_correlation_window_echo := strategy_correlation_window p;
          strategy_correlation_hits := 0;
          max_strategy_correlation_abs := 0 |} |}.

(** [initial_cash = max(1e-9, _to_float(args.initial_cash, 10000.0))]. *)
Definition initial_cash_of (arg : float) : float := Py.max2 1e-9 arg.

Section Loop.
Context `{Numerics}.
Variable p : Params.

(** [_safe_correlation]. *)
Definition _safe_correlation (left right : list float) : option float :=
  if (length left <? 2)%nat || negb (length left =? length right)%nat
  then None
  else if (nunique left <? 2)%nat || (nunique right <? 2)%nat then None
  else let corr := corr_of left right in
       if isna corr then None else Some corr.

(** [_open_trade]. *)
Definition _open_trade (ts : Z) (price qty fee : float) (reason : string)
    (s : State) : State :=
  let pos := position s in
  set_cash_position s
    (cash s - (qty * price + fee))%float
    {| position_qty := (position_qty pos + qty)%float;
       position_entry := price;
       position_entry_ts := Some ts;
       position_fees := fee |}
    (trades s ++
     [{| side := if Py.ge qty 0 then "buy" else "sell";
         trade_timestamp := ts;
         price := round_nd price 8;
         qty := round_nd qty 8;
         amount := Some (round_nd (qty * price) 8);
         pnl := None; pnl_pct := None;
         reason := reason;
         position_open_timestamp := Some ts |}]).

(** [_close_trade]: nothing when the position is zero. *)
Definition _close_trade (ts : Z) (price : float) (reason : string)
    (s : State) : State :=
  let pos := position s in
  let q := position_qty pos in
  if Py.eq q 0 then s
  else
    let proceeds := (q * price)%float in
    let fee := (abs proceeds * fee_rate p)%float in
    let pnl := ((price - position_entry pos) * q - position_fees pos - fee)%float in
    let pnl_pct0 :=
      if Py.gt (position_entry pos) 0
      then ((price - position_entry pos) / position_entry pos)%float
      else 0%float in
    let pnl_pct := if Py.lt q 0 then (pnl_pct0 * -1)%float else pnl_pct0 in
    set_cash_position s
      (cash s + (proceeds - fee))%float
      flat_position
      (trades s ++
       [{| side := if Py.gt q 0 then "sell" else "buy";
           trade_timestamp := ts;
           price := round_nd price 8;
           qty := round_nd q 8;
           amount := None;
           pnl := Some (round_nd pnl 8);
           pnl_pct := Some (round_nd pnl_pct 6);
           reason := reason;
           position_open_timestamp := position_entry_ts pos |}]).

(** *** One pass of the loop body *)

Definition tick_ts (t : Tick) : Z := timestamp (bar (row t)).
Definition tick_close (t : Tick) : float := close (bar (row t)).

(** [equity = cash + position_qty * close]. *)
Definition bar_equity (t : Tick) (s : State) : float :=
  (cash s + position_qty (position s) * tick_close t)%float.

(** [if equity > peak_equity: peak_equity = equity]. *)
Definition mark_peak (t : Tick) (s : State) : State :=
  if Py.gt (bar_equity t s) (peak_equity s)
  then set_peak_equity s (bar_equity t s) else s.

(** Mark to market, update the peak, and trip the drawdown circuit: the
    statements from [equity = ...] to [equity_curve.append]. *)
Definition drawdown_check (t : Tick) (s : State) : State :=
  let ts := tick_ts t in
  let close := tick_close t in
  let equity := bar_equity t s in
  let s1 := mark_peak t s in
  let drawdown :=
    if Py.gt (peak_equity s1) 0
    then (1 - equity / peak_equity s1)%float else 0%float in
  let s2 :=
    if negb (halted s1) && Py.ge drawdown (max_drawdown p) then
      let sa := if Py.gt (position_qty (position s1)) 0
                then _close_trade ts close "drawdown-halt" s1 else s1 in
      let sb := if Py.lt (position_qty (position sa)) 0
                then _close_trade ts close "drawdown-halt" sa else sa in
      set_halted sb (drawdown, max_drawdown p)
        (drawdown_circuit_breaker ts (round_nd equity 8) (round_nd drawdown 6))
    else s1 in
  append_equity s2 equity.

(** [xs[-n:]] for [n > 0]. *)
Definition last_n (n : nat) (xs : list float) : list float :=
  drop (length xs - n) xs.

(** The two raw signals, their histories, and the correlation guard. The
    result is the new state and [correlation_blocked]. *)
Definition correlation_guard (t : Tick) (s : State) : State * bool :=
  let r := row t in
  let close := tick_close t in
  let mean_reversion_signal :=
    (Py.of_bool (Py.le close (bb_lower r) && Py.lt (rsi r) (rsi_buy p))
     - Py.of_bool (Py.ge close (bb_upper r) && Py.gt (rsi r) (rsi_sell p)))%float in
  let momentum_signal :=
    (Py.of_bool (Py.gt (ma_fast r) (ma_slow r) && Py.gt close (ma_fast r)
                 && Py.gt (rsi r) (rsi_buy p))
     - Py.of_bool (Py.le (ma_fast r) (ma_slow r)
                   || Py.gt (rsi r) (rsi_sell p + 5)))%float in
  let h := strategy_signal_history s in
  let h' := {| momentum := momentum h ++ [momentum_signal];
               mean_reversion := mean_reversion h ++ [mean_reversion_signal] |} in
  let s1 := set_history s h' in
  let window := strategy_correlation_window p in
  let current_corr :=
    if (window <=? length (momentum h'))%nat
    then _safe_correlation (last_n window (momentum h'))
                           (last_n window (mean_reversion h'))
    else None in
  let s2 :=
    match current_corr with
    | Some corr =>
        set_max_correlation s1
          (Py.max2 (max_strategy_correlation_abs (risk_controls s1)) (abs corr))
    | None => s1
    end in
  match current_corr with
  | Some corr =>
      if Py.gt (strategy_correlation_cap p) 0
         && Py.gt (abs corr) (strategy_correlation_cap p)
      then (record_correlation_block s2
              (strategy_correlation_block (tick_ts t) (round_nd corr 8)
                 (strategy_correlation_cap p)), true)
      else (s2, false)
  | None => (s2, false)
  end.

(** What the middle of the loop body computes before it touches the
    position. *)
Record Signals := {
  active_mode : string;
  entry_signal : bool;
  exit_signal : bool;
  stop_loss_signal : bool;
  entry_qty_sign : float;
}.

Definition is_stat_arb (mode : string) : bool := String.eqb mode "stat-arb".

(** The mode after regime routing. *)
Definition resolve_mode (t : Tick) : string :=
  let r := row t in
  let trending := Py.gt (ma_fast r) (ma_slow r)
                  && Py.ge (trend_strength r) (trend_threshold p) in
  if use_regime p && String.eqb (strategy_mode p) "adaptive"
  then (if trending then "momentum" else "mean-reversion")
  else strategy_mode p.

(** The z-score of stat-arb mode. *)
Definition zscore_of (t : Tick) : float :=
  let r := row t in
  let spread_std := if Py.truthy (std r) then std r else 0%float in
  if Py.gt spread_std 0
  then ((tick_close t - sma r) / spread_std)%float else 0%float.

(** The signals of one bar: the branch on the mode, the correlation block
    on entries, and the overlay gating. *)
Definition signals (t : Tick) (correlation_blocked : bool) (s : State)
    : Signals :=
  let r := row t in
  let close := tick_close t in
  let ml_prob := if ml_enabled p then ml_probability t else 0.5%float in
  let sentiment_ok := Py.ge (sentiment_score t) (sentiment_threshold p) in
  let mode := resolve_mode t in
  let q := position_qty (position s) in
  let mean_reversion_entry := Py.le close (bb_lower r) && Py.lt (rsi r) (rsi_buy p) in
  let mean_reversion_exit := Py.ge close (bb_upper r) && Py.gt (rsi r) (rsi_sell p) in
  let momentum_entry := Py.gt (ma_fast r) (ma_slow r) && Py.gt close (ma_fast r)
                        && Py.gt (rsi r) (rsi_buy p) in
  let momentum_exit := Py.le (ma_fast r) (ma_slow r)
                       || Py.gt (rsi r) (rsi_sell p + 5) in
  let '(entry0, exit0, stop0, sign0) :=
    if String.eqb mode "mean-reversion" then
      (mean_reversion_entry, mean_reversion_exit, false, 0%float)
    else if String.eqb mode "momentum" then
      (momentum_entry, momentum_exit, false, 0%float)
    else if String.eqb mode "momentum-only" then
      (momentum_entry, momentum_exit, false, 0%float)
    else if String.eqb mode "stat-arb" then
      let zscore := zscore_of t in
      let long0 := Py.le zscore (- statarb_z_entry p) in
      let short0 := Py.ge zscore (statarb_z_entry p) in
      let long1 := if ml_enabled p
                   then long0 && Py.ge ml_prob (ml_confidence p) else long0 in
      let short1 := if ml_enabled p
                    then short0 && Py.ge (1 - ml_prob) (ml_confidence p)
                    else short0 in
      let long2 := if correlation_blocked then false else long1 in
      let short2 := if correlation_blocked then false else short1 in
      let long_entry := long2 && sentiment_ok in
      let short_entry := short2 && sentiment_ok in
      let sign := if short_entry && negb long_entry then (-1)%float
                  else if long_entry then 1%float else 0%float in
      (Py.ne sign 0,
       (Py.gt q 0 && Py.ge zscore (statarb_z_exit p))
       || (Py.lt q 0 && Py.le zscore (- statarb_z_exit p)),
       (Py.gt q 0 && Py.ge zscore (statarb_z_stop p))
       || (Py.lt q 0 && Py.le zscore (- statarb_z_stop p)),
       sign)
    else
      (mean_reversion_entry, mean_reversion_exit, false, 0%float) in
  let entry1 :=
    if correlation_blocked
       && (String.eqb mode "momentum" || String.eqb mode "mean-reversion"
           || String.eqb mode "momentum-only")
    then false else entry0 in
  let known_model :=
    String.eqb (ml_model_type p) "random_forest"
    || String.eqb (ml_model_type p) "xgboost"
    || String.eqb (ml_model_type p) "logistic" in
  let '(entry2, exit2) :=
    if ml_enabled p && known_model then
      if Py.ge (ml_confidence p) 0 then
        ((if negb (is_stat_arb mode)
          then entry1 && Py.ge ml_prob (ml_confidence p) && sentiment_ok
          else entry1),
         exit0 || Py.le ml_prob (1 - ml_confidence p))
      else
        ((if negb (is_stat_arb mode) then entry1 && sentiment_ok else entry1),
         exit0)
    else
      ((if negb (is_stat_arb mode) then entry1 && sentiment_ok else entry1),
       exit0) in
  {| active_mode := mode; entry_signal := entry2; exit_signal := exit2;
     stop_loss_signal := stop0; entry_qty_sign := sign0 |}.

(** The stop and exit checks of an open position. [Some s'] is a close
    followed by [continue]; [None] falls through to the entry check. *)
Definition exit_checks (t : Tick) (sg : Signals) (s : State) : option State :=
  let r := row t in
  let ts := tick_ts t in
  let pos := position s in
  let q := position_qty pos in
  if negb (halted s) && Py.ne q 0 then
    if Py.gt (atr r) 0 && Py.gt q 0 then
      let stop_price := (position_entry pos - stop_atr_mult p * atr r)%float in
      if Py.le (low (bar r)) stop_price
      then Some (_close_trade ts (Py.max2 stop_price 1e-8) "stop_loss_atr" s)
      else if stop_loss_signal sg
      then Some (_close_trade ts (Py.max2 stop_price 1e-8) "statarb_stop_loss" s)
      else if exit_signal sg
      then Some (_close_trade ts (tick_close t) "exit_signal" s)
      else None
    else if Py.gt (atr r) 0 && Py.lt q 0 then
      let stop_price := (position_entry pos + stop_atr_mult p * atr r)%float in
      if Py.ge (high (bar r)) stop_price
      then Some (_close_trade ts (Py.max2 stop_price 1e-8) "stop_loss_atr_short" s)
      else if stop_loss_signal sg
      then Some (_close_trade ts (Py.max2 stop_price 1e-8) "statarb_stop_loss" s)
      else if exit_signal sg
      then Some (_close_trade ts (tick_close t) "exit_signal" s)
      else None
    else None
  else None.

(** The entry check of a flat position. [None] is the [ZeroDivisionError]
    of [allocation / size_price] at a zero close. *)
Definition entry_check (t : Tick) (correlation_blocked : bool) (sg : Signals)
    (s : State) : option State :=
  let ts := tick_ts t in
  let close := tick_close t in
  let stat_arb := is_stat_arb (active_mode sg) in
  if Py.eq (position_qty (position s)) 0 && entry_signal sg then
    if stat_arb && correlation_blocked then Some s
    else
      let max_position_allocation := (cash s * max_portfolio_risk p)%float in
      let requested_allocation := (cash s * position_size p)%float in
      let allocation := Py.min2 max_position_allocation requested_allocation in
      if Py.gt allocation 0 then
        if stat_arb then
          let spread_floor := 1e-6%float in
          if negb (Py.isfinite close) || Py.lt (abs close) spread_floor
          then Some (append_risk_event s
                       (statarb_entry_block ts
                          (if Py.isfinite close then Some close else None)))
          else
            match Py.div allocation (Py.max2 (abs close) spread_floor) with
            | None => None
            | Some qty0 =>
                let qty := if Py.eq (entry_qty_sign sg) 0 then 0%float
                           else (qty0 * entry_qty_sign sg)%float in
                let fee := (allocation * fee_rate p)%float in
                if Py.truthy qty
                then Some (_open_trade ts close qty (abs fee)
                             "entry_signal_statarb" s)
                else Some s
            end
        else
          match Py.div allocation close with
          | None => None
          | Some qty =>
              let fee := (allocation * fee_rate p)%float in
              if Py.truthy qty
              then Some (_open_trade ts close qty (abs fee) "entry_signal" s)
              else Some s
          end
      else Some s
  else Some s.

(** The loop body for one row. *)
Definition step (t : Tick) (s : State) : option State :=
  let s1 := drawdown_check t s in
  if halted s1 then Some s1
  else
    let '(s2, correlation_blocked) := correlation_guard t s1 in
    let sg := signals t correlation_blocked s2 in
    match exit_checks t sg s2 with
    | Some s3 => Some s3
    | None => entry_check t correlation_blocked sg s2
    end.

(** The [for] loop over the frame. *)
Fixpoint run_loop (ticks : list Tick) (s : State) : option State :=
  match ticks with
  | [] => Some s
  | t :: rest =>
      match step t s with
      | Some s' => run_loop rest s'
      | None => None
      end
  end.

(** The statement after the loop: a position that is still open is closed
    at the last row of the frame with reason [eod_close]. *)
Definition close_at_end (ticks : list Tick) (s : State) : State :=
  if Py.ne (position_qty (position s)) 0 then
    match last ticks with
    | Some t => _close_trade (tick_ts t) (tick_close t) "eod_close" s
    | None => s
    end
  else s.

(** The simulation of [run_backtest], from the first row to the state the
    report is built from. *)
Definition simulate (initial_cash : float) (ticks : list Tick) : option State :=
  match run_loop ticks (initial_state p initial_cash) with
  | Some s => Some (close_at_end ticks s)
  | None => None
  end.

(** The signals the loop body computes on a bar that does not halt. *)
Definition bar_signals (t : Tick) (s : State) : Signals :=
  let s1 := drawdown_check t s in
  let '(s2, correlation_blocked) := correlation_guard t s1 in
  signals t correlation_blocked s2.

(** The position of [s] was closed into [s']: flat again, and one trade
    appended with the given timestamp, price and reason. *)
Definition closed_as (s s' : State) (ts : Z) (px : float) (why : string)
    : Prop :=
  position s' = flat_position
  ∧ ∃ tr, trades s' = trades s ++ [tr]
          ∧ reason tr = why
          ∧ price tr = round_nd px 8
          ∧ trade_timestamp tr = ts
          ∧ qty tr = round_nd (position_qty (position s)) 8.

(** The two ATR stop levels of an open position on a bar. *)
Definition long_stop_price (t : Tick) (s : State) : float :=
  (position_entry (position s) - stop_atr_mult p * atr (row t))%float.
Definition short_stop_price (t : Tick) (s : State) : float :=
  (position_entry (position s) + stop_atr_mult p * atr (row t))%float.

End Loop.

(** The reasons [_open_trade] is called with. *)
Definition is_entry_reason (r : string) : bool :=
  String.eqb r "entry_signal" || String.eqb r "entry_signal_statarb".

(** *** A stat-arb run of two bars: a short entry, then its ATR stop *)

Definition stat_arb_params : Params :=
  {| rsi_buy := 30; rsi_sell := 70; strategy_mode := "stat-arb";
     trend_threshold := 0.0025; use_regime := true;
     max_portfolio_risk := 0.05; ml_enabled := false;
     ml_model_type := "random_forest"; ml_confidence := 0.55;
     sentiment_threshold := 0; fee_rate := 0.0004; stop_atr_mult := 2;
     strategy_correlation_cap := 0.7; strategy_correlation_window := 120;
     statarb_z_entry := 2; statarb_z_exit := 0; statarb_z_stop := 3.5;
     position_size := 0.02; max_drawdown := 0.1 |}.

Definition spread_tick (i : Z) (o h l c atr_ : float) : Tick :=
  {| row := {| bar := {| timestamp := 1700000000000000000 + i * 3600000000000;
                         open := o; high := h; low := l; close := c;
                         volume := 1000 |};
               sma := 90; std := 4; bb_upper := 98; bb_lower := 82;
               rsi := 50; ma_fast := 95; ma_slow := 90;
               trend_strength := 0.05; atr := atr_ |};
     ml_probability := 0.5; sentiment_score := 0 |}.

Definition short_entry_tick : Tick := spread_tick 0 100 101 99 100 1.
Definition short_stop_tick : Tick := spread_tick 1 100 103 100 101 1.

(** The same second bar in a market that has not moved for a while: its ATR
    is zero, and its close is back on the band centre. *)
Definition still_tick : Tick := spread_tick 1 100 100 90 90 0.

(** The state after the short entry of the first bar, and after the stop of
    the second. *)
Definition short_state : State :=
  default (initial_state stat_arb_params 10000)
    (step (H:=naive) stat_arb_params short_entry_tick
       (initial_state stat_arb_params 10000)).
Definition stopped_state : State :=
  default short_state
    (step (H:=naive) stat_arb_params short_stop_tick short_state).

(** The state the loop leaves after the entry bar and the still bar: the
    short is still open. *)
Definition open_short_state : State :=
  default short_state
    (run_loop (H:=naive) stat_arb_params [short_entry_tick; still_tick]
       (initial_state stat_arb_params 10000)).

(** *** A stat-arb long closed by its z-score stop *)

(** The first bar closes at 80 (z-score -2.5 against a mean of 90 and a
    deviation of 4): a long is opened at 80. The second bar trades between
    80 and 106 and closes at 105 (z-score 3.75), with an ATR of 1. *)
Definition long_entry_tick : Tick := spread_tick 0 80 81 79 80 1.
Definition zscore_stop_tick : Tick := spread_tick 1 80 106 80 105 1.

(** The same parameters with the drawdown limit at zero, and the state
    their first bar leaves. *)
Definition zero_limit_params : Params :=
  {| rsi_buy := 30; rsi_sell := 70; strategy_mode := "stat-arb";
     trend_threshold := 0.0025; use_regime := true;
     max_portfolio_risk := 0.05; ml_enabled := false;
     ml_model_type := "random_forest"; ml_confidence := 0.55;
     sentiment_threshold := 0; fee_rate := 0.0004; stop_atr_mult := 2;
     strategy_correlation_cap := 0.7; strategy_correlation_window := 120;
     statarb_z_entry := 2; statarb_z_exit := 0; statarb_z_stop := 3.5;
     position_size := 0.02; max_drawdown := 0 |}.
Definition halted_state : State :=
  default (initial_state zero_limit_params 10000)
    (step (H:=naive) zero_limit_params short_entry_tick
       (initial_state zero_limit_params 10000)).

End Backtest.

(** ** The Metrics Aggregator: the Sharpe-like ratio *)

Module Metrics.
Import Pd.




Section Sharpe.
Context `{Numerics}.




End Sharpe.


End Metrics.

(** ** The Probability Overlay ([_build_ml_features], [_build_ml_probabilities]) *)

Module Overlay.
Import Pd.

(** The classifier families the script can construct. *)
Inductive Classifier := XGBClassifier | LogisticRegression | RandomForestClassifier.

(** What the Python environment offers: which imports succeed, and what a
    constructed classifier does on [fit] then [predict_proba(...)[:, 1]]
    ([None]: it raises). *)
Record MLEnv := {
  xgboost_importable : bool;
  sklearn_importable : bool;
  fit_predict : Classifier → list (list float) → list Z → list (list float)
                → option (list float);
}.

(** The arguments [run_backtest] passes in the [Namespace]. *)
Record MLArgs := {
  ml_enabled : bool;
  model_type : string;
  ml_horizon : Z;
  ml_train_ratio : float;
  ml_confidence : float;
}.

(** The [result] dict. *)
Record MLResult := {
  enabled : bool;
  result_model_type : string;
  horizon : Z;
  train_ratio : float;
  confidence : float;
  rows : nat;
  train_rows : nat;
  test_rows : nat;
  accuracy : float;
  prediction_available : bool;
  model_fit : string;
  eval_rows : nat;
  probability : list float;
}.

(** A row of a features frame: its index label in [df] and its columns. *)
Record FeatureRow := { label : nat; columns : list float }.

Section Overlay.
Context `{Numerics}.
Variable env : MLEnv.

Definition at_ (col : list float) (i : nat) : float := default nan (col !! i).

(** [_build_ml_features]: thirteen columns per row of [df], infinities
    turned into NaN, rows with a NaN dropped. *)
Definition _build_ml_features (df : list Row) (sentiment : list float)
    : list FeatureRow :=
  let closes := map (λ r, close (bar r)) df in
  let ret_1 := pct_change 1 closes in
  let ret_3 := pct_change 3 closes in
  let ret_8 := pct_change 8 closes in
  let vol_8 := rolling 8 (std_of 1) ret_1 in
  let vol_24 := rolling 24 (std_of 1) ret_1 in
  let volume_change := pct_change 1 (map (λ r, volume (bar r)) df) in
  let sentiment_filled := fillna 0 sentiment in
  let rows :=
    imap (λ i r,
      {| label := i;
         columns :=
           [ at_ ret_1 i; at_ ret_3 i; at_ ret_8 i; at_ vol_8 i; at_ vol_24 i;
             rsi r;
             Py.of_bool (Py.lt (rsi r) 30);
             ((bb_upper r - bb_lower r)
              / (if Py.eq (sma r) 0 then 1 else sma r))%float;
             (let d := (ma_fast r - ma_slow r)%float in
              if Py.isinf d then 0%float else d);
             trend_strength r;
             (atr r / (if Py.eq (close (bar r)) 0 then 1
                       else close (bar r)))%float;
             at_ volume_change i;
             at_ sentiment_filled i ] |}) df in
  List.filter (λ fr, forallb notna (columns fr))
    (map (λ fr, {| label := label fr;
                   columns := map (λ x, if Py.isinf x then nan else x)
                                (columns fr) |}) rows).

(** A result that keeps the neutral series. *)
Definition neutral (a : MLArgs) (n : nat) (fit : string) : MLResult :=
  {| enabled := ml_enabled a;
     result_model_type := model_type a;
     horizon := Z.max 1 (ml_horizon a);
     train_ratio := ml_train_ratio a;
     confidence := ml_confidence a;
     rows := n; train_rows := 0; test_rows := 0; accuracy := 0;
     prediction_available := false; model_fit := fit; eval_rows := 0;
     probability := replicate n 0.5%float |}.

(** The label column: [(close.shift(-horizon) > close).astype(float)]. *)
Definition target_column (df : list Row) (horizon : Z) : list float :=
  let closes := map (λ r, close (bar r)) df in
  zip_with (λ ahead now, Py.of_bool (Py.gt ahead now))
    (shift_back (Z.to_nat horizon) closes) closes.

(** [features.join(target).dropna()]: the feature rows with their label. *)
Definition training_data (df : list Row) (sentiment : list float)
    (horizon : Z) : list (FeatureRow * float) :=
  let target := target_column df horizon in
  List.filter (λ ft, notna ft.2)
    (map (λ fr, (fr, at_ target (label fr))) (_build_ml_features df sentiment)).

(** [int(len(data) * train_ratio)]; [None] when [int] raises. *)
Definition split_index (n : nat) (ratio : float) : option Z :=
  Py.to_int (Py.of_int (Z.of_nat n) * ratio)%float.

(** The classifier the script ends up constructing, if any: xgboost when
    asked for and importable; otherwise logistic regression for
    ["xgboost"] and ["logistic"], a random forest for any other name. *)
Definition select_model (model_type : string) : option Classifier :=
  let first_try :=
    if String.eqb model_type "xgboost" && xgboost_importable env
    then Some XGBClassifier else None in
  match first_try with
  | Some m => Some m
  | None =>
      if String.eqb model_type "xgboost" || String.eqb model_type "logistic"
      then (if sklearn_importable env then Some LogisticRegression else None)
      else (if sklearn_importable env then Some RandomForestClassifier else None)
  end.

(** [probability.loc[x_test.index] = proba]; [None] when the lengths
    differ. *)
Definition assign_at (labels : list nat) (values base : list float)
    : option (list float) :=
  if (length labels =? length values)%nat
  then Some (foldl (λ acc iv, <[iv.1 := iv.2]> acc) base (zip labels values))
  else None.

(** [_build_ml_probabilities]. [None] is a raised exception. *)
Definition _build_ml_probabilities (df : list Row) (sentiment : list float)
    (a : MLArgs) : option MLResult :=
  let n := length df in
  if negb (ml_enabled a) then Some (neutral a n "not_trained")
  else if (n <? 120)%nat then Some (neutral a n "insufficient_data")
  else
    let features := _build_ml_features df sentiment in
    if (length features <? 100)%nat
    then Some (neutral a n "insufficient_features")
    else
      let horizon := Z.max 1 (ml_horizon a) in
      let data := training_data df sentiment horizon in
      if (length data <? 100)%nat
      then Some (neutral a n "insufficient_training_rows")
      else
        let model_target := map (λ ft, ft.2) data in
        if (nunique model_target <? 2)%nat
        then Some (neutral a n "single_class_target")
        else
          match split_index (length data) (ml_train_ratio a) with
          | None => None
          | Some split =>
              if (split <? 40) || (Z.of_nat (length data) <=? split)
              then Some (neutral a n "invalid_train_split")
              else
                let k := Z.to_nat split in
                let x_train := map (λ ft, columns ft.1) (take k data) in
                let y_train := map (λ ft, if Py.eq ft.2 0 then 0 else 1)
                                 (take k data) in
                let test := drop k data in
                let x_test := map (λ ft, columns ft.1) test in
                let y_test := map (λ ft, if Py.eq ft.2 0 then 0 else 1) test in
                if (length y_test =? 0)%nat
                then Some (neutral a n "empty_test_window")
                else
                  match select_model (model_type a) with
                  | None => Some (neutral a n "missing_ml_dependency")
                  | Some model =>
                      match fit_predict env model x_train y_train x_test with
                      | None => None
                      | Some proba =>
                          let pred :=
                            map (λ x, if Py.ge x (ml_confidence a) then 1 else 0)
                              proba in
                          let hits :=
                            zip_with (λ a b, Py.of_bool (a =? b)) pred y_test in
                          match assign_at (map (λ ft, label ft.1) test) proba
                                  (replicate n 0.5%float) with
                          | None => None
                          | Some probability =>
                              Some {| enabled := true;
                                      result_model_type := model_type a;
                                      horizon := horizon;
                                      train_ratio := ml_train_ratio a;
                                      confidence := ml_confidence a;
                                      rows := n;
                                      train_rows := length x_train;
                                      test_rows := length x_test;
                                      accuracy := round_nd (mean_of hits) 6;
                                      prediction_available := true;
                                      model_fit := "trained";
                                      eval_rows := length y_test;
                                      probability := probability |}
                          end
                      end
                  end
          end.

End Overlay.

(** The fit-status codes of a run that keeps the neutral series. *)
Definition neutral_codes : list string :=
  ["not_trained"; "insufficient_data"; "insufficient_features";
   "insufficient_training_rows"; "single_class_target";
   "invalid_train_split"; "empty_test_window"; "missing_ml_dependency"].

(** *** A frame of 130 rows on which a classifier can be fitted *)

(** Closes alternate between 100 and 101, volumes between 1000 and 1100;
    the indicator columns are constant. *)
Definition zigzag_row (i : nat) : Row :=
  let c := if Nat.even i then 100%float else 101%float in
  {| bar := {| timestamp := 1700000000000000000 + Z.of_nat i * 3600000000000;
               open := c; high := (c + 1)%float; low := (c - 1)%float;
               close := c;
               volume := if Nat.even i then 1000%float else 1100%float |};
     sma := 100; std := 1; bb_upper := 102; bb_lower := 98; rsi := 50;
     ma_fast := 101; ma_slow := 100; trend_strength := 0.01; atr := 1 |}.
Definition zigzag_frame : list Row := map zigzag_row (seq 0 130).
Definition no_sentiment : list float := replicate 130 0%float.

(** An environment without xgboost, where scikit-learn is installed and
    the fitted model answers 0.9 on every test row. *)
Definition sklearn_only : MLEnv :=
  {| xgboost_importable := false; sklearn_importable := true;
     fit_predict := λ _ _ _ x_test, Some (map (λ _, 0.9%float) x_test) |}.

Definition xgboost_args : MLArgs :=
  {| ml_enabled := true; model_type := "xgboost"; ml_horizon := 1;
     ml_train_ratio := 0.7; ml_confidence := 0.55 |}.

(** The same run with [--ml-train-ratio nan]. *)
Definition nan_ratio_args : MLArgs :=
  {| ml_enabled := true; model_type := "random_forest"; ml_horizon := 1;
     ml_train_ratio := nan; ml_confidence := 0.55 |}.

End Overlay.

(** ** Reasoning about [run_execute]: what holds when the body stops *)

Module ExecuteLogic.
Import Execute.

(** The log after one [_add_risk_block]. *)
Definition log_add (name status : string) (l : RiskLog) : RiskLog :=
  (_add_risk_block name status l).1.

(** [wp m Q R E l]: run from the log [l], the statement [m] falls through
    with a value and a log satisfying [Q], or returns a reply and a log
    satisfying [R], or raises with a log satisfying [E]. *)
Definition wp {A} (m : M A) (Q : A → RiskLog → Prop)
    (R : Reply → RiskLog → Prop) (E : RiskLog → Prop) (l : RiskLog) : Prop :=
  match m l with
  | (l', Next a) => Q a l'
  | (l', Return r) => R r l'
  | (l', Raised) => E l'
  end.

(** The names and the statuses of the blocks of a log, in order. *)
Definition names (l : RiskLog) : list string := map name (risk_blocks l).
Definition statuses (l : RiskLog) : list string := map status (risk_blocks l).

(** A status that stops the order. *)
Definition stops (st : string) : bool :=
  String.eqb st "blocked" || String.eqb st "fail".

(** The checks of a dry run and of a live run, in the order the function
    makes them. *)
Definition dry_run_checks : list string :=
  ["order_amount"; "order_price"; "symbol_format"; "execution_confirmation";
   "notional_cap"; "balance_cap"].
Definition live_checks : list string :=
  ["order_amount"; "order_price"; "symbol_format"; "execution_confirmation";
   "exchange_credentials"; "exchange_connection"; "notional_cap";
   "balance_cap"; "order_submission"].

(** The statuses a response can carry. *)
Definition dry_run_statuses : list string :=
  ["invalid_input"; "symbol_blocked"; "risk_limit_blocked"; "dry_run"].

(** The statuses of a response whose order went to [create_order]. *)
Definition order_sent (st : string) : bool :=
  String.eqb st "submitted" || String.eqb st "execution_failed".

(** Every balance the exchange reports is a number. *)
Definition is_number (v : BalVal) : bool :=
  match v with BNum _ => true | BBad => false end.
Definition numeric_balances (ex : Exchange) : bool :=
  match fetch_balance_free ex with
  | Some free => forallb (λ kv, is_number kv.2) (map_to_list free)
  | None => true
  end.

(** The price [_market_price_from_exchange] reads at a call, when the
    ticker answers with a dict. *)
Definition ticker_price (ex : Exchange) (call : nat) : option float :=
  match fetch_ticker ex call with
  | Some (Some t) => por (last t) (por (close t) (por (mark t) (bid t)))
  | _ => None
  end.

(** The notional estimate of the live notional-cap check: the amount times
    the ticker price of a market order (a price that is missing or [<= 0]
    gives none), times [--price] otherwise. *)
Definition live_notional (args : Args) (ex : Exchange) : option float :=
  let amt := _to_float (amount args) 0 in
  if String.eqb (order_type args) "market" then
    match ticker_price ex 0 with
    | Some mp => if Py.le mp 0 then None else Some (amt * mp)%float
    | None => None
    end
  else Some (amt * _to_float (price args) 0)%float.

(** The two currencies of the symbol. *)
Definition base_currency (args : Args) : string :=
  strip (nth 0 (split_slash (upper (symbol args))) "").
Definition quote_currency (args : Args) : string :=
  strip (nth 1 (split_slash (upper (symbol args))) "").

(** The live balance guard is on: [--skip-balance-check] is off and the
    account fraction lies in (0, 1]. *)
Definition balance_guard_on (args : Args) : bool :=
  negb (skip_balance_check args)
  && Py.lt 0 (max_account_fraction args)
  && Py.le (max_account_fraction args) 1.

(** [args.order_type == "limit" and (args.price is None or args.price <= 0)]. *)
Definition limit_price_rejected (args : Args) : bool :=
  String.eqb (order_type args) "limit"
  && price_missing_or_nonpositive (price args).

(** The number of ["/"] in a string. *)
Fixpoint slashes (s : string) : nat :=
  match s with
  | EmptyString => 0
  | String c r => ((if Ascii.eqb c "/" then 1 else 0) + slashes r)%nat
  end.

(** [args.amount is None or args.amount <= 0]. *)
Definition amount_rejected (a : option float) : bool :=
  match a with None => true | Some x => Py.le x 0 end.

(** An exchange that accepts everything and holds 1000 USDT and 1 BTC, and
    a confirmed limit buy within a cap of 2. *)
Definition funded_exchange : Exchange :=
  {| create_exchange_ok := true;
     fetch_ticker := λ _, Some (Some {| last := Some 100%float; close := None;
                                        mark := None; bid := None |});
     fetch_balance_free :=
       Some (<["USDT" := BNum 1000]> (<["BTC" := BNum 1]> ∅));
     create_order_ok := true |}.
Definition live_args : Args :=
  {| symbol := "btc/usdt"; side := "buy"; order_type := "limit";
     amount := Some 0.01%float; price := Some 100%float;
     confirm := true; test := false;
     api_key := Some "key"; api_secret := Some "secret";
     max_order_notional := 2%float; max_account_fraction := 0.2%float;
     skip_balance_check := false |}.

(** A confirmed sale of 0.5 BTC at the market, with the balance guard on
    and no notional cap. *)
Definition live_sell_args : Args :=
  {| symbol := "btc/usdt"; side := "sell"; order_type := "market";
     amount := Some 0.5%float; price := None;
     confirm := true; test := false;
     api_key := Some "key"; api_secret := Some "secret";
     max_order_notional := 0%float; max_account_fraction := 0.2%float;
     skip_balance_check := false |}.

(** The same order on a symbol without a quote currency. *)
Definition bare_symbol_args : Args :=
  {| symbol := "btcusdt"; side := "buy"; order_type := "limit";
     amount := Some 0.01%float; price := Some 100%float;
     confirm := true; test := false;
     api_key := Some "key"; api_secret := Some "secret";
     max_order_notional := 2%float; max_account_fraction := 0.2%float;
     skip_balance_check := false |}.

End ExecuteLogic.

(** ** Configuration clamps of [run_backtest] and [_safe_position_size] *)

Module Config.

(** [_safe_position_size]. *)
Definition _safe_position_size (value : float) : float :=
  if Py.le value 0 then 0.01%float
  else if Py.gt value 1 then 1%float
  else value.

(** [params["max_portfolio_risk"]]:
    [min(1.0, max(0.0, _to_float(args.max_portfolio_risk, 0.05)))]. *)
Definition max_portfolio_risk_of (arg : float) : float :=
  Py.min2 1 (Py.max2 0 arg).

(** [params["trend_threshold"]]: [max(0.0001, _to_float(...))]. *)
Definition trend_threshold_of (arg : float) : float := Py.max2 0.0001 arg.

End Config.

(** ** Values of the spread frame *)

Module SpreadShape.

(** A hedge ratio the builder can use, finite and not zero; and a ratio
    that is usable or missing, as the columns are before the fills. *)
Definition usable (x : float) : bool := Py.isfinite x && negb (Py.eq x 0).
Definition usable_or_missing (x : float) : bool := Pd.isna x || usable x.

End SpreadShape.

(** ** The report of [run_backtest]: drawdown, ledger and position *)

Module Report.
Import Backtest.

(** One pass of the loop of [_calc_max_drawdown] over [(peak, max_dd)]. *)
Definition drawdown_step (acc : float * float) (value : float)
    : float * float :=
  let peak := if Py.gt value acc.1 then value else acc.1 in
  let max_dd :=
    if Py.gt peak 0 then Py.max2 acc.2 ((peak - value) / peak)%float
    else acc.2 in
  (peak, max_dd).

(** [_calc_max_drawdown]: the peak starts at [-inf], the result at 0.0. *)
Definition _calc_max_drawdown (equity : list float) : float :=
  (foldl drawdown_step (neg_infinity, 0%float) equity).2.

(** Two floats that compare equal. *)
Definition same (a b : float) : Prop :=
  SFcompare (Prim2SF a) (Prim2SF b) = Some Eq.

(** A curve that never falls: every value is [>=] the one before it. *)
Fixpoint never_falls_from (prev : float) (equity : list float) : bool :=
  match equity with
  | [] => true
  | v :: rest => Py.le prev v && never_falls_from v rest
  end.
Definition never_falls (equity : list float) : bool :=
  match equity with
  | [] => true
  | v :: rest => never_falls_from v rest
  end.

(** [position_state] and [signals["position"]] of the result. *)
Definition position_state (s : State) : string :=
  if halted s then "halted"
  else if Py.gt (position_qty (position s)) 0 then "long"
  else if Py.lt (position_qty (position s)) 0 then "short"
  else "flat".
Definition signal (s : State) : string :=
  match trades s with
  | [] => "none"
  | _ => position_state s
  end.

(** [closed_trades]: the trades that carry a ["pnl"]; [metrics["trade_count"]]
    is their number, [metrics["trades"]] the number of all trades. *)
Definition closed_trades (s : State) : list Trade :=
  List.filter (λ tr, bool_decide (pnl tr ≠ None)) (trades s).
Definition trade_count (s : State) : nat := length (closed_trades s).

(** An entry written by [_open_trade], and the exit [_close_trade] writes
    for it. *)
Definition opens (o : Trade) : Prop :=
  pnl o = None ∧ amount o ≠ None
  ∧ is_entry_reason (reason o) = true
  ∧ position_open_timestamp o = Some (trade_timestamp o).
Definition closes (o c : Trade) : Prop :=
  pnl c ≠ None ∧ amount c = None
  ∧ is_entry_reason (reason c) = false
  ∧ position_open_timestamp c = Some (trade_timestamp o).

(** A ledger made of entry/exit pairs. *)
Inductive paired : list Trade → Prop :=
| paired_nil : paired []
| paired_snoc (l : list Trade) (o c : Trade) :
    paired l → opens o → closes o c → paired (l ++ [o; c]).

(** The ledger between two statements of the loop: paired while the
    position is zero, paired up to one open entry otherwise. *)
Definition ledger_ok (s : State) : Prop :=
  if Py.eq (position_qty (position s)) 0 then paired (trades s)
  else ∃ l o, trades s = l ++ [o] ∧ paired l ∧ opens o
              ∧ position_entry_ts (position s) = Some (trade_timestamp o).

(** The events of each type in [risk_events]. *)
Definition is_drawdown_event (ev : RiskEvent) : bool :=
  match ev with drawdown_circuit_breaker _ _ _ => true | _ => false end.
Definition is_correlation_event (ev : RiskEvent) : bool :=
  match ev with strategy_correlation_block _ _ _ => true | _ => false end.

(** The counters of [risk_controls] against the event log. *)
Definition counters_match (s : State) : Prop :=
  drawdown_circuit_hits (risk_controls s)
  = length (List.filter is_drawdown_event (risk_events s))
  ∧ strategy_correlation_hits (risk_controls s)
    = length (List.filter is_correlation_event (risk_events s))
  ∧ drawdown_circuit_hits (risk_controls s) = (if halted s then 1 else 0)%nat
  ∧ (halt_reason s = None ↔ halted s = false).

(** The modes in which the correlation guard vetoes entries: every mode
    the argument parser accepts, except ["adaptive"] with regime routing
    switched off (which trades the mean-reversion rules unguarded). *)
Definition guarded_modes : list string :=
  ["mean-reversion"; "momentum"; "momentum-only"; "stat-arb"].
Definition guard_applies (p : Params) : bool :=
  (use_regime p && String.eqb (strategy_mode p) "adaptive")
  || existsb (String.eqb (strategy_mode p)) guarded_modes.

(** *** A momentum run whose two raw signals have mirrored each other *)

(** Momentum mode with the default cap of 0.70 over a window of 20. *)
Definition momentum_params : Params :=
  {| rsi_buy := 30; rsi_sell := 70; strategy_mode := "momentum";
     trend_threshold := 0.0025; use_regime := true;
     max_portfolio_risk := 0.05; ml_enabled := false;
     ml_model_type := "random_forest"; ml_confidence := 0.55;
     sentiment_threshold := 0; fee_rate := 0.0004; stop_atr_mult := 2;
     strategy_correlation_cap := 0.7; strategy_correlation_window := 20;
     statarb_z_entry := 2; statarb_z_exit := 0; statarb_z_stop := 3.5;
     position_size := 0.02; max_drawdown := 0.1 |}.

(** Nineteen bars in, flat, the momentum signal having alternated between
    -1 and 1 and the mean-reversion signal between 1 and -1. *)
Definition mirrored_state : State :=
  set_history (initial_state momentum_params 10000)
    {| momentum :=
         map (λ i, if Nat.even i then (-1)%float else 1%float) (seq 0 19);
       mean_reversion :=
         map (λ i, if Nat.even i then 1%float else (-1)%float) (seq 0 19) |}.

(** A bar in an up-trend above the upper band with the oscillator at 72: the
    momentum rules signal an entry (+1), the mean-reversion rules an exit
    (-1). *)
Definition breakout_tick : Tick :=
  {| row := {| bar := {| timestamp := 1700000000000000000 + 19 * 3600000000000;
                         open := 99; high := 101; low := 98; close := 100;
                         volume := 1000 |};
               sma := 90; std := 4; bb_upper := 98; bb_lower := 82;
               rsi := 72; ma_fast := 95; ma_slow := 90;
               trend_strength := 0.05; atr := 1 |};
     ml_probability := 0.5; sentiment_score := 0 |}.

End Report.

(** ** Text: [str.lower] and the headline scorer ([_score_text_sentiment]) *)

(** Strings are sequences of code points below 256. On these [str.lower]
    changes [A-Z] and U+00C0-U+00DE (U+00D7, the multiplication sign,
    apart); the words [re.findall(r"[a-zA-Z]+", ...)] returns are the maximal
    runs of ASCII letters. *)
Module Text.

Definition is_letter (c : ascii) : bool :=
  let n := nat_of_ascii c in
  ((65 <=? n) && (n <=? 90) || (97 <=? n) && (n <=? 122))%nat.

Definition lower_code (c : ascii) : ascii :=
  let n := nat_of_ascii c in
  if ((65 <=? n) && (n <=? 90)
      || (192 <=? n) && (n <=? 222) && negb (n =? 215))%nat
  then ascii_of_nat (n + 32) else c.
Fixpoint lower (s : string) : string :=
  match s with
  | EmptyString => EmptyString
  | String c r => String (lower_code c) (lower r)
  end.

(** A text of ASCII characters only. *)
Fixpoint is_ascii (s : string) : bool :=
  match s with
  | EmptyString => true
  | String c r => (nat_of_ascii c <? 128)%nat && is_ascii r
  end.

(** The word being read, when the run of letters ends. *)
Definition flush (cur : string) : list string :=
  match cur with EmptyString => [] | _ => [cur] end.

(** [re.findall(r"[a-zA-Z]+", s)], with the word being read in [cur]. *)
Fixpoint findall_letters (cur : string) (s : string) : list string :=
  match s with
  | EmptyString => flush cur
  | String c r =>
      if is_letter c then findall_letters (cur ++ String c EmptyString) r
      else flush cur ++ findall_letters EmptyString r
  end.

Definition positive : list string :=
  ["bullish"; "surge"; "rally"; "up"; "gain"; "gains"; "growth"; "adopt";
   "adoption"; "breakout"; "upgrade"; "partnership"; "approval"; "profit";
   "long"; "strong"; "positive"].
Definition negative : list string :=
  ["bearish"; "crash"; "dump"; "drop"; "loss"; "losses"; "hack"; "hackers";
   "scam"; "ban"; "regulation"; "lawsuit"; "delist"; "liquidation"; "short";
   "down"; "weak"; "negative"; "fear"].

Definition member (word : string) (set : list string) : bool :=
  existsb (String.eqb word) set.

(** The number of words of a list that are in a set. *)
Definition hits (set : list string) (words : list string) : Z :=
  Z.of_nat (length (List.filter (λ w, member w set) words)).

(** One pass of the loop over the words. *)
Definition word_score (score : Z) (word : string) : Z :=
  let score := if member word positive then score + 1 else score in
  if member word negative then score - 1 else score.

(** [_score_text_sentiment]; [None] is an argument that is not a [str]. *)
Definition _score_text_sentiment (text : option string) : float :=
  match text with
  | None => 0%float
  | Some t =>
      match findall_letters EmptyString (lower t) with
      | [] => 0%float
      | words =>
          let score := foldl word_score 0 words in
          if 0 <? score then 1%float
          else if score <? 0 then (-1)%float
          else 0%float
      end
  end.

End Text.

(** ** Fetching: [fetch_ohlcv] and [_map_stock_timeframe] *)

Module Fetch.

(** The [mapping] dict of [_map_stock_timeframe]. *)
Definition stock_intervals : list (string * string) :=
  [("1m", "1m"); ("5m", "5m"); ("15m", "15m"); ("30m", "30m"); ("1h", "1h");
   ("2h", "2h"); ("4h", "4h"); ("1d", "1d"); ("1w", "1wk"); ("1mth", "1mo");
   ("1mo", "1mo")].
Definition stock_mapping : gmap string string := list_to_map stock_intervals.

(** [_map_stock_timeframe]. *)
Definition _map_stock_timeframe (timeframe : string) : string :=
  let timeframe := Text.lower timeframe in
  default timeframe (stock_mapping !! timeframe).

(** The three integer arguments of [fetch]. *)
Record FetchArgs := { days : Z; limit : Z; max_pages : Z }.

(** [exchange.fetch_ohlcv(symbol, timeframe, since, limit)] at the n-th
    call: the page of rows, or [None] when it raises. *)
Definition Pager := nat → Z → option (list Bar).

(** Every page the exchange returns holds at most [limit] rows. *)
Definition honours (fetch : Pager) (limit : Z) : Prop :=
  ∀ n since page, fetch n since = Some page → Z.of_nat (length page) <= limit.

(** What the loop leaves: the rows collected and the number of requests
    made. *)
Record Pages := { all_rows : list Bar; calls : nat }.

(** The [for _ in range(args.max_pages)] loop, [pages_left] iterations
    from the call [call]. [None] is an exception of the exchange. *)
Fixpoint fetch_pages (fetch : Pager) (limit : Z) (pages_left : nat)
    (call : nat) (since : Z) (acc : list Bar) : option Pages :=
  match pages_left with
  | O => Some {| all_rows := acc; calls := call |}
  | S pages_left' =>
      match fetch call since with
      | None => None
      | Some rows =>
          match last rows with
          | None => Some {| all_rows := acc; calls := S call |}
          | Some final =>
              let acc' := acc ++ rows in
              if Z.of_nat (length rows) <? limit
              then Some {| all_rows := acc'; calls := S call |}
              else if 50000 <=? Z.of_nat (length acc')
              then Some {| all_rows := acc'; calls := S call |}
              else fetch_pages fetch limit pages_left' (S call)
                     (timestamp final + 1) acc'
          end
      end
  end.

(** The result dict of [fetch_ohlcv]. *)
Inductive Fetched :=
| no_data
| saved (rows : nat) (from to : Z) (frame : list Bar).

Section Fetching.
Context `{Pd.Numerics}.

(** [fetch_ohlcv], from the validation of the arguments to the result,
    on the exchange [require_exchange] has built; [since] is the start time
    the function computes from [--days] and the clock. The result comes with
    the number of requests made. [None] is a raised exception: the
    [ValueError] of a bad argument, or one of the exchange. *)
Definition fetch_ohlcv (args : FetchArgs) (fetch : Pager) (since : Z)
    : option (Fetched * nat) :=
  if days args <=? 0 then None
  else if limit args <=? 0 then None
  else if max_pages args <=? 0 then None
  else
    match fetch_pages fetch (limit args) (Z.to_nat (max_pages args)) 0 since []
    with
    | None => None
    | Some pages =>
        match all_rows pages with
        | [] => Some (no_data, calls pages)
        | first :: rest =>
            let df :=
              Spread.drop_duplicates (Spread.sort_values (all_rows pages)) in
            let stamps := map timestamp rest in
            Some (saved (length df)
                    (foldl Z.min (timestamp first) stamps)
                    (foldl Z.max (timestamp first) stamps) df,
                  calls pages)
        end
    end.

End Fetching.

(** An exchange that refuses every request. *)
Definition refusing : Pager := λ _ _, None.

(** An exchange that holds two hourly bars after any start time. *)
Definition two_bars : Pager :=
  λ _ since, Some [Spread.flat_bar 0 100; Spread.flat_bar 1 101].

End Fetch.

(** ** The data checks at the start of [run_backtest] *)

Module Gate.

(** The reasons [run_backtest] gives up before the simulation. *)
Inductive Refusal :=
| data_file_not_found
| not_enough_data (rows : nat)
| statarb_requires_secondary
| secondary_file_not_found
| not_enough_secondary_data (rows : nat)
| failed_to_build_spread
| not_enough_overlapping_rows (rows : nat)
| not_enough_indicator_rows (rows : nat).

(** What the checks read: the two CSV files as loaded ([None]: the file
    does not exist), and the normalised parameters. *)
Record Inputs := {
  primary : option (list Bar);
  secondary_data_csv : option string;
  secondary : option (list Bar);
  strategy_mode : string;
  pair_symbol : option string;
  statarb_window : nat;
  windows : Windows;
}.

Section Checks.
Context `{Pd.Numerics}.

(** The stat-arb branch: the primary frame is replaced by the spread. *)
Definition spread_frame (i : Inputs) (df : list Bar) : Refusal + list Bar :=
  if Execute.falsy_str (secondary_data_csv i) then inl statarb_requires_secondary
  else
    match secondary i with
    | None => inl secondary_file_not_found
    | Some pair_df =>
        if (length pair_df <? Nat.max 30 (statarb_window i))%nat
        then inl (not_enough_secondary_data (length pair_df))
        else
          let symbol :=
            match pair_symbol i with
            | Some s => if String.eqb s "" then "PAIR2" else s
            | None => "PAIR2"
            end in
          match Spread._build_stat_arb_df df pair_df symbol (statarb_window i)
          with
          | None => inl failed_to_build_spread
          | Some rows =>
              if (length rows <? 30)%nat
              then inl (not_enough_overlapping_rows (length rows))
              else inr (map spread_bar rows)
          end
    end.

(** The frame the loop walks, or the refusal. *)
Definition simulation_frame (i : Inputs) : Refusal + list Row :=
  match primary i with
  | None => inl data_file_not_found
  | Some df =>
      if (length df <? 50)%nat then inl (not_enough_data (length df))
      else
        let framed :=
          if String.eqb (strategy_mode i) "stat-arb" then spread_frame i df
          else inr df in
        match framed with
        | inl refusal => inl refusal
        | inr bars =>
            let rows := Indicators.simulation_rows bars (windows i) in
            if (length rows <? 30)%nat
            then inl (not_enough_indicator_rows (length rows))
            else inr rows
        end
  end.

(** The bars the indicators are computed on, when the checks get there. *)
Definition indicator_bars (i : Inputs) : option (list Bar) :=
  match primary i with
  | None => None
  | Some df =>
      if String.eqb (strategy_mode i) "stat-arb" then
        match spread_frame i df with inr bars => Some bars | inl _ => None end
      else Some df
  end.

End Checks.

(** The windows the argument parser defaults to. *)
Definition default_windows : Windows :=
  {| bb_window := 20; bb_std := 2; rsi_period := 14; momentum_fast := 50;
     momentum_slow := 200; atr_window := 14 |}.

End Gate.

(** * Theorems *)

(** ** Facts about binary64 that the engine relies on *)

Section FloatFacts.

Lemma SFcompare_refl (f : spec_float) :
  f ≠ S754_nan → SFcompare f f = Some Eq.
Proof.
  destruct f as [s|s| |s m e]; intros Hf; try done; try (by destruct s).
  simpl. rewrite Z.compare_refl.
  assert (Pos.compare_cont Eq m m = Eq) as -> by apply Pos.compare_refl.
  by destruct s.
Qed.

Lemma isnan_spec (x : float) :
  Py.isnan x = true ↔ Prim2SF x = S754_nan.
Proof.
  unfold Py.isnan. rewrite FloatAxioms.eqb_spec. unfold SFeqb. split.
  - intros Hx. destruct (Prim2SF x) as [s|s| |s m e] eqn:E; [| |done|];
      rewrite SFcompare_refl in Hx by done; done.
  - intros ->. done.
Qed.

(** NaN is absorbing for the four operations. *)
Lemma nan_add_r (x y : float) : Py.isnan y = true → Py.isnan (x + y) = true.
Proof.
  rewrite !isnan_spec, FloatAxioms.add_spec. intros ->. by destruct (Prim2SF x).
Qed.
Lemma nan_sub_r (x y : float) : Py.isnan y = true → Py.isnan (x - y) = true.
Proof.
  rewrite !isnan_spec, FloatAxioms.sub_spec. intros ->. by destruct (Prim2SF x).
Qed.
Lemma nan_div_l (x y : float) : Py.isnan x = true → Py.isnan (x / y) = true.
Proof.
  rewrite !isnan_spec, FloatAxioms.div_spec. intros ->. by destruct (Prim2SF y).
Qed.
Lemma nan_div_r (x y : float) : Py.isnan y = true → Py.isnan (x / y) = true.
Proof.
  rewrite !isnan_spec, FloatAxioms.div_spec. intros ->. by destruct (Prim2SF x).
Qed.

(** Comparisons with NaN are false. *)
Lemma nan_lt_l (x y : float) : Py.isnan x = true → Py.lt x y = false.
Proof.
  rewrite isnan_spec. unfold Py.lt. rewrite FloatAxioms.ltb_spec. unfold SFltb.
  intros ->. done.
Qed.
Lemma nan_gt_l (x y : float) : Py.isnan x = true → Py.gt x y = false.
Proof.
  rewrite isnan_spec. unfold Py.gt. rewrite FloatAxioms.ltb_spec. unfold SFltb.
  intros ->. by destruct (Prim2SF y).
Qed.

Lemma Prim2SF_zero : Prim2SF 0 = S754_zero false.
Proof. reflexivity. Qed.
Lemma Prim2SF_one : Prim2SF 1 = S754_finite false 4503599627370496 (-52).
Proof. reflexivity. Qed.
Lemma Prim2SF_infinity : Prim2SF infinity = S754_infinity false.
Proof. reflexivity. Qed.
Lemma Prim2SF_neg_infinity : Prim2SF neg_infinity = S754_infinity true.
Proof. reflexivity. Qed.

Lemma eq_zero_spec (x : float) : Py.eq x 0 = true ↔ Py.is_zero x.
Proof.
  unfold Py.eq, Py.is_zero. rewrite FloatAxioms.eqb_spec, Prim2SF_zero.
  unfold SFeqb. destruct (Prim2SF x) as [s|s| |s m e]; simpl.
  - split; [by eexists|done].
  - split; [by destruct s|by intros [? ?]].
  - split; [done|by intros [? ?]].
  - split; [by destruct s|by intros [? ?]].
Qed.

Lemma isfinite_spec (x : float) :
  Py.isfinite x = true ↔ Py.is_zero x ∨ Py.is_nonzero_finite x.
Proof.
  unfold Py.isfinite, Py.isinf, Py.isnan, Py.is_zero, Py.is_nonzero_finite.
  rewrite !FloatAxioms.eqb_spec, Prim2SF_infinity, Prim2SF_neg_infinity.
  unfold SFeqb. destruct (Prim2SF x) as [s|s| |s m e]; simpl.
  - split; [left; by eexists|done].
  - split; [by destruct s|]. intros [[? ?]|(? & ? & ? & ?)]; done.
  - split; [done|]. intros [[? ?]|(? & ? & ? & ?)]; done.
  - rewrite Z.compare_refl, Pos.compare_cont_refl.
    split; [right; by eexists _, _, _|by destruct s].
Qed.

Lemma lt_irrefl (x : float) : Py.lt x x = false.
Proof.
  unfold Py.lt. rewrite FloatAxioms.ltb_spec. unfold SFltb.
  destruct (Prim2SF x) as [s|s| |s m e] eqn:E; try done;
    rewrite SFcompare_refl; done.
Qed.

Lemma gt_irrefl (x : float) : Py.gt x x = false.
Proof. apply lt_irrefl. Qed.

Lemma positive_gt_zero (x : float) : Py.is_positive_finite x → Py.gt x 0 = true.
Proof.
  intros (m & e & Hx). unfold Py.gt.
  by rewrite FloatAxioms.ltb_spec, Prim2SF_zero, Hx.
Qed.

Lemma positive_nonzero (x : float) : Py.is_positive_finite x → Py.is_nonzero_finite x.
Proof. intros (m & e & Hx). by eexists _, _, _. Qed.

(** [0.0 * c] is a zero for every finite [c]. *)
Lemma zero_mul_finite (c : float) :
  Py.isfinite c = true → Py.is_zero (0 * c).
Proof.
  rewrite isfinite_spec. unfold Py.is_zero.
  rewrite FloatAxioms.mul_spec, Prim2SF_zero.
  intros [[s ->]|(s & m & e & ->)]; by eexists.
Qed.

(** Adding a zero to a nonzero finite float gives it back. *)
Lemma add_zero_r (x z : float) :
  Py.is_nonzero_finite x → Py.is_zero z → (x + z)%float = x.
Proof.
  intros (s & m & e & Hx) [sz Hz]. apply Prim2SF_inj.
  by rewrite FloatAxioms.add_spec, Hx, Hz.
Qed.

(** A nonzero finite float divided by itself is exactly 1. *)
Lemma div_self (x : float) : Py.is_nonzero_finite x → (x / x)%float = 1%float.
Proof.
  intros (s & m & e & Hx). apply Prim2SF_inj.
  rewrite FloatAxioms.div_spec, Hx, Prim2SF_one.
  unfold SF64div, SFdiv, SFdiv_core_binary.
  replace (Zdigits2 (Z.pos m) + e - (Zdigits2 (Z.pos m) + e)) with 0 by lia.
  replace (e - e) with 0 by lia.
  change (Z.min (fexp prec emax 0) 0) with (-53).
  change (0 - -53) with 53. cbv iota.
  change IntDef.Z.div_eucl with Z.div_eucl.
  change IntDef.Z.shiftl with Z.shiftl.
  assert (Z.div_eucl (Z.shiftl (Z.pos m) 53) (Z.pos m) = (2 ^ 53, 0)) as ->.
  { rewrite Z.shiftl_mul_pow2 by lia.
    pose proof (Z.div_eucl_eq (Z.pos m * 2 ^ 53) (Z.pos m) ltac:(lia)) as Heq.
    pose proof (Z.mod_pos_bound (Z.pos m * 2 ^ 53) (Z.pos m) ltac:(lia)) as Hb.
    unfold Z.modulo in Hb.
    destruct (Z.div_eucl (Z.pos m * 2 ^ 53) (Z.pos m)) as [q r].
    assert (r = 0) as ->.
    { assert (Z.pos m * (2 ^ 53 - q) = r) as Hr by lia.
      assert (2 ^ 53 - q = 0) by nia. nia. }
    f_equal. nia. }
  assert (new_location (Z.pos m) 0 = loc_Exact) as ->.
  { unfold new_location, new_location_even, new_location_odd.
    by destruct (Z.even (Z.pos m)). }
  destruct s; reflexivity.
Qed.

(** A threshold that is [<= 0] is not [> 0]. *)
Lemma le_zero_not_gt (m : float) : Py.le m 0 = true → Py.gt m 0 = false.
Proof.
  unfold Py.le, Py.gt.
  rewrite FloatAxioms.leb_spec, FloatAxioms.ltb_spec, Prim2SF_zero.
  unfold SFleb, SFltb.
  destruct (Prim2SF m) as [s|s| |s mm e]; simpl; try done; by destruct s.
Qed.

(** [max(1e-9, x)] is a positive finite float unless [x] is [+inf]: a NaN
    and anything at or below 1e-9 give 1e-9 itself. *)
Lemma initial_cash_positive (arg : float) :
  Py.eq arg infinity = false →
  Py.is_positive_finite (Backtest.initial_cash_of arg).
Proof.
  intros Hfin. unfold Backtest.initial_cash_of, Py.max2, Py.gt.
  destruct (PrimFloat.ltb 1e-9 arg) eqn:Hlt; [|by eexists _, _].
  unfold Py.eq in Hfin.
  rewrite FloatAxioms.eqb_spec, Prim2SF_infinity in Hfin.
  rewrite FloatAxioms.ltb_spec in Hlt. unfold SFltb in Hlt. unfold SFeqb in Hfin.
  change (Prim2SF 1e-9) with
    (S754_finite false 4835703278458517 (-82)) in Hlt.
  destruct (Prim2SF arg) as [s|s| |s m e] eqn:Harg; simpl in *.
  - done.
  - by destruct s.
  - done.
  - destruct s; [done|by eexists _, _].
Qed.

End FloatFacts.
(** ** Configuration normalisation *)

(** The fast window ends strictly under the slow one as soon as the slow
    window is at least 3. *)
Lemma normalize_momentum_below (fast_arg slow_arg : Z) :
  3 <= slow_arg ->
  fst (normalize_momentum fast_arg slow_arg)
  < snd (normalize_momentum fast_arg slow_arg).
Proof.
  intros Hs. unfold normalize_momentum.
  destruct (Z.geb_spec (Z.max 2 fast_arg) (Z.max 2 slow_arg)); simpl; lia.
Qed.

(** Both windows are at least 2 and the fast one never exceeds the slow one. *)
Lemma normalize_momentum_bounds (fast_arg slow_arg : Z) :
  let '(f, s) := normalize_momentum fast_arg slow_arg in
  2 <= f /\ f <= s.
Proof.
  unfold normalize_momentum.
  destruct (Z.geb_spec (Z.max 2 fast_arg) (Z.max 2 slow_arg)); lia.
Qed.

(** C6. With a requested slow window of 2 (or less) the floor of 2 wins:
    [--momentum-fast 5 --momentum-slow 2] is normalised to fast = slow = 2,
    so the fast window is not below the slow one. *)
Theorem C6_fast_equals_slow_at_floor :
  normalize_momentum 5 2 = (2, 2)
  /\ ~ (fst (normalize_momentum 5 2) < snd (normalize_momentum 5 2)).
Proof. split; [reflexivity | simpl; lia]. Qed.


(** ** Order validation: every block is counted once *)

Section ExecuteFacts.
Import Execute.

Lemma summary_total_bump (m : gmap string nat) (k : string) (n : nat) :
  m !! k = Some n →
  summary_total (<[k := S n]> m) = S (summary_total m).
Proof.
  intros Hk. unfold summary_total.
  rewrite (map_fold_delete_L _ _ k n m); [|intros; lia|done].
  rewrite <-(insert_delete_eq m k (S n)).
  rewrite map_fold_insert_L; [lia|intros; lia|apply lookup_delete_eq].
Qed.

Lemma counted_initial : counted initial_log.
Proof.
  split; [by vm_compute|].
  unfold initial_log, summary_keys; simpl.
  rewrite !dom_insert_L, dom_empty_L. set_solver.
Qed.

Lemma preserves_add (name status : string) :
  status ∈ summary_keys → preserves (_add_risk_block name status).
Proof.
  intros Hin l [Hsum Hkeys].
  assert (is_Some (risk_summary l !! status)) as [n Hn].
  { apply elem_of_dom. rewrite Hkeys. by apply elem_of_list_to_set. }
  unfold _add_risk_block; simpl. rewrite Hn. split; simpl.
  - rewrite summary_total_bump, Hsum, length_app by done. simpl; lia.
  - rewrite dom_insert_lookup_L; [done|by eexists].
Qed.

Lemma preserves_ret {A} (a : A) : preserves (ret a).
Proof. by intros l Hl. Qed.

Lemma preserves_return {A} (r : Reply) : preserves (@return_ A r).
Proof. by intros l Hl. Qed.

Lemma preserves_raise {A} : preserves (@raise A).
Proof. by intros l Hl. Qed.

Lemma preserves_bind {A B} (m : M A) (k : A → M B) :
  preserves m → (∀ a, preserves (k a)) → preserves (bind m k).
Proof.
  intros Hm Hk l Hl. unfold bind. specialize (Hm l Hl).
  destruct (m l) as [l' [a| |]]; simpl in *; [by apply Hk|done..].
Qed.

Lemma preserves_try {A} (body handler : M A) :
  preserves body → preserves handler → preserves (try_except body handler).
Proof.
  intros Hb Hh l Hl. unfold try_except. specialize (Hb l Hl).
  destruct (body l) as [l' [a| |]]; simpl in *; [done..|by apply Hh].
Qed.

Lemma preserves_market_price (ex : Exchange) (call : nat) :
  preserves (_market_price_from_exchange ex call).
Proof.
  unfold _market_price_from_exchange.
  destruct (fetch_ticker ex call) as [[t|]|];
    auto using preserves_ret, @preserves_raise.
Qed.

Lemma key_pass : "pass" ∈ summary_keys. Proof. set_solver. Qed.
Lemma key_skip : "skip" ∈ summary_keys. Proof. set_solver. Qed.
Lemma key_blocked : "blocked" ∈ summary_keys. Proof. set_solver. Qed.
Lemma key_fail : "fail" ∈ summary_keys. Proof. set_solver. Qed.

Ltac preserve_step :=
  first
    [ apply preserves_bind; [|intros ?]
    | apply preserves_try
    | apply preserves_add;
        first [apply key_pass | apply key_skip | apply key_blocked | apply key_fail]
    | apply preserves_ret
    | apply preserves_return
    | apply preserves_raise
    | apply preserves_market_price
    | case_match ].

Lemma preserves_run_execute_body (args : Args) (ex : Exchange) :
  preserves (run_execute_body args ex).
Proof. unfold run_execute_body. repeat preserve_step. Qed.

(** C9. Every response [run_execute] returns carries a [risk_summary] whose
    four counters add up to the number of entries of [risk_blocks], and the
    [execution_report] inside it refers to the same two objects. *)
Theorem C9_risk_summary_counts_every_block
    (args : Args) (ex : Exchange) (resp : Response) :
  run_execute args ex = Some resp →
  summary_total (resp_risk_summary resp) = length (resp_risk_blocks resp)
  ∧ risk_blocks (execution_report resp) = resp_risk_blocks resp
  ∧ risk_summary (execution_report resp) = resp_risk_summary resp
  ∧ dom (resp_risk_summary resp) = list_to_set summary_keys.
Proof.
  unfold run_execute. intros Hrun.
  pose proof (preserves_run_execute_body args ex _ counted_initial) as [Hs Hk].
  destruct (run_execute_body args ex initial_log) as [l [r|r|]];
    simplify_eq/=; done.
Qed.

Lemma C9_dry_run_witness :
  ∃ resp, run_execute dry_run_args offline_exchange = Some resp
    ∧ resp_status resp = "dry_run"
    ∧ length (resp_risk_blocks resp) = 6%nat
    ∧ summary_total (resp_risk_summary resp) = length (resp_risk_blocks resp).
Proof.
  eexists. split; [vm_compute; reflexivity|].
  split; [reflexivity|]. split; [reflexivity|].
  eapply (C9_risk_summary_counts_every_block dry_run_args offline_exchange).
  vm_compute; reflexivity.
Defined.

End ExecuteFacts.

(** ** The Pair-Spread Builder at large prices *)

(** C1. On the two fifty-bar legs [big_primary] (close 2^31 = 2147483648.0)
    and [big_secondary] (close 2^31 on even rows, 2^30 on odd rows) and a
    hedge window of 20 the builder succeeds with fifty rows (the legs are
    hourly, so the join tolerance is 1.5 hours). The price ratios
    are 1 and 2, so every rolling mean is exactly 1.5; the raw spread is
    -2^30 on even rows and 2^29 on odd rows, its minimum is -2^30, and the
    shift [abs(spread_min) + 1e-8] is 2^30 again: neighbouring binary64
    numbers are 2^-22 (about 2.4e-7) apart at 2^30, so adding 1e-8 rounds
    back to 2^30. Every even row of the result therefore closes at exactly
    0.0, which is not greater than zero. *)
Theorem C1_spread_close_is_zero_at_large_prices :
  (0x1p30 + 1e-8 = 0x1p30)%float
  ∧ Spread.tolerance_ns (Some 3600000000000) (Some 3600000000000)
    = Some 5400000000000
  ∧ Pd.series_min
      (Spread.raw_spread (H:=Pd.naive) 20
         (Spread.merge_rows Spread.big_primary Spread.big_secondary
            5400000000000))
    = (-0x1p30)%float
  ∧ Spread.spread_shift_of (-0x1p30) = 0x1p30%float
  ∧ ∃ rows,
      Spread._build_stat_arb_df (H:=Pd.naive)
        Spread.big_primary Spread.big_secondary "PAIR2" 20 = Some rows
      ∧ length rows = 50%nat
      ∧ map (λ r, hedge_ratio r) rows = replicate 50 1.5%float
      ∧ map (λ r, close (spread_bar r)) (take 4 rows)
        = [0; 0x1.8p30; 0; 0x1.8p30]%float
      ∧ Exists (λ r, Py.gt (close (spread_bar r)) 0 = false) rows.
Proof.
  split; [reflexivity|]. split; [by vm_compute|].
  split; [by vm_compute|]. split; [by vm_compute|].
  eexists. split; [vm_compute; reflexivity|].
  split; [reflexivity|]. split; [by vm_compute|]. split; [by vm_compute|].
  apply Exists_cons_hd. by vm_compute.
Qed.

(** ** The Indicator Engine: alignment, warm-up and the rows simulated *)

Section IndicatorFacts.
Import Pd Indicators.
Context `{Numerics}.

Lemma length_rolling (w : nat) (agg : list float → float) (xs : list float) :
  length (rolling w agg xs) = length xs.
Proof. unfold rolling. by rewrite length_imap. Qed.

(** A rolling aggregate over a column that starts with a NaN is undefined
    on the first [w] rows. *)
Lemma rolling_nan_head (w : nat) (agg : list float → float)
    (x : float) (xs : list float) (i : nat) :
  isna x = true → (i < w)%nat →
  Py.isnan (default nan (rolling w agg (x :: xs) !! i)) = true.
Proof.
  intros Hx Hi. unfold rolling. rewrite list_lookup_imap.
  destruct ((x :: xs) !! i) as [y|]; [simpl|done].
  unfold window. destruct (Nat.eqb_spec w 0) as [|Hw]; [done|].
  destruct (Nat.ltb_spec (i + 1) w) as [|Hge]; [done|].
  replace (i + 1 - w)%nat with 0%nat by lia. simpl.
  destruct w as [|w']; [done|]. simpl. by rewrite Hx.
Qed.

(** A rolling aggregate is undefined until [w] rows exist. *)
Lemma rolling_warmup (w : nat) (agg : list float → float)
    (xs : list float) (i : nat) :
  (i + 1 < w)%nat → Py.isnan (default nan (rolling w agg xs !! i)) = true.
Proof.
  intros Hi. unfold rolling. rewrite list_lookup_imap.
  destruct (xs !! i) as [y|]; [simpl|done].
  unfold window. destruct (Nat.eqb_spec w 0) as [|Hw]; [done|].
  destruct (Nat.ltb_spec (i + 1) w) as [|Hge]; [done|lia].
Qed.

(** The first difference of a column starts with a NaN, and so do its
    gains. *)
Lemma gains_start_undefined (x : float) (xs : list float) :
  ∃ g gs, clip_lower0 (diff (x :: xs)) = g :: gs ∧ isna g = true.
Proof.
  unfold diff, shift, clip_lower0. simpl.
  eexists _, _. split; [reflexivity|].
  assert (Py.isnan (x - nan) = true) as Hn by (by apply nan_sub_r).
  rewrite (nan_lt_l _ _ Hn). exact Hn.
Qed.

(** The oscillator is undefined on the first [period] rows. *)
Lemma rsi_warmup (series : list float) (period i : nat) :
  (i < period)%nat →
  Py.isnan (default nan (_rsi series period !! i)) = true.
Proof.
  intros Hi. unfold _rsi.
  destruct series as [|x xs]; [done|].
  destruct (gains_start_undefined x xs) as (g & gs & -> & Hg).
  generalize (replace_zero
                (rolling period mean_of
                   (map PrimFloat.opp (clip_upper0 (diff (x :: xs)))))).
  intros losses.
  rewrite list_lookup_fmap, lookup_zip_with.
  pose proof (rolling_nan_head period mean_of g gs i Hg Hi) as Hroll.
  destruct (rolling period mean_of (g :: gs) !! i) as [ag|]; [|done].
  cbn [default] in Hroll.
  destruct (losses !! i) as [z|]; [|done].
  cbn [mbind option_bind fmap option_fmap option_map default].
  apply nan_sub_r, nan_div_r, nan_add_r, nan_div_l, Hroll.
Qed.

Lemma add_indicators_lookup (bars : list Bar) (p : Windows) (i : nat) (r : Row) :
  _add_indicators bars p !! i = Some r →
  bars !! i = Some (bar r)
  ∧ sma r = default nan (rolling (bb_window p) mean_of (map close bars) !! i)
  ∧ rsi r = default nan (_rsi (map close bars) (rsi_period p) !! i)
  ∧ ma_fast r
    = default nan (rolling (momentum_fast p) mean_of (map close bars) !! i)
  ∧ ma_slow r
    = default nan (rolling (momentum_slow p) mean_of (map close bars) !! i)
  ∧ atr r
    = default nan (rolling (atr_window p) mean_of (true_range bars) !! i).
Proof.
  unfold _add_indicators. rewrite list_lookup_imap.
  destruct (bars !! i) as [b|]; [simpl|done]. by intros [= <-].
Qed.

Lemma undefined_column (x : float) :
  Py.isnan x = true → notna x = false.
Proof. unfold notna. by intros ->. Qed.

(** Every row of the warm-up has an undefined indicator. *)
Lemma warmup_rows_undefined (bars : list Bar) (p : Windows) (i : nat) (r : Row) :
  _add_indicators bars p !! i = Some r →
  (i < warmup p)%nat →
  indicators_defined r = false.
Proof.
  intros Hr Hi.
  destruct (add_indicators_lookup _ _ _ _ Hr)
    as (_ & Hsma & Hrsi & Hfast & Hslow & Hatr).
  unfold warmup, max_of in Hi. simpl in Hi. unfold indicators_defined.
  assert ((i + 1 < bb_window p) ∨ (i < rsi_period p)
          ∨ (i + 1 < momentum_fast p) ∨ (i + 1 < momentum_slow p)
          ∨ (i + 1 < atr_window p))%nat as Hcase by lia.
  destruct Hcase as [Hc|[Hc|[Hc|[Hc|Hc]]]].
  - rewrite (undefined_column (sma r)); [done|].
    rewrite Hsma. by apply rolling_warmup.
  - rewrite (undefined_column (rsi r)); [by rewrite !andb_false_r|].
    rewrite Hrsi. by apply rsi_warmup.
  - rewrite (undefined_column (ma_fast r)); [by rewrite !andb_false_r|].
    rewrite Hfast. by apply rolling_warmup.
  - rewrite (undefined_column (ma_slow r)); [by rewrite !andb_false_r|].
    rewrite Hslow. by apply rolling_warmup.
  - rewrite (undefined_column (atr r)); [by rewrite !andb_false_r|].
    rewrite Hatr. by apply rolling_warmup.
Qed.

(** C4, as the code has it. The frame has one row per bar, in order; every
    row among the first [warmup p] (the longest of the band, trend and ATR
    windows and of the oscillator period plus one, minus one) has an
    undefined indicator; and the rows the loop walks are exactly the frame
    rows whose nine indicators are all defined, in frame order, so no row
    the loop reads carries an undefined indicator. *)
Theorem C4_frame_aligned_and_undefined_rows_dropped
    (bars : list Bar) (p : Windows) :
  length (_add_indicators bars p) = length bars
  ∧ (∀ i r, _add_indicators bars p !! i = Some r → bars !! i = Some (bar r))
  ∧ (∀ i r, _add_indicators bars p !! i = Some r →
            (i < warmup p)%nat → indicators_defined r = false)
  ∧ (∀ r, In r (simulation_rows bars p) ↔
          In r (_add_indicators bars p) ∧ indicators_defined r = true)
  ∧ sublist (simulation_rows bars p) (_add_indicators bars p)
  ∧ (∀ ml_probs sentiment t,
       In t (Backtest.ticks_of (simulation_rows bars p) ml_probs sentiment) →
       indicators_defined (Backtest.row t) = true).
Proof.
  split; [unfold _add_indicators; by rewrite length_imap|].
  split; [intros i r Hr; by apply add_indicators_lookup in Hr as [? _]|].
  split; [apply warmup_rows_undefined|].
  split; [intros r; apply filter_In|].
  split.
  - unfold simulation_rows.
    induction (_add_indicators bars p) as [|x l IH]; [done|].
    simpl. destruct (indicators_defined x); by constructor.
  - intros ml_probs sentiment t Ht. apply list_elem_of_In in Ht.
    unfold Backtest.ticks_of in Ht.
    apply elem_of_lookup_imap in Ht as (idx & r & -> & Hr). simpl.
    apply list_elem_of_lookup_2, list_elem_of_In in Hr.
    by apply filter_In in Hr as [_ ?].
Qed.

End IndicatorFacts.

(** On six strictly rising closes with windows of 2 and 3 the oscillator has
    no losses to average, so it is undefined on every row: row 5 is
    undefined although only the first [max_window - 1 = 2] rows are within
    the longest lookback, and [dropna] leaves nothing to simulate. *)
Lemma C4_undefined_beyond_the_longest_lookback :
  ¬ (∀ i r,
       Indicators._add_indicators (H:=Pd.naive)
         Indicators.rising_bars Indicators.small_windows !! i = Some r →
       (Indicators.indicators_defined r = false
        ↔ (i < Indicators.max_window Indicators.small_windows - 1)%nat)).
Proof.
  intros Hall.
  assert (∃ r, Indicators._add_indicators (H:=Pd.naive)
                 Indicators.rising_bars Indicators.small_windows !! 5%nat
               = Some r
               ∧ Indicators.indicators_defined r = false) as (r & Hr & Hu).
  { eexists. split; [vm_compute; reflexivity|by vm_compute]. }
  apply (Hall 5%nat r Hr) in Hu. vm_compute in Hu. lia.
Qed.

(** ** The strategy/risk loop *)

Section BacktestFacts.
Import Pd Backtest.
Context `{Numerics}.
Variable p : Params.

(** *** Closing a position *)

Lemma close_trade_zero (ts : Z) (px : float) (why : string) (s : State) :
  Py.eq (position_qty (position (_close_trade p ts px why s))) 0 = true.
Proof.
  unfold _close_trade.
  destruct (Py.eq (position_qty (position s)) 0) eqn:Hq; [exact Hq|reflexivity].
Qed.

Lemma close_trade_open (ts : Z) (px : float) (why : string) (s : State) :
  Py.eq (position_qty (position s)) 0 = false →
  closed_as s (_close_trade p ts px why s) ts px why.
Proof.
  intros Hq. unfold _close_trade, closed_as. rewrite Hq. simpl.
  split; [done|]. eexists. split; [reflexivity|]. simpl. done.
Qed.

(** [_close_trade] appends at most one trade, and it carries the reason it
    was called with. *)
Lemma close_trade_ledger (ts : Z) (px : float) (why : string) (s : State) :
  ∃ extra, trades (_close_trade p ts px why s) = trades s ++ extra
           ∧ Forall (λ tr, reason tr = why) extra.
Proof.
  unfold _close_trade. destruct (Py.eq (position_qty (position s)) 0).
  - exists []. by rewrite app_nil_r.
  - eexists [_]. split; [reflexivity|]. by repeat constructor.
Qed.

(** *** The drawdown check and the correlation guard *)

Lemma mark_peak_frame (t : Tick) (s : State) :
  cash (mark_peak t s) = cash s ∧ position (mark_peak t s) = position s
  ∧ halted (mark_peak t s) = halted s ∧ trades (mark_peak t s) = trades s
  ∧ risk_events (mark_peak t s) = risk_events s
  ∧ risk_controls (mark_peak t s) = risk_controls s
  ∧ equity_curve (mark_peak t s) = equity_curve s
  ∧ halt_reason (mark_peak t s) = halt_reason s
  ∧ strategy_signal_history (mark_peak t s) = strategy_signal_history s.
Proof. unfold mark_peak. by destruct (Py.gt _ _). Qed.

Lemma drawdown_check_when_halted (t : Tick) (s : State) :
  halted s = true →
  drawdown_check p t s = append_equity (mark_peak t s) (bar_equity t s).
Proof.
  intros Hh. unfold drawdown_check.
  destruct (mark_peak_frame t s) as (_ & _ & -> & _). by rewrite Hh.
Qed.

Lemma drawdown_check_not_halting (t : Tick) (s : State) :
  halted (drawdown_check p t s) = false →
  halted s = false
  ∧ drawdown_check p t s = append_equity (mark_peak t s) (bar_equity t s).
Proof.
  unfold drawdown_check.
  destruct (mark_peak_frame t s) as (_ & _ & Hm & _).
  rewrite Hm. destruct (halted s) eqn:Hh; simpl; rewrite ?Hm; [done|].
  destruct (Py.ge _ _); simpl; done.
Qed.

Lemma correlation_guard_frame (t : Tick) (s : State) :
  let s' := (correlation_guard p t s).1 in
  cash s' = cash s ∧ position s' = position s ∧ halted s' = halted s
  ∧ trades s' = trades s ∧ equity_curve s' = equity_curve s
  ∧ peak_equity s' = peak_equity s.
Proof.
  unfold correlation_guard. simpl.
  repeat case_match; simpl; done.
Qed.

(** *** Once halted *)

(** A bar of a halted run: the peak is marked, the equity is appended,
    nothing else happens. *)
Lemma step_halted (t : Tick) (s : State) :
  halted s = true →
  step p t s = Some (append_equity (mark_peak t s) (bar_equity t s)).
Proof.
  intros Hh. unfold step. rewrite drawdown_check_when_halted by done.
  simpl. destruct (mark_peak_frame t s) as (_ & _ & -> & _). by rewrite Hh.
Qed.

Lemma run_loop_halted (ticks : list Tick) (s : State) :
  halted s = true →
  ∃ s', run_loop p ticks s = Some s'
        ∧ halted s' = true
        ∧ cash s' = cash s ∧ position s' = position s
        ∧ trades s' = trades s
        ∧ risk_events s' = risk_events s
        ∧ risk_controls s' = risk_controls s
        ∧ strategy_signal_history s' = strategy_signal_history s
        ∧ equity_curve s'
          = equity_curve s ++ map (λ t, bar_equity t s) ticks.
Proof.
  revert s. induction ticks as [|t rest IH]; intros s Hh.
  - exists s. simpl. by rewrite app_nil_r.
  - simpl. rewrite step_halted by done.
    set (s1 := append_equity (mark_peak t s) (bar_equity t s)).
    destruct (mark_peak_frame t s)
      as (Hc & Hp & Hhalt & Ht & Hre & Hrc & Heq & _ & Hsh).
    destruct (IH s1) as (s' & Hrun & Hh' & Hc' & Hp' & Ht' & Hre' & Hrc' & Hsh' & Heq').
    { simpl. by rewrite Hhalt. }
    exists s'. split; [done|]. split; [done|].
    subst s1; simpl in *.
    rewrite Hc', Hp', Ht', Hre', Hrc', Hsh', Heq'.
    rewrite Hc, Hp, Ht, Hre, Hrc, Hsh, Heq.
    repeat (split; [done|]).
    rewrite <-app_assoc. simpl. f_equal. f_equal.
    apply map_ext. intros t'. unfold bar_equity. simpl. by rewrite Hc, Hp.
Qed.

(** C3. From a halted state the loop runs to the end of any remaining
    bars and stays halted: the trade ledger, the risk events and the
    counters of [risk_controls] are those of the halted state (no entry, no
    further drawdown event), the equity curve gains exactly one
    mark-to-market value [cash + position_qty * close] per remaining bar, and
    the only trade the end of the run can still add is the [eod_close]. *)
Theorem C3_halted_is_terminal (ticks : list Tick) (s : State) :
  halted s = true →
  ∃ s', run_loop p ticks s = Some s'
        ∧ halted s' = true
        ∧ trades s' = trades s
        ∧ risk_events s' = risk_events s
        ∧ risk_controls s' = risk_controls s
        ∧ strategy_signal_history s' = strategy_signal_history s
        ∧ equity_curve s'
          = equity_curve s ++ map (λ t, bar_equity t s) ticks
        ∧ ∃ extra, trades (close_at_end p ticks s') = trades s ++ extra
                   ∧ Forall (λ tr, reason tr = "eod_close"
                                   ∧ is_entry_reason (reason tr) = false) extra.
Proof.
  intros Hh.
  destruct (run_loop_halted ticks s Hh)
    as (s' & Hrun & Hh' & _ & _ & Ht & Hre & Hrc & Hsh & Heq).
  exists s'. repeat (split; [done|]).
  unfold close_at_end. destruct (Py.ne _ _).
  - destruct (last ticks) as [t|].
    + destruct (close_trade_ledger (tick_ts t) (tick_close t) "eod_close" s')
        as (extra & -> & Hall).
      exists extra. rewrite Ht. split; [done|].
      eapply Forall_impl; [exact Hall|]. by intros tr ->.
    + exists []. by rewrite Ht, app_nil_r.
  - exists []. by rewrite Ht, app_nil_r.
Qed.

End BacktestFacts.

Section RunFacts.
Import Pd Backtest.
Context `{Numerics}.
Variable p : Params.

(** *** The loop body never fails on a nonzero close *)

(** A float that compares equal to zero is below the spread floor. *)
Lemma zero_below_floor (a : float) :
  Py.eq a 0 = true → Py.lt a 1e-6 = true.
Proof.
  rewrite eq_zero_spec. intros [s Ha]. unfold Py.lt.
  rewrite FloatAxioms.ltb_spec, Ha. reflexivity.
Qed.

Lemma floor_denominator_nonzero (a : float) :
  Py.lt a 1e-6 = false → Py.eq (Py.max2 a 1e-6) 0 = false.
Proof.
  intros Ha. unfold Py.max2, Py.gt. change (PrimFloat.ltb a 1e-6) with (Py.lt a 1e-6).
  rewrite Ha. destruct (Py.eq a 0) eqn:Hz; [|done].
  apply zero_below_floor in Hz. congruence.
Qed.

Lemma entry_check_total (t : Tick) (blocked : bool) (sg : Signals) (s : State) :
  Py.eq (tick_close t) 0 = false → is_Some (entry_check p t blocked sg s).
Proof.
  intros Hc. unfold entry_check, Py.div.
  repeat case_match; try done; simplify_eq.
  match goal with
  | Hor : _ || _ = false, Hden : Py.eq (Py.max2 _ _) 0 = true |- _ =>
      apply orb_false_iff in Hor as [_ Hlt];
      rewrite (floor_denominator_nonzero _ Hlt) in Hden; discriminate
  end.
Qed.

Lemma step_total (t : Tick) (s : State) :
  Py.eq (tick_close t) 0 = false → is_Some (step p t s).
Proof.
  intros Hc. unfold step.
  destruct (halted (drawdown_check p t s)); [done|].
  destruct (correlation_guard p t (drawdown_check p t s)) as [s2 blocked].
  destruct (exit_checks p t _ s2); [done|]. by apply entry_check_total.
Qed.

Lemma run_loop_total (ticks : list Tick) (s : State) :
  Forall (λ t, Py.eq (tick_close t) 0 = false) ticks →
  is_Some (run_loop p ticks s).
Proof.
  intros Hall. revert s. induction Hall as [|t rest Ht _ IH]; intros s; [done|].
  simpl. destruct (step_total t s Ht) as [s' ->]. apply IH.
Qed.

(** C2. Whatever the bars, a run that comes back has a zero position:
    when the loop leaves a position open ([position_qty != 0]), the run
    appends one trade with reason [eod_close] at the last row's timestamp and
    close and resets the position; otherwise the position was zero already.
    And the run does come back whenever no bar closes at zero. *)
Theorem C2_no_position_after_the_final_bar
    (initial_cash : float) (ticks : list Tick) :
  (∀ s, simulate p initial_cash ticks = Some s →
        Py.eq (position_qty (position s)) 0 = true)
  ∧ (∀ s_loop last_tick,
        run_loop p ticks (initial_state p initial_cash) = Some s_loop →
        last ticks = Some last_tick →
        Py.ne (position_qty (position s_loop)) 0 = true →
        ∃ s, simulate p initial_cash ticks = Some s
             ∧ closed_as s_loop s (tick_ts last_tick) (tick_close last_tick)
                 "eod_close")
  ∧ (Forall (λ t, Py.eq (tick_close t) 0 = false) ticks →
     is_Some (simulate p initial_cash ticks)).
Proof.
  unfold simulate. split; [|split].
  - intros s Hs.
    destruct (run_loop p ticks (initial_state p initial_cash)) as [s0|] eqn:Hrun;
      [|done].
    injection Hs as <-. unfold close_at_end.
    destruct (Py.ne (position_qty (position s0)) 0) eqn:Hq;
      [|unfold Py.ne in Hq; by apply negb_false_iff in Hq].
    destruct (last ticks) as [t|] eqn:Hlast; [apply close_trade_zero|].
    apply last_None in Hlast. subst ticks. simpl in Hrun.
    injection Hrun as <-. done.
  - intros s_loop t -> Hlast Hq. eexists. split; [reflexivity|].
    unfold close_at_end. rewrite Hq, Hlast.
    apply close_trade_open. unfold Py.ne in Hq. by apply negb_true_iff in Hq.
  - intros Hall.
    destruct (run_loop_total ticks (initial_state p initial_cash) Hall) as [s ->].
    done.
Qed.

(** *** Stops before signal exits *)

(** The order of the checks, as the code has it. On a bar that does not
    halt the run, with a position open and a positive ATR: a long position
    is closed with [stop_loss_atr] when the low reaches [entry - k * ATR], whatever the
    signals are; failing that with [statarb_stop_loss] when the z-score stop
    fires; failing that with [exit_signal] when the exit signal fires; and
    otherwise it is kept. A short position goes through the same three
    checks against [entry + k * ATR] and the high, its ATR stop carrying
    [stop_loss_atr_short]. Both stops fill at [max(stop_price, 1e-8)], the
    ATR stop level of the position's side, the signal exit at the bar's
    close. *)
Lemma stop_checks_precede_signal_exits (t : Tick) (s s' : State) :
  step p t s = Some s' →
  halted s' = false →
  Py.ne (position_qty (position s)) 0 = true →
  Py.gt (atr (row t)) 0 = true →
  let q := position_qty (position s) in
  let sg := bar_signals p t s in
  (Py.gt q 0 = true →
   if Py.le (low (bar (row t))) (long_stop_price p t s)
   then closed_as s s' (tick_ts t)
          (Py.max2 (long_stop_price p t s) 1e-8) "stop_loss_atr"
   else if stop_loss_signal sg
   then closed_as s s' (tick_ts t)
          (Py.max2 (long_stop_price p t s) 1e-8) "statarb_stop_loss"
   else if exit_signal sg
   then closed_as s s' (tick_ts t) (tick_close t) "exit_signal"
   else position s' = position s ∧ trades s' = trades s)
  ∧ (Py.gt q 0 = false → Py.lt q 0 = true →
     if Py.ge (high (bar (row t))) (short_stop_price p t s)
     then closed_as s s' (tick_ts t)
            (Py.max2 (short_stop_price p t s) 1e-8) "stop_loss_atr_short"
     else if stop_loss_signal sg
     then closed_as s s' (tick_ts t)
            (Py.max2 (short_stop_price p t s) 1e-8) "statarb_stop_loss"
     else if exit_signal sg
     then closed_as s s' (tick_ts t) (tick_close t) "exit_signal"
     else position s' = position s ∧ trades s' = trades s).
Proof.
  intros Hstep Hlive Hopen Hatr q sg. subst q sg.
  unfold step in Hstep. unfold bar_signals.
  destruct (halted (drawdown_check p t s)) eqn:Hh.
  { injection Hstep as <-. congruence. }
  destruct (drawdown_check_not_halting p t s Hh) as [Hs0 Hdc].
  pose proof (correlation_guard_frame p t (drawdown_check p t s)) as Hcg.
  destruct (correlation_guard p t (drawdown_check p t s)) as [s2 blocked].
  cbn [fst] in Hcg. destruct Hcg as (_ & Hpos & Hh2 & Htr & _).
  rewrite Hdc in Hpos, Htr, Hh2. simpl in Hpos, Htr, Hh2.
  destruct (mark_peak_frame t s) as (_ & Hp1 & Hh1 & Ht1 & _).
  rewrite Hp1 in Hpos. rewrite Ht1 in Htr. rewrite Hh1, Hs0 in Hh2.
  set (sg := signals p t blocked s2) in *.
  assert (Py.eq (position_qty (position s)) 0 = false) as Hq0.
  { unfold Py.ne in Hopen. by apply negb_true_iff in Hopen. }
  assert (∀ ts px why,
            closed_as s (_close_trade p ts px why s2) ts px why) as Hclose.
  { intros ts px why.
    pose proof (close_trade_open p ts px why s2) as Hc.
    rewrite Hpos in Hc. specialize (Hc Hq0).
    unfold closed_as in *. by rewrite Htr, Hpos in Hc. }
  assert (entry_check p t blocked sg s2 = Some s2) as Hentry.
  { unfold entry_check. by rewrite Hpos, Hq0. }
  unfold exit_checks, long_stop_price, short_stop_price in *.
  rewrite Hh2, Hpos, Hopen, Hatr in Hstep. simpl in Hstep.
  split.
  - intros Hlong. rewrite Hlong in Hstep.
    destruct (Py.le _ _); [injection Hstep as <-; apply Hclose|].
    destruct (stop_loss_signal sg); [injection Hstep as <-; apply Hclose|].
    destruct (exit_signal sg); [injection Hstep as <-; apply Hclose|].
    rewrite Hentry in Hstep. injection Hstep as <-. done.
  - intros Hnl Hshort. rewrite Hnl, Hshort in Hstep.
    destruct (Py.ge _ _); [injection Hstep as <-; apply Hclose|].
    destruct (stop_loss_signal sg); [injection Hstep as <-; apply Hclose|].
    destruct (exit_signal sg); [injection Hstep as <-; apply Hclose|].
    rewrite Hentry in Hstep. injection Hstep as <-. done.
Qed.

(** Whenever the z-score stop closes a position, the ATR stop level it
    fills at was not reached by the bar: the low of the bar is not at or
    below it for a long, the high not at or above it for a short. *)
Lemma zscore_stop_level_was_not_reached (t : Tick) (s s' : State) (tr : Trade) :
  step p t s = Some s' →
  halted s' = false →
  Py.ne (position_qty (position s)) 0 = true →
  Py.gt (atr (row t)) 0 = true →
  trades s' = trades s ++ [tr] →
  reason tr = "statarb_stop_loss" →
  let q := position_qty (position s) in
  (Py.gt q 0 = true →
   Py.le (low (bar (row t))) (long_stop_price p t s) = false
   ∧ price tr = round_nd (Py.max2 (long_stop_price p t s) 1e-8) 8)
  ∧ (Py.gt q 0 = false → Py.lt q 0 = true →
     Py.ge (high (bar (row t))) (short_stop_price p t s) = false
     ∧ price tr = round_nd (Py.max2 (short_stop_price p t s) 1e-8) 8).
Proof.
  intros Hstep Hlive Hopen Hatr Htr Hreason q.
  destruct (stop_checks_precede_signal_exits t s s' Hstep Hlive Hopen Hatr)
    as [Hlong Hshort].
  assert (∀ px why, closed_as s s' (tick_ts t) px why →
            why = "statarb_stop_loss" ∧ price tr = round_nd px 8) as Hclosed.
  { intros px why (_ & tr' & Htr' & Hwhy & Hpx & _).
    rewrite Htr in Htr'. apply app_inj_tail in Htr' as [_ <-].
    split; [congruence|done]. }
  assert (trades s' ≠ trades s) as Hnew.
  { rewrite Htr. intros Heq. apply (f_equal length) in Heq.
    rewrite length_app in Heq. simpl in Heq. lia. }
  split.
  - intros Hq. specialize (Hlong Hq).
    destruct (Py.le _ _); [by destruct (Hclosed _ _ Hlong)|].
    destruct (stop_loss_signal _); [by destruct (Hclosed _ _ Hlong)|].
    destruct (exit_signal _); [by destruct (Hclosed _ _ Hlong)|].
    by destruct Hlong.
  - intros Hq Hq'. specialize (Hshort Hq Hq').
    destruct (Py.ge _ _); [by destruct (Hclosed _ _ Hshort)|].
    destruct (stop_loss_signal _); [by destruct (Hclosed _ _ Hshort)|].
    destruct (exit_signal _); [by destruct (Hclosed _ _ Hshort)|].
    by destruct Hshort.
Qed.

(** *** A drawdown limit that is not positive *)

(** C10, as the code has it. With [max_drawdown <= 0], the first bar trips
    the circuit before
    any signal is evaluated: its equity is the initial cash, so its drawdown
    is exactly 0.0, which is [>= max_drawdown]. The run completes halted,
    with an empty trade ledger, one drawdown event and one circuit hit, while
    [risk_controls] reports the circuit as not enabled. The numbers are the
    engine's ordinary ones: the first close is finite (a bar's fields are)
    and the requested initial cash is not [+inf] (a NaN or a value at or
    below 1e-9 becomes 1e-9). *)
Theorem C10_nonpositive_limit_halts_on_the_first_bar
    (cash_arg : float) (t : Tick) (rest : list Tick) :
  Py.le (max_drawdown p) 0 = true →
  Py.eq cash_arg infinity = false →
  Py.isfinite (tick_close t) = true →
  let cash0 := initial_cash_of cash_arg in
  (∃ s1, step p t (initial_state p cash0) = Some s1
         ∧ halted s1 = true ∧ trades s1 = []
         ∧ strategy_signal_history s1 = {| momentum := []; mean_reversion := [] |}
         ∧ halt_reason s1 = Some (0%float, max_drawdown p))
  ∧ ∃ s, simulate p cash0 (t :: rest) = Some s
         ∧ halted s = true
         ∧ trades s = []
         ∧ risk_events s
           = [drawdown_circuit_breaker (tick_ts t) (round_nd cash0 8)
                (round_nd 0 6)]
         ∧ drawdown_circuit_hits (risk_controls s) = 1%nat
         ∧ drawdown_circuit_enabled (risk_controls s) = false
         ∧ length (equity_curve s) = S (length rest).
Proof.
  intros Hlimit Hcash Hclose cash0.
  pose proof (initial_cash_positive cash_arg Hcash) as Hpos. fold cash0 in Hpos.
  assert (bar_equity t (initial_state p cash0) = cash0) as Hequity.
  { unfold bar_equity. simpl.
    apply add_zero_r; [by apply positive_nonzero|by apply zero_mul_finite]. }
  assert (drawdown_check p t (initial_state p cash0)
          = append_equity
              (set_halted (initial_state p cash0) (0%float, max_drawdown p)
                 (drawdown_circuit_breaker (tick_ts t) (round_nd cash0 8)
                    (round_nd 0 6)))
              cash0) as Hdc.
  { unfold drawdown_check, mark_peak. rewrite Hequity. simpl.
    rewrite gt_irrefl. simpl. rewrite (positive_gt_zero _ Hpos).
    rewrite div_self by (by apply positive_nonzero).
    change (1 - 1)%float with 0%float.
    unfold Py.ge. change (PrimFloat.leb (max_drawdown p) 0) with (Py.le (max_drawdown p) 0).
    rewrite Hlimit. reflexivity. }
  assert (step p t (initial_state p cash0)
          = Some (append_equity
              (set_halted (initial_state p cash0) (0%float, max_drawdown p)
                 (drawdown_circuit_breaker (tick_ts t) (round_nd cash0 8)
                    (round_nd 0 6)))
              cash0)) as Hstep.
  { unfold step. rewrite Hdc. reflexivity. }
  split.
  - eexists. split; [exact Hstep|]. done.
  - unfold simulate. simpl run_loop. rewrite Hstep.
    set (s1 := append_equity _ _).
    destruct (run_loop_halted p rest s1 eq_refl)
      as (s' & -> & Hh' & _ & Hp' & Ht' & Hre' & Hrc' & _ & Heq').
    eexists. split; [reflexivity|].
    assert (close_at_end p (t :: rest) s' = s') as ->.
    { unfold close_at_end. rewrite Hp'. reflexivity. }
    rewrite Hh', Ht', Hre', Hrc', Heq'. subst s1. simpl.
    rewrite (le_zero_not_gt _ Hlimit), length_map.
    done.
Qed.

End RunFacts.

(** *** The two-bar stat-arb run *)

Section RunExamples.
Import Pd Backtest.

Lemma C2_eod_close_witness :
  ∃ s, simulate (H:=naive) stat_arb_params 10000 [short_entry_tick; still_tick]
       = Some s
       ∧ closed_as (H:=naive) open_short_state s (tick_ts still_tick)
           (tick_close still_tick) "eod_close".
Proof.
  destruct (C2_no_position_after_the_final_bar (H:=naive) stat_arb_params 10000
              [short_entry_tick; still_tick]) as (_ & Heod & _).
  apply (Heod open_short_state still_tick); vm_compute; reflexivity.
Defined.

Lemma C3_halted_run_witness :
  ∃ s', run_loop (H:=naive) zero_limit_params [short_stop_tick; still_tick]
          halted_state = Some s'
        ∧ halted s' = true
        ∧ trades s' = trades halted_state
        ∧ risk_events s' = risk_events halted_state
        ∧ risk_controls s' = risk_controls halted_state
        ∧ strategy_signal_history s' = strategy_signal_history halted_state
        ∧ equity_curve s'
          = equity_curve halted_state
            ++ map (λ t, bar_equity t halted_state) [short_stop_tick; still_tick]
        ∧ ∃ extra,
            trades (close_at_end (H:=naive) zero_limit_params
                      [short_stop_tick; still_tick] s')
            = trades halted_state ++ extra
            ∧ Forall (λ tr, reason tr = "eod_close"
                            ∧ is_entry_reason (reason tr) = false) extra.
Proof.
  apply (C3_halted_is_terminal (H:=naive) zero_limit_params
           [short_stop_tick; still_tick] halted_state).
  vm_compute; reflexivity.
Defined.

Lemma short_stop_example :
  (Py.gt (position_qty (position short_state)) 0 = false
   ∧ Py.lt (position_qty (position short_state)) 0 = true
   ∧ Py.ge (high (bar (row short_stop_tick)))
       (short_stop_price stat_arb_params short_stop_tick short_state) = true)
  ∧ closed_as (H:=naive) short_state stopped_state (tick_ts short_stop_tick)
      (Py.max2 (short_stop_price stat_arb_params short_stop_tick short_state)
         1e-8)
      "stop_loss_atr_short".
Proof.
  split; [repeat split; vm_compute; reflexivity|].
  pose proof (stop_checks_precede_signal_exits (H:=naive) stat_arb_params
                short_stop_tick short_state stopped_state) as Hbar.
  destruct Hbar as [_ Hshort]; [vm_compute; reflexivity..|].
  specialize (Hshort ltac:(vm_compute; reflexivity) ltac:(vm_compute; reflexivity)).
  replace (Py.ge (high (bar (row short_stop_tick)))
             (short_stop_price stat_arb_params short_stop_tick short_state))
    with true in Hshort by (vm_compute; reflexivity).
  exact Hshort.
Defined.

Lemma C10_zero_limit_witness :
  (∃ s1, step (H:=naive) zero_limit_params short_entry_tick
           (initial_state zero_limit_params (initial_cash_of 10000)) = Some s1
         ∧ halted s1 = true ∧ trades s1 = []
         ∧ strategy_signal_history s1 = {| momentum := []; mean_reversion := [] |}
         ∧ halt_reason s1 = Some (0%float, max_drawdown zero_limit_params))
  ∧ ∃ s, simulate (H:=naive) zero_limit_params (initial_cash_of 10000)
           [short_entry_tick; short_stop_tick] = Some s
         ∧ halted s = true
         ∧ trades s = []
         ∧ risk_events s
           = [drawdown_circuit_breaker (tick_ts short_entry_tick)
                (round_nd (Numerics:=naive) (initial_cash_of 10000) 8)
                (round_nd (Numerics:=naive) 0 6)]
         ∧ drawdown_circuit_hits (risk_controls s) = 1%nat
         ∧ drawdown_circuit_enabled (risk_controls s) = false
         ∧ length (equity_curve s) = 2%nat.
Proof.
  apply (C10_nonpositive_limit_halts_on_the_first_bar (H:=naive)
           zero_limit_params 10000 short_entry_tick [short_stop_tick]);
    vm_compute; reflexivity.
Defined.

(** The short of the first bar is stopped on the second bar by its ATR
    stop, and the trade appended for it carries [stop_loss_atr_short], not
    [stop_loss_atr]. *)
Lemma short_stop_has_its_own_reason :
  ¬ (∀ (p : Params) (t : Tick) (s s' : State),
       step (H:=naive) p t s = Some s' →
       halted s' = false →
       Py.gt (atr (row t)) 0 = true →
       (Py.gt (position_qty (position s)) 0
        && Py.le (low (bar (row t))) (long_stop_price p t s)
        || Py.lt (position_qty (position s)) 0
           && Py.ge (high (bar (row t))) (short_stop_price p t s)) = true →
       ∃ tr, last (trades s') = Some tr ∧ reason tr = "stop_loss_atr").
Proof.
  intros Hall.
  destruct (Hall stat_arb_params short_stop_tick short_state stopped_state)
    as (tr & Hlast & Hreason); [vm_compute; reflexivity..|].
  vm_compute in Hlast. injection Hlast as <-. discriminate Hreason.
Qed.

(** On a bar whose ATR is zero neither the stops nor the exit signal are
    looked at: the short stays open although the exit signal is set. *)
Lemma exit_signal_waits_for_a_positive_atr :
  exit_signal (bar_signals (H:=naive) stat_arb_params still_tick short_state)
  = true
  ∧ ∃ s', step (H:=naive) stat_arb_params still_tick short_state = Some s'
          ∧ position s' = position short_state
          ∧ trades s' = trades short_state.
Proof.
  split; [vm_compute; reflexivity|].
  eexists. split; [vm_compute; reflexivity|]. split; reflexivity.
Qed.

(** C5. The z-score stop closes at a price the bar never traded at. In
    stat-arb mode with the default parameters and 10000 of cash, a long of
    2.5 units is opened at 80 on the first bar. The second bar trades between
    80 and 106 and closes at 105; its ATR stop level, 80 - 2 * 1 = 78, is not
    reached (the low is 80), and its z-score, 3.75, is at the stop threshold
    of 3.5. The position is closed with [statarb_stop_loss] at 78, the ATR
    stop level, below the bar's low: the trade books a loss of 5.158 on a
    position that was in profit at every price of the bar. *)
Theorem C5_zscore_stop_fills_below_the_bar :
  ∃ s entry exit,
    simulate (H:=naive) stat_arb_params 10000
      [long_entry_tick; zscore_stop_tick] = Some s
    ∧ trades s = [entry; exit]
    ∧ reason entry = "entry_signal_statarb"
    ∧ price entry = 80%float ∧ qty entry = 2.5%float
    ∧ Py.le (low (bar (row zscore_stop_tick)))
        (long_stop_price stat_arb_params zscore_stop_tick
           (default (initial_state stat_arb_params 10000)
              (step (H:=naive) stat_arb_params long_entry_tick
                 (initial_state stat_arb_params 10000)))) = false
    ∧ zscore_of zscore_stop_tick = 3.75%float
    ∧ reason exit = "statarb_stop_loss"
    ∧ price exit = 78%float
    ∧ Py.lt (price exit) (low (bar (row zscore_stop_tick))) = true
    ∧ Py.lt (price entry) (low (bar (row zscore_stop_tick))) = false
    ∧ Py.le (price entry) (low (bar (row zscore_stop_tick))) = true
    ∧ tick_close zscore_stop_tick = 105%float
    ∧ pnl exit = Some (-5.158)%float.
Proof.
  eexists _, _, _. split; [vm_compute; reflexivity|].
  split; [reflexivity|]. repeat split; vm_compute; reflexivity.
Qed.

(** With [--initial-cash inf] and [max_drawdown] 0 the run is not halted on its first bar: the drawdown is [1 - inf / inf], a NaN,
    and [NaN >= max_drawdown] is false. The bar goes on to the signals and
    opens a short, which the end of the data closes: the run ends with two
    trades, not halted, and with no risk event. *)
Lemma C10_infinite_cash_is_not_halted :
  Py.le (max_drawdown zero_limit_params) 0 = true
  ∧ initial_cash_of infinity = infinity
  ∧ ∃ s, simulate (H:=naive) zero_limit_params (initial_cash_of infinity)
           [short_entry_tick] = Some s
         ∧ halted s = false
         ∧ map reason (trades s) = ["entry_signal_statarb"; "eod_close"]
         ∧ risk_events s = []
         ∧ drawdown_circuit_hits (risk_controls s) = 0%nat.
Proof.
  split; [reflexivity|]. split; [reflexivity|].
  eexists. split; [vm_compute; reflexivity|]. done.
Qed.

End RunExamples.

(** ** The Probability Overlay *)

Section OverlayFacts.
Import Pd Overlay.
Context `{Numerics}.
Variable env : MLEnv.

Lemma length_assign_at (labels : list nat) (values base out : list float) :
  assign_at labels values base = Some out → length out = length base.
Proof.
  unfold assign_at. destruct (_ =? _)%nat; [|done]. intros [= <-].
  generalize (zip labels values). intros ivs. revert base.
  induction ivs as [|iv ivs IH]; intros base; [done|].
  simpl. by rewrite IH, length_insert.
Qed.

(** No classifier can be constructed exactly when scikit-learn cannot be
    imported and, for ["xgboost"], xgboost cannot either. *)
Lemma select_model_none (model_type : string) :
  select_model env model_type = None
  ↔ sklearn_importable env = false
    ∧ (model_type = "xgboost" → xgboost_importable env = false).
Proof.
  unfold select_model.
  destruct (String.eqb_spec model_type "xgboost") as [->|Hne];
    destruct (xgboost_importable env), (sklearn_importable env);
    simpl; repeat case_match; split; try done;
    try (intros [? Hx]; try done; by specialize (Hx eq_refl)).
Qed.

(** Every result is either a neutral one with one of the listed codes, or
    a trained one. *)
Lemma build_result_shape (df : list Row) (sentiment : list float)
    (a : MLArgs) (r : MLResult) :
  _build_ml_probabilities env df sentiment a = Some r →
  length (probability r) = length df
  ∧ ((∃ fit, In fit neutral_codes ∧ r = neutral a (length df) fit)
     ∨ model_fit r = "trained").
Proof.
  unfold _build_ml_probabilities, neutral_codes.
  repeat case_match; intros [= <-]; simpl;
    try (split; [by rewrite length_replicate|left; eexists; split;
                 [|reflexivity]; simpl; tauto]).
  split; [|by right].
  match goal with
  | Ha : assign_at _ _ _ = Some _ |- _ =>
      apply length_assign_at in Ha; by rewrite Ha, length_replicate
  end.
Qed.

(** C7, as the code has it. The returned series always has one entry per
    row of the frame, and every result that is not ["trained"] keeps the
    uniform 0.5 series. The function returns such a neutral result, with the
    code shown, when the overlay is disabled, and then in this order: on
    fewer than 120 rows, fewer than 100 feature rows, fewer than 100 joined
    rows, a single-class label, a split [int(len(data) * train_ratio)] below
    40 or not below the row count, and when no classifier can be constructed.
    The codes are pairwise distinct. *)
Theorem C7_neutral_series_on_listed_failures
    (df : list Row) (sentiment : list float) (a : MLArgs) :
  let n := length df in
  let features := _build_ml_features df sentiment in
  let data := training_data df sentiment (Z.max 1 (ml_horizon a)) in
  let build := _build_ml_probabilities env df sentiment a in
  (∀ r, build = Some r →
        length (probability r) = n
        ∧ (model_fit r ≠ "trained" →
           probability r = replicate n 0.5%float
           ∧ prediction_available r = false
           ∧ In (model_fit r) neutral_codes))
  ∧ (ml_enabled a = false → build = Some (neutral a n "not_trained"))
  ∧ (ml_enabled a = true →
     ((n < 120)%nat → build = Some (neutral a n "insufficient_data"))
     ∧ ((120 ≤ n)%nat →
        ((length features < 100)%nat →
         build = Some (neutral a n "insufficient_features"))
        ∧ ((100 ≤ length features)%nat →
           ((length data < 100)%nat →
            build = Some (neutral a n "insufficient_training_rows"))
           ∧ ((100 ≤ length data)%nat →
              ((nunique (map snd data) < 2)%nat →
               build = Some (neutral a n "single_class_target"))
              ∧ ((2 ≤ nunique (map snd data))%nat →
                 ∀ split,
                   split_index (length data) (ml_train_ratio a) = Some split →
                   ((split < 40 ∨ Z.of_nat (length data) ≤ split) →
                    build = Some (neutral a n "invalid_train_split"))
                   ∧ (40 ≤ split < Z.of_nat (length data) →
                      select_model env (model_type a) = None →
                      build = Some (neutral a n "missing_ml_dependency")))))))
  ∧ NoDup ("trained" :: neutral_codes).
Proof.
  intros n features data build. subst n features data build.
  split; [|split; [|split]].
  - intros r Hr. destruct (build_result_shape _ _ _ _ Hr) as [Hlen Hshape].
    split; [done|]. intros Hfit.
    destruct Hshape as [(fit & Hin & ->)|Htrained]; [|done].
    by repeat split.
  - intros Hoff. unfold _build_ml_probabilities. by rewrite Hoff.
  - intros Hon. unfold _build_ml_probabilities. rewrite Hon. simpl.
    split.
    { intros Hn. apply Nat.ltb_lt in Hn. by rewrite Hn. }
    intros Hn. apply Nat.ltb_ge in Hn. rewrite Hn.
    split.
    { intros Hf. apply Nat.ltb_lt in Hf. by rewrite Hf. }
    intros Hf. apply Nat.ltb_ge in Hf. rewrite Hf.
    split.
    { intros Hd. apply Nat.ltb_lt in Hd. by rewrite Hd. }
    intros Hd. apply Nat.ltb_ge in Hd. rewrite Hd.
    split.
    { intros Hu. apply Nat.ltb_lt in Hu.
      change (λ ft : FeatureRow * float, ft.2) with (@snd FeatureRow float).
      by rewrite Hu. }
    intros Hu. apply Nat.ltb_ge in Hu.
    change (λ ft : FeatureRow * float, ft.2) with (@snd FeatureRow float).
    rewrite Hu. intros split Hsplit. rewrite Hsplit.
    split.
    { intros Hbad.
      assert ((split <? 40) || (Z.of_nat (length
                (training_data df sentiment (Z.max 1 (ml_horizon a)))) <=? split)
              = true) as ->; [|done].
      apply orb_true_iff. destruct Hbad; [left; lia|right; lia]. }
    intros [Hlo Hhi] Hnone.
    assert ((split <? 40) || (Z.of_nat (length
              (training_data df sentiment (Z.max 1 (ml_horizon a)))) <=? split)
            = false) as ->.
    { apply orb_false_iff. split; lia. }
    rewrite Hnone.
    destruct (_ =? 0)%nat eqn:Hempty; [|done].
    apply Nat.eqb_eq in Hempty. rewrite length_map, length_drop in Hempty. lia.
  - apply (bool_decide_unpack _). by vm_compute.
Qed.

End OverlayFacts.

Section OverlayExamples.
Import Pd Overlay.

Lemma C7_disabled_witness :
  _build_ml_probabilities (H:=naive) sklearn_only zigzag_frame no_sentiment
    {| ml_enabled := false; model_type := "xgboost"; ml_horizon := 1;
       ml_train_ratio := 0.7; ml_confidence := 0.55 |}
  = Some (neutral
            {| ml_enabled := false; model_type := "xgboost"; ml_horizon := 1;
               ml_train_ratio := 0.7; ml_confidence := 0.55 |}
            (length zigzag_frame) "not_trained").
Proof.
  apply (C7_neutral_series_on_listed_failures (H:=naive) sklearn_only
           zigzag_frame no_sentiment).
  reflexivity.
Defined.

(** With ["xgboost"] configured and xgboost missing, the script falls back
    to logistic regression when scikit-learn is there: on the 130-row
    zigzag frame the model is fitted on 74 rows and the last 32 entries of
    the series are the model's 0.9, not 0.5. *)
Lemma C7_xgboost_falls_back_to_logistic :
  ¬ (∀ (env : MLEnv) (df : list Row) (sentiment : list float) (a : MLArgs),
       ml_enabled a = true →
       model_type a = "xgboost" →
       xgboost_importable env = false →
       ∃ r, _build_ml_probabilities (H:=naive) env df sentiment a = Some r
            ∧ probability r = replicate (length df) 0.5%float
            ∧ In (model_fit r) neutral_codes).
Proof.
  intros Hall.
  destruct (Hall sklearn_only zigzag_frame no_sentiment xgboost_args)
    as (r & Hr & Hp & Hcode); [reflexivity..|].
  vm_compute in Hr. injection Hr as <-.
  (* the status is "trained", and the series ends with the model's answers *)
  clear Hp. simpl in Hcode.
  repeat (destruct Hcode as [Hcode|Hcode]; [discriminate Hcode|]).
  exact Hcode.
Qed.

(** A train ratio of NaN passes every earlier check and then makes
    [int(...)] raise. *)
Lemma nan_train_ratio_raises :
  _build_ml_probabilities (H:=naive) sklearn_only zigzag_frame no_sentiment
    nan_ratio_args = None.
Proof. by vm_compute. Qed.

End OverlayExamples.

(** ** The Sharpe-like ratio *)

Section SharpeFacts.
Import Pd Metrics.
Context `{Numerics}.



(** *** The per-bar returns *)





End SharpeFacts.


(** ** Order validation: what a response guarantees *)

Section ExecuteSafety.
Import Execute ExecuteLogic.

Lemma wp_bind {A B} (m : M A) (k : A → M B) Q R E l :
  wp m (λ a l', wp (k a) Q R E l') R E l → wp (bind m k) Q R E l.
Proof. unfold wp, bind. by destruct (m l) as [l' [a|r|]]. Qed.

Lemma wp_add (n s : string) (Q : unit → RiskLog → Prop) R E l :
  Q tt (log_add n s l) → wp (_add_risk_block n s) Q R E l.
Proof. done. Qed.

Lemma wp_ret {A} (a : A) (Q : A → RiskLog → Prop) R E l :
  Q a l → wp (ret a) Q R E l.
Proof. done. Qed.

Lemma wp_return {A} (r : Reply) (Q : A → RiskLog → Prop) R E l :
  R r l → wp (return_ r) Q R E l.
Proof. done. Qed.

Lemma wp_raise {A} (Q : A → RiskLog → Prop) R E l :
  E l → wp raise Q R E l.
Proof. done. Qed.

Lemma wp_try {A} (body handler : M A) Q R E l :
  wp body Q R (λ l', wp handler Q R E l') l →
  wp (try_except body handler) Q R E l.
Proof. unfold wp, try_except. by destruct (body l) as [l' [a|r|]]. Qed.

Lemma wp_market_price (ex : Exchange) (call : nat) Q R E l :
  match fetch_ticker ex call with
  | None => E l
  | Some None => Q None l
  | Some (Some t) => Q (por (last t) (por (close t) (por (mark t) (bid t)))) l
  end →
  wp (_market_price_from_exchange ex call) Q R E l.
Proof.
  unfold wp, _market_price_from_exchange.
  by destruct (fetch_ticker ex call) as [[t|]|].
Qed.

Lemma names_add (n s : string) (l : RiskLog) :
  names (log_add n s l) = names l ++ [n].
Proof. unfold names, log_add. simpl. by rewrite map_app. Qed.

Lemma statuses_add (n s : string) (l : RiskLog) :
  statuses (log_add n s l) = statuses l ++ [s].
Proof. unfold statuses, log_add. simpl. by rewrite map_app. Qed.

(** A property of every reply and its log is a property of every
    response. *)
Lemma run_execute_wp (args : Args) (ex : Exchange)
    (R : Reply → RiskLog → Prop) :
  wp (run_execute_body args ex) R R (λ _, True) initial_log →
  ∀ resp, run_execute args ex = Some resp →
    R {| success := resp_success resp; reply_status := resp_status resp |}
      (execution_report resp)
    ∧ resp_risk_blocks resp = risk_blocks (execution_report resp).
Proof.
  unfold wp, run_execute. intros Hwp resp Hrun.
  destruct (run_execute_body args ex initial_log) as [l [[ok st]|[ok st]|]];
    simplify_eq/=; done.
Qed.

Ltac wp_step :=
  cbv beta zeta;
  lazymatch goal with
  | |- wp (bind _ _) _ _ _ _ => apply wp_bind
  | |- wp (try_except _ _) _ _ _ _ => apply wp_try
  | |- wp (_add_risk_block _ _) _ _ _ _ => apply wp_add
  | |- wp (ret _) _ _ _ _ => apply wp_ret
  | |- wp (return_ _) _ _ _ _ => apply wp_return
  | |- wp raise _ _ _ _ => apply wp_raise
  | |- wp (_market_price_from_exchange _ _) _ _ _ _ => apply wp_market_price
  | |- wp (if ?c then _ else _) _ _ _ _ => destruct c eqn:?
  | |- wp (match ?c with _ => _ end) _ _ _ _ => destruct c eqn:?
  | |- match ?c with _ => _ end => destruct c eqn:?
  end.

Ltac wp_run := unfold run_execute_body; repeat wp_step.

Lemma ends_with_stop (sts : list string) :
  stops (List.last sts "") = true →
  ∃ before st, sts = before ++ [st] ∧ stops st = true.
Proof.
  intros Hs. destruct (decide (sts = [])) as [->|Hne]; [done|].
  exists (removelast sts), (List.last sts ""). split; [|done].
  by apply app_removelast_last.
Qed.

(** X1. A response reports success exactly when none of its risk blocks is
    [blocked] or [fail], and then its status is [dry_run] or [submitted];
    a response that reports failure ends with the block that stopped it. *)
Theorem success_iff_no_block_stops (args : Args) (ex : Exchange)
    (resp : Response) :
  run_execute args ex = Some resp →
  let sts := map status (resp_risk_blocks resp) in
  (resp_success resp = true ↔ existsb stops sts = false)
  ∧ (resp_success resp = true ↔
     resp_status resp = "dry_run" ∨ resp_status resp = "submitted")
  ∧ (resp_success resp = false →
     ∃ before st, sts = before ++ [st] ∧ stops st = true).
Proof.
  intros Hrun.
  destruct (run_execute_wp args ex
    (λ r l,
      (success r = true ↔ existsb stops (statuses l) = false)
      ∧ (success r = true ↔
         reply_status r = "dry_run" ∨ reply_status r = "submitted")
      ∧ (success r = false →
         ∃ before st, statuses l = before ++ [st] ∧ stops st = true))) with
    (resp := resp) as [HR Hb]; [|done|].
  - wp_run; cbv beta; try exact I; rewrite ?statuses_add; simpl;
      (split; [|split]);
      lazymatch goal with
      | |- _ ↔ _ =>
          split; first [done | by left | by right | by intros [?|?]]
      | |- _ → _ => first [done | intros _; by apply ends_with_stop]
      end.
  - simpl in HR. unfold statuses in HR. by rewrite Hb.
Qed.

Lemma success_iff_no_block_stops_witness :
  ∃ resp, run_execute live_args funded_exchange = Some resp
    ∧ resp_success resp = true
    ∧ existsb stops (map status (resp_risk_blocks resp)) = false.
Proof.
  eexists. split; [vm_compute; reflexivity|]. split; [reflexivity|].
  eapply (success_iff_no_block_stops live_args funded_exchange);
    vm_compute; reflexivity.
Defined.

(** X2. Without [--confirm] the exchange is never consulted: the response
    is the same whatever the exchange would answer, it always comes back,
    its status is one of [invalid_input], [symbol_blocked],
    [risk_limit_blocked] and [dry_run] (never [submitted]), and its blocks
    are the first checks of the dry-run sequence, each recorded once. *)
Theorem dry_run_never_consults_the_exchange (args : Args) (ex ex' : Exchange) :
  confirm args = false →
  run_execute args ex = run_execute args ex'
  ∧ ∃ resp, run_execute args ex = Some resp
      ∧ resp_status resp ∈ dry_run_statuses
      ∧ map name (resp_risk_blocks resp) `prefix_of` dry_run_checks.
Proof.
  intros Hc. split.
  - unfold run_execute, run_execute_body. rewrite Hc. reflexivity.
  - assert (wp (run_execute_body args ex)
              (λ _ _, False)
              (λ r l, reply_status r ∈ dry_run_statuses
                      ∧ names l `prefix_of` dry_run_checks)
              (λ _, False) initial_log) as Hwp.
    { unfold run_execute_body. rewrite Hc. simpl negb. cbv iota.
      repeat wp_step; cbv beta; rewrite ?names_add; simpl;
        (split; [set_solver|by eexists]). }
    unfold wp, run_execute in *.
    destruct (run_execute_body args ex initial_log) as [l [r|r|]]; try done.
    eexists. split; [reflexivity|]. simpl. done.
Qed.

Lemma dry_run_never_consults_the_exchange_witness :
  run_execute dry_run_args offline_exchange
  = run_execute dry_run_args funded_exchange.
Proof.
  apply (dry_run_never_consults_the_exchange dry_run_args). reflexivity.
Defined.

Lemma blocks_add (n s : string) (l : RiskLog) :
  risk_blocks (log_add n s l) = risk_blocks l ++ [{| name := n; status := s |}].
Proof. done. Qed.

Ltac split_conditions :=
  repeat match goal with
    | H : negb _ = true |- _ => apply negb_true_iff in H
    | H : negb _ = false |- _ => apply negb_false_iff in H
    | H : _ || _ = false |- _ => apply orb_false_iff in H as [? ?]
    | H : _ && _ = true |- _ => apply andb_true_iff in H as [? ?]
    end.

(** X3. An order goes to [create_order] (status [submitted] or
    [execution_failed]) only with [--confirm], a key and a secret, an
    exchange that initialised, an amount that is not [<= 0] and, for a limit
    order, a price that is not [<= 0]; every block before [order_submission]
    is a [pass] or a [skip]; and the response reports success exactly when
    the exchange accepted the order. *)
Theorem order_sent_only_past_every_guard (args : Args) (ex : Exchange)
    (resp : Response) :
  run_execute args ex = Some resp →
  order_sent (resp_status resp) = true →
  confirm args = true
  ∧ falsy_str (api_key args) = false
  ∧ falsy_str (api_secret args) = false
  ∧ create_exchange_ok ex = true
  ∧ amount_rejected (amount args) = false
  ∧ limit_price_rejected args = false
  ∧ resp_success resp = create_order_ok ex
  ∧ ∃ before final,
      resp_risk_blocks resp = before ++ [final]
      ∧ name final = "order_submission"
      ∧ existsb stops (map status before) = false.
Proof.
  intros Hrun.
  destruct (run_execute_wp args ex
    (λ r l,
      order_sent (reply_status r) = true →
      confirm args = true
      ∧ falsy_str (api_key args) = false
      ∧ falsy_str (api_secret args) = false
      ∧ create_exchange_ok ex = true
      ∧ amount_rejected (amount args) = false
      ∧ limit_price_rejected args = false
      ∧ success r = create_order_ok ex
      ∧ ∃ before final,
          risk_blocks l = before ++ [final]
          ∧ name final = "order_submission"
          ∧ existsb stops (map status before) = false)) with
    (resp := resp) as [HR Hb]; [|done|].
  - unfold amount_rejected, limit_price_rejected.
    wp_run; cbv beta; try exact I; intros Hsent; try discriminate Hsent;
      split_conditions; rewrite !blocks_add;
      repeat (split; [done|]); by eexists _, _.
  - rewrite Hb. exact HR.
Qed.

Lemma order_sent_only_past_every_guard_witness :
  confirm live_args = true ∧ create_exchange_ok funded_exchange = true.
Proof.
  destruct (order_sent_only_past_every_guard live_args funded_exchange
              (default
                 {| resp_success := false; resp_status := "";
                    resp_risk_blocks := []; resp_risk_summary := ∅;
                    execution_report := initial_log |}
                 (run_execute live_args funded_exchange)))
    as (Hc & _ & _ & Hx & _); [vm_compute; reflexivity..|].
  by split.
Defined.

Ltac rewrite_conditions :=
  repeat match goal with
    | H : _ = true |- _ => rewrite H
    | H : _ = false |- _ => rewrite H
    | H : _ = Some _ |- _ => rewrite H
    end.

(** X4. With a notional cap configured ([--max-order-notional] > 0), an
    order goes to [create_order] only when its notional estimate exists, is
    not [<= 0] and is not above the cap; the estimate of a market order is
    the amount times the price read from the ticker, which must itself be
    present and not [<= 0]. *)
Theorem sent_order_respects_the_notional_cap (args : Args) (ex : Exchange)
    (resp : Response) :
  run_execute args ex = Some resp →
  order_sent (resp_status resp) = true →
  Py.gt (max_order_notional args) 0 = true →
  ∃ estimate, live_notional args ex = Some estimate
    ∧ Py.le estimate 0 = false
    ∧ Py.gt estimate (max_order_notional args) = false.
Proof.
  intros Hrun.
  destruct (run_execute_wp args ex
    (λ r l,
      order_sent (reply_status r) = true →
      Py.gt (max_order_notional args) 0 = true →
      ∃ estimate, live_notional args ex = Some estimate
        ∧ Py.le estimate 0 = false
        ∧ Py.gt estimate (max_order_notional args) = false)) with
    (resp := resp) as [HR Hb]; [|done|].
  - unfold live_notional, ticker_price.
    wp_run; cbv beta; try exact I; intros Hsent Hcap; try discriminate Hsent;
      try congruence; rewrite_conditions; by eexists.
  - exact HR.
Qed.

Lemma sent_order_respects_the_notional_cap_witness :
  ∃ estimate, live_notional live_args funded_exchange = Some estimate
    ∧ Py.le estimate 0 = false
    ∧ Py.gt estimate (max_order_notional live_args) = false.
Proof.
  apply (sent_order_respects_the_notional_cap live_args funded_exchange
           (default
              {| resp_success := false; resp_status := "";
                 resp_risk_blocks := []; resp_risk_summary := ∅;
                 execution_report := initial_log |}
              (run_execute live_args funded_exchange)));
    vm_compute; reflexivity.
Defined.

Lemma lt_zero_truthy (x : float) : Py.lt 0 x = true → Py.truthy x = true.
Proof.
  unfold Py.lt, Py.truthy, Py.ne.
  rewrite FloatAxioms.ltb_spec, FloatAxioms.eqb_spec, Prim2SF_zero.
  unfold SFltb, SFeqb.
  destruct (Prim2SF x) as [s|s| |s m e]; simpl; try done; by destruct s.
Qed.

(** X5. With the balance guard on ([--skip-balance-check] off and an
    account fraction in (0, 1]), an order goes to [create_order] only after
    the balances were read. A sale is sent only when the amount is not
    above the free base balance, if the exchange lists one; a purchase only
    when its notional (amount times [--price], or times the ticker price of
    a market order when that is present and positive) is not above the
    fraction of the free quote balance, if the exchange lists one. *)
Theorem sent_order_respects_the_balance_guard (args : Args) (ex : Exchange)
    (resp : Response) :
  run_execute args ex = Some resp →
  order_sent (resp_status resp) = true →
  balance_guard_on args = true →
  let amt := _to_float (amount args) 0 in
  ∃ free, fetch_balance_free ex = Some free
    ∧ (String.eqb (side args) "buy" = false →
       ∀ v, free !! base_currency args = Some v →
         is_number v = true ∧ Py.gt amt (_to_float_bal v 0) = false)
    ∧ (String.eqb (side args) "buy" = true →
       ∀ v, free !! quote_currency args = Some v →
         let cap_quote := (_to_float_bal v 0 * max_account_fraction args)%float in
         (String.eqb (order_type args) "market" = false →
          Py.gt (amt * _to_float (price args) 0) cap_quote = false)
         ∧ (String.eqb (order_type args) "market" = true →
            ∀ mp, ticker_price ex 1 = Some mp → Py.gt mp 0 = true →
              Py.gt (amt * mp) cap_quote = false)).
Proof.
  intros Hrun.
  destruct (run_execute_wp args ex
    (λ r l,
      order_sent (reply_status r) = true →
      balance_guard_on args = true →
      let amt := _to_float (amount args) 0 in
      ∃ free, fetch_balance_free ex = Some free
        ∧ (String.eqb (side args) "buy" = false →
           ∀ v, free !! base_currency args = Some v →
             is_number v = true ∧ Py.gt amt (_to_float_bal v 0) = false)
        ∧ (String.eqb (side args) "buy" = true →
           ∀ v, free !! quote_currency args = Some v →
             let cap_quote :=
               (_to_float_bal v 0 * max_account_fraction args)%float in
             (String.eqb (order_type args) "market" = false →
              Py.gt (amt * _to_float (price args) 0) cap_quote = false)
             ∧ (String.eqb (order_type args) "market" = true →
                ∀ mp, ticker_price ex 1 = Some mp → Py.gt mp 0 = true →
                  Py.gt (amt * mp) cap_quote = false)))) with
    (resp := resp) as [HR Hb]; [|done|].
  - unfold balance_guard_on, base_currency, quote_currency, ticker_price.
    wp_run; cbv beta; try exact I; intros Hsent Hguard;
      try discriminate Hsent; clear Hsent;
      apply andb_true_iff in Hguard as [Hguard Hle];
      apply andb_true_iff in Hguard as [Hskip Hlt];
      pose proof (lt_zero_truthy _ Hlt) as Htruthy;
      try (rewrite Hskip, Htruthy, Hlt, Hle in *; discriminate);
      eexists; (split; [reflexivity|]);
      (split; [intros Hside|intros Hside]; try congruence);
      intros v Hv; simplify_eq; cbv zeta.
    all: try lazymatch goal with
           | |- is_number ?b = true ∧ _ => split; [by destruct b|done]
           end.
    all: (split; [intros Hm|intros Hm mp Hmp Hpos]); simplify_eq;
      first [done|congruence].
  - exact HR.
Qed.

Lemma sent_order_respects_the_balance_guard_witness :
  ∃ free, fetch_balance_free funded_exchange = Some free
    ∧ ∀ v, free !! base_currency live_sell_args = Some v →
        is_number v = true
        ∧ Py.gt (_to_float (amount live_sell_args) 0) (_to_float_bal v 0) = false.
Proof.
  destruct (sent_order_respects_the_balance_guard live_sell_args funded_exchange
              (default
                 {| resp_success := false; resp_status := "";
                    resp_risk_blocks := []; resp_risk_summary := ∅;
                    execution_report := initial_log |}
                 (run_execute live_sell_args funded_exchange)))
    as (free & Hfree & Hsell & _); [vm_compute; reflexivity..|].
  exists free. split; [exact Hfree|]. by apply Hsell.
Defined.

(** *** The symbol check *)

Lemma length_split_slash (s : string) :
  length (split_slash s) = S (slashes s).
Proof.
  induction s as [|c r IH]; [done|]. simpl.
  destruct (Ascii.eqb c "/"); simpl; [by rewrite IH|].
  destruct (split_slash r); simpl in *; lia.
Qed.

Lemma slashes_app (a b : string) :
  slashes (a ++ b) = (slashes a + slashes b)%nat.
Proof. induction a as [|c a IH]; [done|]. simpl. rewrite IH. lia. Qed.

Lemma slashes_upper_char (c : ascii) :
  slashes (upper_char c) = (if Ascii.eqb c "/" then 1 else 0)%nat.
Proof. by destruct c as [[] [] [] [] [] [] [] []]. Qed.

Lemma slashes_upper (s : string) : slashes (upper s) = slashes s.
Proof.
  induction s as [|c r IH]; [done|]. simpl.
  by rewrite slashes_app, slashes_upper_char, IH.
Qed.

Lemma symbol_check (s : string) :
  (length (split_slash (upper s)) =? 2)%nat = (slashes s =? 1)%nat.
Proof. by rewrite length_split_slash, slashes_upper. Qed.

(** X6. The two validation statuses are decided by the arguments alone and
    in this order: [invalid_input] exactly when the amount is missing or
    [<= 0], or a limit order has no price above zero; [symbol_blocked]
    exactly when those pass and the symbol does not hold exactly one ["/"].
    Such a request fails with at most the three validation blocks, so
    nothing else is checked. *)
Theorem validation_statuses (args : Args) (ex : Exchange) (resp : Response) :
  run_execute args ex = Some resp →
  let invalid := amount_rejected (amount args) || limit_price_rejected args in
  (resp_status resp = "invalid_input" ↔ invalid = true)
  ∧ (resp_status resp = "symbol_blocked" ↔
     invalid = false ∧ slashes (symbol args) ≠ 1%nat)
  ∧ (invalid = true ∨ slashes (symbol args) ≠ 1%nat →
     resp_success resp = false ∧ (length (resp_risk_blocks resp) <= 3)%nat).
Proof.
  intros Hrun invalid. subst invalid.
  destruct (run_execute_wp args ex
    (λ r l,
      (reply_status r = "invalid_input" ↔
       amount_rejected (amount args) || limit_price_rejected args = true)
      ∧ (reply_status r = "symbol_blocked" ↔
         amount_rejected (amount args) || limit_price_rejected args = false
         ∧ slashes (symbol args) ≠ 1%nat)
      ∧ (amount_rejected (amount args) || limit_price_rejected args = true
         ∨ slashes (symbol args) ≠ 1%nat →
         success r = false ∧ (length (risk_blocks l) <= 3)%nat))) with
    (resp := resp) as [HR Hb]; [|done|].
  - unfold amount_rejected, limit_price_rejected, run_execute_body.
    rewrite symbol_check.
    repeat wp_step; cbv beta; try exact I; rewrite ?blocks_add;
      split_conditions; rewrite_conditions;
      repeat match goal with
        | H : (_ =? _)%nat = true |- _ => apply Nat.eqb_eq in H
        | H : (_ =? _)%nat = false |- _ => apply Nat.eqb_neq in H
        end;
      simpl; intuition (congruence || lia).
  - rewrite Hb. exact HR.
Qed.

Lemma validation_statuses_witness :
  ∃ resp, run_execute bare_symbol_args funded_exchange = Some resp
    ∧ resp_status resp = "symbol_blocked".
Proof.
  eexists. split; [vm_compute; reflexivity|].
  eapply (validation_statuses bare_symbol_args funded_exchange);
    [vm_compute; reflexivity|]. split; [reflexivity|]. vm_compute. lia.
Defined.

(** *** The order of the checks *)

Lemma numeric_lookup (ex : Exchange) (free : gmap string BalVal)
    (k : string) (v : BalVal) :
  numeric_balances ex = true →
  fetch_balance_free ex = Some free → free !! k = Some v →
  float_bal v = None → False.
Proof.
  unfold numeric_balances. intros Hn Hf Hk Hv. rewrite Hf in Hn.
  rewrite forallb_forall in Hn.
  specialize (Hn (k, v)). simpl in Hn.
  destruct v; [done|]. discriminate Hn.
  apply list_elem_of_In. by apply elem_of_map_to_list.
Qed.

(** X7. When every balance the exchange reports is a number, the blocks of
    a response are the first checks of a fixed sequence, in that order and
    each recorded once: the dry-run sequence without [--confirm], the live
    sequence with it. *)
Theorem checks_recorded_once_in_order (args : Args) (ex : Exchange)
    (resp : Response) :
  numeric_balances ex = true →
  run_execute args ex = Some resp →
  let checks := if confirm args then live_checks else dry_run_checks in
  map name (resp_risk_blocks resp) `prefix_of` checks
  ∧ NoDup (map name (resp_risk_blocks resp)).
Proof.
  intros Hnum Hrun checks. subst checks.
  assert (NoDup live_checks ∧ NoDup dry_run_checks) as [Hlive Hdry].
  { split; apply (bool_decide_unpack _); by vm_compute. }
  destruct (run_execute_wp args ex
    (λ r l, names l `prefix_of`
              (if confirm args then live_checks else dry_run_checks))) with
    (resp := resp) as [HR Hb]; [|done|].
  - wp_run; cbv beta; try exact I; rewrite ?names_add;
      try (exfalso; by eapply numeric_lookup);
      split_conditions; destruct (confirm args); try discriminate;
      by eexists.
  - rewrite Hb. fold (names (execution_report resp)). split; [exact HR|].
    destruct HR as [rest Heq].
    destruct (confirm args); rewrite Heq in *;
      [by apply NoDup_app in Hlive as [? _]|by apply NoDup_app in Hdry as [? _]].
Qed.

Lemma checks_recorded_once_in_order_witness :
  ∃ resp, run_execute live_args funded_exchange = Some resp
    ∧ map name (resp_risk_blocks resp) `prefix_of` live_checks.
Proof.
  eexists. split; [vm_compute; reflexivity|].
  eapply (checks_recorded_once_in_order live_args funded_exchange);
    vm_compute; reflexivity.
Defined.

End ExecuteSafety.

(** ** The run as a whole: ledger, equity curve, counters *)

Section MoreFloatFacts.

Lemma eq_zero_not_gt (q : float) : Py.eq q 0 = true → Py.gt q 0 = false.
Proof.
  rewrite eq_zero_spec. intros [s Hq]. unfold Py.gt.
  by rewrite FloatAxioms.ltb_spec, Hq, Prim2SF_zero.
Qed.

Lemma eq_zero_not_lt (q : float) : Py.eq q 0 = true → Py.lt q 0 = false.
Proof.
  rewrite eq_zero_spec. intros [s Hq]. unfold Py.lt.
  by rewrite FloatAxioms.ltb_spec, Hq, Prim2SF_zero.
Qed.

(** Adding a float that is not zero to a zero does not give a zero. *)
Lemma add_zero_nonzero (q x : float) :
  Py.eq q 0 = true → Py.truthy x = true → Py.eq (q + x) 0 = false.
Proof.
  rewrite eq_zero_spec. intros [s Hq]. unfold Py.truthy, Py.ne, Py.eq.
  rewrite !FloatAxioms.eqb_spec, FloatAxioms.add_spec, Hq, Prim2SF_zero.
  unfold SFeqb. destruct (Prim2SF x) as [sx|sx| |sx m e]; simpl; try done;
    destruct s, sx; done.
Qed.

End MoreFloatFacts.

Section LedgerFacts.
Import Pd Backtest Report.
Context `{Numerics}.
Variable p : Params.

(** *** What each statement of the loop leaves alone *)

Lemma close_trade_frame (ts : Z) (px : float) (why : string) (s : State) :
  let s' := _close_trade p ts px why s in
  halted s' = halted s ∧ halt_reason s' = halt_reason s
  ∧ equity_curve s' = equity_curve s ∧ risk_events s' = risk_events s
  ∧ risk_controls s' = risk_controls s ∧ peak_equity s' = peak_equity s.
Proof. unfold _close_trade. by destruct (Py.eq _ _). Qed.

Lemma paired_even (l : list Trade) :
  paired l → length l = (2 * length (List.filter (λ tr, bool_decide (pnl tr ≠ None)) l))%nat.
Proof.
  induction 1 as [|l o c _ IH (Ho & _) (Hc & _)]; [done|].
  rewrite List.filter_app, !length_app. simpl.
  rewrite Ho. rewrite (bool_decide_eq_false_2 (None ≠ None)) by naive_solver.
  rewrite (bool_decide_eq_true_2 _ Hc). simpl. lia.
Qed.

(** Closing keeps the ledger in order, and leaves it paired. *)
Lemma close_trade_ledger_ok (ts : Z) (px : float) (why : string) (s : State) :
  is_entry_reason why = false → ledger_ok s →
  ledger_ok (_close_trade p ts px why s)
  ∧ paired (trades (_close_trade p ts px why s)).
Proof.
  intros Hwhy Hok. unfold ledger_ok in *. unfold _close_trade.
  destruct (Py.eq (position_qty (position s)) 0) eqn:Hq.
  - rewrite Hq. done.
  - destruct Hok as (l & o & Ht & Hl & Ho & Hts).
    cbn [position set_cash_position flat_position position_qty trades].
    change (Py.eq 0 0) with true. cbv iota.
    match goal with |- paired ?x ∧ paired ?x => assert (paired x); [|done] end.
    rewrite Ht, <-app_assoc. simpl. constructor; [done..|].
    repeat split; simpl; done.
Qed.

(** Opening from a zero position keeps the ledger in order. *)
Lemma open_trade_ledger_ok (ts : Z) (px q fee : float) (why : string)
    (s : State) :
  is_entry_reason why = true →
  Py.eq (position_qty (position s)) 0 = true → Py.truthy q = true →
  ledger_ok s → ledger_ok (_open_trade ts px q fee why s).
Proof.
  intros Hwhy Hq Hx Hok. unfold ledger_ok in *. rewrite Hq in Hok.
  unfold _open_trade.
  cbn [position set_cash_position position_qty trades position_entry_ts].
  rewrite (add_zero_nonzero _ _ Hq Hx).
  eexists _, _. split; [reflexivity|]. split; [done|].
  split; [|done]. repeat split; simpl; done.
Qed.

(** The ledger only depends on the position and the trades. *)
Lemma ledger_ok_frame (s s' : State) :
  position s' = position s → trades s' = trades s →
  ledger_ok s → ledger_ok s'.
Proof. unfold ledger_ok. by intros -> ->. Qed.

Lemma drawdown_check_ledger_ok (t : Tick) (s : State) :
  ledger_ok s → ledger_ok (drawdown_check p t s).
Proof.
  intros Hok. unfold drawdown_check.
  destruct (mark_peak_frame t s) as (_ & Hp & _ & Ht & _).
  assert (ledger_ok (mark_peak t s)) as Hok1 by (by eapply ledger_ok_frame).
  destruct (negb _ && _); [|by eapply ledger_ok_frame].
  set (s1 := mark_peak t s) in *.
  set (sa := if Py.gt (position_qty (position s1)) 0
             then _close_trade p (tick_ts t) (tick_close t) "drawdown-halt" s1
             else s1).
  assert (ledger_ok sa) as Hoka.
  { subst sa. destruct (Py.gt _ _); [|done].
    by apply close_trade_ledger_ok. }
  set (sb := if Py.lt (position_qty (position sa)) 0
             then _close_trade p (tick_ts t) (tick_close t) "drawdown-halt" sa
             else sa).
  assert (ledger_ok sb) as Hokb.
  { subst sb. destruct (Py.lt _ _); [|done].
    by apply close_trade_ledger_ok. }
  by eapply ledger_ok_frame.
Qed.

Lemma correlation_guard_ledger_ok (t : Tick) (s : State) :
  ledger_ok s → ledger_ok (correlation_guard p t s).1.
Proof.
  intros Hok. destruct (correlation_guard_frame p t s) as (_ & Hp & _ & Ht & _).
  by eapply ledger_ok_frame.
Qed.

Lemma exit_checks_ledger_ok (t : Tick) (sg : Signals) (s s' : State) :
  ledger_ok s → exit_checks p t sg s = Some s' → ledger_ok s'.
Proof.
  intros Hok. unfold exit_checks.
  repeat case_match; intros ?; simplify_eq; by apply close_trade_ledger_ok.
Qed.

Lemma entry_check_ledger_ok (t : Tick) (blocked : bool) (sg : Signals)
    (s s' : State) :
  ledger_ok s → entry_check p t blocked sg s = Some s' → ledger_ok s'.
Proof.
  intros Hok. unfold entry_check.
  destruct (Py.eq (position_qty (position s)) 0) eqn:Hq; simpl;
    [|by intros [= <-]].
  repeat case_match; intros ?; simplify_eq; try done;
    try (by eapply ledger_ok_frame);
    apply open_trade_ledger_ok; try done.
Qed.

Lemma step_ledger_ok (t : Tick) (s s' : State) :
  ledger_ok s → step p t s = Some s' → ledger_ok s'.
Proof.
  intros Hok. unfold step.
  pose proof (drawdown_check_ledger_ok t s Hok) as Hok1.
  destruct (halted (drawdown_check p t s)); [by intros [= <-]|].
  pose proof (correlation_guard_ledger_ok t _ Hok1) as Hok2.
  destruct (correlation_guard p t (drawdown_check p t s)) as [s2 blocked].
  simpl in Hok2.
  destruct (exit_checks p t _ s2) as [s3|] eqn:Hexit.
  - intros [= <-]. by eapply exit_checks_ledger_ok.
  - by apply entry_check_ledger_ok.
Qed.

Lemma run_loop_ledger_ok (ticks : list Tick) (s s' : State) :
  ledger_ok s → run_loop p ticks s = Some s' → ledger_ok s'.
Proof.
  revert s. induction ticks as [|t rest IH]; intros s Hok; simpl.
  - by intros [= <-].
  - destruct (step p t s) as [s1|] eqn:Hstep; [|done].
    apply IH. by eapply step_ledger_ok.
Qed.

Lemma initial_ledger_ok (initial_cash : float) :
  ledger_ok (initial_state p initial_cash).
Proof. unfold ledger_ok. simpl. change (Py.eq 0 0) with true. constructor. Qed.

(** X8. The trade ledger of every completed run is a sequence of
    entry/exit pairs: each entry written by [_open_trade] (reason
    [entry_signal] or [entry_signal_statarb], an [amount], no [pnl]) is
    followed at once by the exit [_close_trade] writes for it (a [pnl], no
    [amount], any other reason), which carries the entry's timestamp as its
    [position_open_timestamp]. So [metrics["trades"]] is always twice
    [metrics["trade_count"]]. *)
Theorem ledger_is_paired (initial_cash : float) (ticks : list Tick) (s : State) :
  simulate p initial_cash ticks = Some s →
  paired (trades s) ∧ length (trades s) = (2 * trade_count s)%nat.
Proof.
  unfold simulate. intros Hsim.
  destruct (run_loop p ticks (initial_state p initial_cash)) as [s0|] eqn:Hrun;
    [|done].
  injection Hsim as <-.
  pose proof (run_loop_ledger_ok _ _ _ (initial_ledger_ok initial_cash) Hrun)
    as Hok.
  assert (paired (trades (close_at_end p ticks s0))) as Hpaired.
  { unfold close_at_end.
    destruct (Py.ne (position_qty (position s0)) 0) eqn:Hq.
    - destruct (last ticks) as [t|] eqn:Hlast.
      + by apply close_trade_ledger_ok.
      + apply last_None in Hlast. subst ticks. simpl in Hrun.
        injection Hrun as <-. simpl in Hq. done.
    - unfold Py.ne in Hq. apply negb_false_iff in Hq.
      unfold ledger_ok in Hok. unfold Py.eq in Hok. by rewrite Hq in Hok. }
  split; [done|]. by apply paired_even.
Qed.

(** *** The equity curve *)

Lemma open_trade_frame (ts : Z) (px q fee : float) (why : string) (s : State) :
  let s' := _open_trade ts px q fee why s in
  halted s' = halted s ∧ halt_reason s' = halt_reason s
  ∧ equity_curve s' = equity_curve s ∧ risk_events s' = risk_events s
  ∧ risk_controls s' = risk_controls s ∧ peak_equity s' = peak_equity s.
Proof. done. Qed.


Lemma exit_checks_frame (t : Tick) (sg : Signals) (s s' : State) :
  exit_checks p t sg s = Some s' →
  halted s' = halted s ∧ halt_reason s' = halt_reason s
  ∧ equity_curve s' = equity_curve s ∧ risk_events s' = risk_events s
  ∧ risk_controls s' = risk_controls s ∧ peak_equity s' = peak_equity s.
Proof.
  unfold exit_checks.
  repeat case_match; intros ?; simplify_eq; apply close_trade_frame.
Qed.

Lemma entry_check_frame (t : Tick) (blocked : bool) (sg : Signals)
    (s s' : State) :
  entry_check p t blocked sg s = Some s' →
  halted s' = halted s ∧ halt_reason s' = halt_reason s
  ∧ equity_curve s' = equity_curve s
  ∧ List.filter is_drawdown_event (risk_events s')
    = List.filter is_drawdown_event (risk_events s)
  ∧ List.filter is_correlation_event (risk_events s')
    = List.filter is_correlation_event (risk_events s)
  ∧ risk_controls s' = risk_controls s ∧ peak_equity s' = peak_equity s.
Proof.
  unfold entry_check.
  repeat case_match; intros ?; simplify_eq; try done;
    simpl; rewrite !List.filter_app; simpl; by rewrite !app_nil_r.
Qed.




(** *** The counters of the risk controls *)

Lemma counters_match_frame (s s' : State) :
  halted s' = halted s → halt_reason s' = halt_reason s →
  List.filter is_drawdown_event (risk_events s')
  = List.filter is_drawdown_event (risk_events s) →
  List.filter is_correlation_event (risk_events s')
  = List.filter is_correlation_event (risk_events s) →
  risk_controls s' = risk_controls s →
  counters_match s → counters_match s'.
Proof. unfold counters_match. by intros -> -> -> -> ->. Qed.

Lemma close_trade_counters (ts : Z) (px : float) (why : string) (s : State) :
  counters_match s → counters_match (_close_trade p ts px why s).
Proof.
  destruct (close_trade_frame ts px why s) as (? & ? & _ & He & ? & _).
  apply counters_match_frame; try done; by rewrite He.
Qed.

Lemma drawdown_check_counters (t : Tick) (s : State) :
  counters_match s → counters_match (drawdown_check p t s).
Proof.
  intros Hok. unfold drawdown_check.
  destruct (mark_peak_frame t s) as (_ & _ & Hh & _ & Hre & Hrc & _ & Hhr & _).
  assert (counters_match (mark_peak t s)) as Hok1.
  { revert Hok. apply counters_match_frame; try done; by rewrite Hre. }
  set (s1 := mark_peak t s) in *.
  destruct (halted s1) eqn:Hh1; simpl.
  { revert Hok1. by apply counters_match_frame. }
  destruct (Py.ge _ _); [|revert Hok1; by apply counters_match_frame].
  set (sa := if Py.gt (position_qty (position s1)) 0
             then _close_trade p (tick_ts t) (tick_close t) "drawdown-halt" s1
             else s1).
  assert (counters_match sa ∧ halted sa = false) as [Hoka Hha].
  { subst sa. destruct (Py.gt _ _); [|done].
    split; [by apply close_trade_counters|].
    by destruct (close_trade_frame (tick_ts t) (tick_close t) "drawdown-halt" s1)
      as (-> & _). }
  set (sb := if Py.lt (position_qty (position sa)) 0
             then _close_trade p (tick_ts t) (tick_close t) "drawdown-halt" sa
             else sa).
  assert (counters_match sb ∧ halted sb = false) as [Hokb Hhb].
  { subst sb. destruct (Py.lt _ _); [|done].
    split; [by apply close_trade_counters|].
    by destruct (close_trade_frame (tick_ts t) (tick_close t) "drawdown-halt" sa)
      as (-> & _). }
  destruct Hokb as (Hd & Hc & Hone & Hreason). rewrite Hhb in Hone.
  unfold counters_match. simpl.
  rewrite !List.filter_app, !length_app. simpl.
  rewrite <-Hd, <-Hc, Hone. repeat split; try done; lia.
Qed.

Lemma correlation_guard_counters (t : Tick) (s : State) :
  counters_match s → counters_match (correlation_guard p t s).1.
Proof.
  intros Hok. unfold correlation_guard. cbv zeta.
  destruct (if (_ <=? _)%nat then _ else _) as [corr|];
    [destruct (_ && _)|];
    revert Hok; unfold counters_match; simpl;
    rewrite ?List.filter_app, ?length_app; simpl; rewrite ?app_nil_r;
    intros (Hd & Hc & Hone & Hr); repeat split; try tauto; lia.
Qed.

Lemma step_counters (t : Tick) (s s' : State) :
  counters_match s → step p t s = Some s' → counters_match s'.
Proof.
  intros Hok. unfold step.
  pose proof (drawdown_check_counters t s Hok) as Hok1.
  destruct (halted (drawdown_check p t s)); [by intros [= <-]|].
  pose proof (correlation_guard_counters t _ Hok1) as Hok2.
  destruct (correlation_guard p t (drawdown_check p t s)) as [s2 blocked].
  simpl in Hok2.
  destruct (exit_checks p t _ s2) as [s3|] eqn:Hexit.
  - intros [= <-].
    apply exit_checks_frame in Hexit as (? & ? & _ & He & ? & _).
    revert Hok2. apply counters_match_frame; try done; by rewrite He.
  - intros Hentry.
    apply entry_check_frame in Hentry as (? & ? & _ & ? & ? & ? & _).
    revert Hok2. by apply counters_match_frame.
Qed.

Lemma run_loop_counters (ticks : list Tick) (s s' : State) :
  counters_match s → run_loop p ticks s = Some s' → counters_match s'.
Proof.
  revert s. induction ticks as [|t rest IH]; intros s Hok; simpl.
  - by intros [= <-].
  - destruct (step p t s) as [s1|] eqn:Hstep; [|done].
    apply IH. by eapply step_counters.
Qed.

(** X10. In the report of every completed run the counters of
    [risk_controls] agree with the event log: [drawdown_circuit_hits] is the
    number of [drawdown_circuit_breaker] events and
    [strategy_correlation_hits] the number of [strategy_correlation_block]
    events. The circuit breaker trips at most once: its counter is 1 when
    the run ended halted and 0 otherwise, and a halt reason is reported
    exactly when the run is halted. *)
Theorem risk_counters_match_the_event_log
    (initial_cash : float) (ticks : list Tick) (s : State) :
  simulate p initial_cash ticks = Some s →
  drawdown_circuit_hits (risk_controls s)
  = length (List.filter is_drawdown_event (risk_events s))
  ∧ strategy_correlation_hits (risk_controls s)
    = length (List.filter is_correlation_event (risk_events s))
  ∧ drawdown_circuit_hits (risk_controls s) = (if halted s then 1 else 0)%nat
  ∧ (halt_reason s = None ↔ halted s = false).
Proof.
  unfold simulate. intros Hsim.
  destruct (run_loop p ticks (initial_state p initial_cash)) as [s0|] eqn:Hrun;
    [|done].
  injection Hsim as <-.
  assert (counters_match (initial_state p initial_cash)) as Hinit.
  { unfold counters_match. simpl. done. }
  pose proof (run_loop_counters _ _ _ Hinit Hrun) as Hok.
  unfold close_at_end. destruct (Py.ne _ _); [|done].
  destruct (last ticks) as [t|]; [|done].
  by apply close_trade_counters.
Qed.

(** *** What the report says about the position *)

Lemma simulate_flat (initial_cash : float) (ticks : list Tick) (s : State) :
  simulate p initial_cash ticks = Some s →
  Py.eq (position_qty (position s)) 0 = true.
Proof.
  unfold simulate. intros Hs.
  destruct (run_loop p ticks (initial_state p initial_cash)) as [s0|] eqn:Hrun;
    [|done].
  injection Hs as <-. unfold close_at_end.
  destruct (Py.ne (position_qty (position s0)) 0) eqn:Hq;
    [|unfold Py.ne in Hq; by apply negb_false_iff in Hq].
  destruct (last ticks) as [t|] eqn:Hlast; [apply close_trade_zero|].
  apply last_None in Hlast. subst ticks. simpl in Hrun.
  injection Hrun as <-. done.
Qed.

(** X11. The [position] signal of a completed run is never ["long"] or
    ["short"]: the run closes any open position at the end of the data
    before the report is built, so the signal is ["none"] when no trade was
    made, ["halted"] when the drawdown circuit tripped, and ["flat"]
    otherwise. *)
Theorem reported_position_is_never_long_or_short
    (initial_cash : float) (ticks : list Tick) (s : State) :
  simulate p initial_cash ticks = Some s →
  signal s = (if bool_decide (trades s = []) then "none"
              else if halted s then "halted" else "flat")
  ∧ signal s ≠ "long" ∧ signal s ≠ "short".
Proof.
  intros Hsim. apply simulate_flat in Hsim.
  unfold signal, position_state.
  rewrite (eq_zero_not_gt _ Hsim), (eq_zero_not_lt _ Hsim).
  destruct (trades s); simpl; [done|]. by destruct (halted s).
Qed.

(** *** The correlation guard *)

Lemma resolve_mode_guarded (t : Tick) :
  guard_applies p = true → resolve_mode p t ∈ guarded_modes.
Proof.
  unfold guard_applies, resolve_mode, guarded_modes.
  destruct (use_regime p && String.eqb (strategy_mode p) "adaptive"); simpl.
  - intros _. destruct (_ && _); repeat constructor.
  - rewrite !orb_true_iff, !String.eqb_eq.
    intros [->|[->|[->|[->|?]]]]; try done; repeat constructor.
Qed.

Lemma blocked_entry_signal (t : Tick) (s : State) :
  resolve_mode p t ∈ guarded_modes →
  entry_signal (signals p t true s) = false.
Proof.
  intros Hm. unfold signals. cbv zeta.
  unfold guarded_modes in Hm.
  repeat (apply elem_of_cons in Hm as [Hm|Hm]); [..|by apply elem_of_nil in Hm];
    rewrite Hm; simpl; repeat case_match; simplify_eq; simpl; try done.
Qed.

(** X12. When the correlation guard blocks on a bar ([|corr|] above a
    positive cap) and the position is flat, the bar opens no trade: ledger,
    position and cash are left as they were, and a
    [strategy_correlation_block] event is logged. This holds in every mode
    the guard covers: mean-reversion, momentum, momentum-only, stat-arb, and
    adaptive with regime routing on. *)
Theorem correlation_block_vetoes_entries (t : Tick) (s s' : State) :
  guard_applies p = true →
  step p t s = Some s' →
  halted s' = false →
  (correlation_guard p t (drawdown_check p t s)).2 = true →
  Py.eq (position_qty (position s)) 0 = true →
  trades s' = trades s ∧ position s' = position s ∧ cash s' = cash s
  ∧ ∃ ev, last (risk_events s') = Some ev ∧ is_correlation_event ev = true.
Proof.
  intros Hguard Hstep Hlive Hblocked Hflat.
  unfold step in Hstep.
  destruct (halted (drawdown_check p t s)) eqn:Hh.
  { injection Hstep as <-. congruence. }
  destruct (drawdown_check_not_halting p t s Hh) as [Hs0 Hdc].
  pose proof (correlation_guard_frame p t (drawdown_check p t s)) as Hcg.
  assert (∃ ev, last (risk_events (correlation_guard p t (drawdown_check p t s)).1)
                = Some ev ∧ is_correlation_event ev = true) as Hev.
  { revert Hblocked. unfold correlation_guard. cbv zeta.
    destruct (if (_ <=? _)%nat then _ else _) as [corr|]; [|done].
    destruct (_ && _); [|done]. intros _. simpl.
    eexists. split; [apply last_snoc|done]. }
  destruct (correlation_guard p t (drawdown_check p t s)) as [s2 blocked].
  simpl in Hblocked. subst blocked.
  cbn [fst] in Hcg, Hev. destruct Hcg as (Hcash & Hpos & Hh2 & Htr & _).
  rewrite Hdc in Hcash, Hpos, Htr. simpl in Hcash, Hpos, Htr.
  destruct (mark_peak_frame t s) as (Hc1 & Hp1 & _ & Ht1 & _).
  rewrite Hc1 in Hcash. rewrite Hp1 in Hpos. rewrite Ht1 in Htr.
  assert (exit_checks p t (signals p t true s2) s2 = None) as Hexit.
  { unfold exit_checks, Py.ne. rewrite Hpos. unfold Py.eq in Hflat.
    rewrite Hflat. by rewrite andb_false_r. }
  rewrite Hexit in Hstep.
  unfold entry_check in Hstep.
  rewrite blocked_entry_signal in Hstep by (by apply resolve_mode_guarded).
  rewrite andb_false_r in Hstep. injection Hstep as <-. done.
Qed.

End LedgerFacts.

Section LedgerExamples.
Import Pd Backtest Report.

Lemma ledger_is_paired_witness :
  ∃ s, simulate (H:=naive) stat_arb_params 10000
         [short_entry_tick; short_stop_tick] = Some s
       ∧ length (trades s) = 2%nat ∧ paired (trades s).
Proof.
  eexists. split; [vm_compute; reflexivity|]. split; [reflexivity|].
  refine (proj1 (ledger_is_paired (H:=naive) stat_arb_params 10000
                   [short_entry_tick; short_stop_tick] _ _)).
  vm_compute; reflexivity.
Defined.



Lemma risk_counters_match_the_event_log_witness :
  ∃ s, simulate (H:=naive) zero_limit_params 10000
         [short_entry_tick; short_stop_tick] = Some s
       ∧ halted s = true
       ∧ drawdown_circuit_hits (risk_controls s)
         = length (List.filter is_drawdown_event (risk_events s)).
Proof.
  eexists. split; [vm_compute; reflexivity|]. split; [reflexivity|].
  refine (proj1 (risk_counters_match_the_event_log (H:=naive) zero_limit_params
                   10000 [short_entry_tick; short_stop_tick] _ _)).
  vm_compute; reflexivity.
Defined.

Lemma reported_position_is_never_long_or_short_witness :
  ∃ s, simulate (H:=naive) stat_arb_params 10000
         [short_entry_tick; short_stop_tick] = Some s
       ∧ signal s = "flat".
Proof.
  eexists. split; [vm_compute; reflexivity|].
  refine (proj1 (reported_position_is_never_long_or_short (H:=naive)
                   stat_arb_params 10000 [short_entry_tick; short_stop_tick]
                   _ _)).
  vm_compute; reflexivity.
Defined.

Lemma correlation_block_vetoes_entries_witness :
  entry_signal (signals momentum_params breakout_tick false mirrored_state)
  = true
  ∧ ∃ s', step (H:=naive) momentum_params breakout_tick mirrored_state = Some s'
          ∧ trades s' = trades mirrored_state
          ∧ position s' = position mirrored_state.
Proof.
  split; [vm_compute; reflexivity|].
  eexists. split; [vm_compute; reflexivity|].
  destruct (correlation_block_vetoes_entries (H:=naive) momentum_params
              breakout_tick mirrored_state
              (default mirrored_state
                 (step (H:=naive) momentum_params breakout_tick mirrored_state)))
    as (Ht & Hp & _); [vm_compute; reflexivity..|].
  split; [exact Ht|exact Hp].
Defined.

End LedgerExamples.

(** ** Clamps and the maximum drawdown *)

Section OrderFacts.

(** Two floats that are not NaN compare. *)
Lemma SFcompare_total (x y : spec_float) :
  x ≠ S754_nan → y ≠ S754_nan → ∃ c, SFcompare x y = Some c.
Proof.
  destruct x as [sx|sx| |sx mx ex], y as [sy|sy| |sy my ey]; intros Hx Hy;
    try done; simpl; eauto.
Qed.

Lemma notnan_spec (x : float) : Py.isnan x = false ↔ Prim2SF x ≠ S754_nan.
Proof.
  rewrite <-isnan_spec. by destruct (Py.isnan x).
Qed.

Lemma lt_le (a b : float) : Py.lt a b = true → Py.le a b = true.
Proof.
  unfold Py.lt, Py.le. rewrite FloatAxioms.ltb_spec, FloatAxioms.leb_spec.
  unfold SFltb, SFleb. by destruct (SFcompare _ _) as [[]|].
Qed.

Lemma gt_ge (a b : float) : Py.gt a b = true → Py.ge a b = true.
Proof. apply lt_le. Qed.

Lemma SFcompare_antisym (x y : spec_float) :
  SFcompare y x = option_map CompOpp (SFcompare x y).
Proof.
  destruct x as [sx|sx| |sx mx ex], y as [sy|sy| |sy my ey]; simpl;
    try done; try (by destruct sx); try (by destruct sy);
    try (by destruct sx, sy).
  change PosDef.Pos.compare_cont with Pos.compare_cont.
  destruct sx, sy; simpl; try done;
    rewrite (Z.compare_antisym ex ey); destruct (ex ?= ey)%Z; simpl; try done;
    by rewrite (Pos.compare_cont_antisym mx my Eq).
Qed.

(** For numbers, [not (a <= b)] is [a > b], and [not (a > b)] is [a <= b]. *)
Lemma not_le_gt (a b : float) :
  Py.isnan a = false → Py.isnan b = false →
  Py.le a b = false → Py.gt a b = true.
Proof.
  rewrite !notnan_spec. unfold Py.le, Py.gt.
  rewrite FloatAxioms.leb_spec, FloatAxioms.ltb_spec. unfold SFleb, SFltb.
  intros Ha Hb. rewrite (SFcompare_antisym (Prim2SF a) (Prim2SF b)).
  destruct (SFcompare_total _ _ Ha Hb) as [c ->]. by destruct c.
Qed.

Lemma not_gt_le (a b : float) :
  Py.isnan a = false → Py.isnan b = false →
  Py.gt a b = false → Py.le a b = true.
Proof.
  rewrite !notnan_spec. unfold Py.le, Py.gt.
  rewrite FloatAxioms.leb_spec, FloatAxioms.ltb_spec. unfold SFleb, SFltb.
  intros Ha Hb. rewrite (SFcompare_antisym (Prim2SF a) (Prim2SF b)).
  destruct (SFcompare_total _ _ Ha Hb) as [c ->]. by destruct c.
Qed.

(** What is above a float that is [>= 0] is [>= 0]. *)
Lemma ge_zero_gt (a x : float) :
  Py.ge a 0 = true → Py.gt x a = true → Py.ge x 0 = true.
Proof.
  unfold Py.ge, Py.gt.
  rewrite !FloatAxioms.leb_spec, FloatAxioms.ltb_spec, Prim2SF_zero.
  unfold SFleb, SFltb.
  destruct (Prim2SF a) as [sa|sa| |sa ma ea], (Prim2SF x) as [sx|sx| |sx mx ex];
    simpl; try done; try (by destruct sa); try (by destruct sx);
    by destruct sa, sx.
Qed.

End OrderFacts.

Section ClampFacts.
Import Config.

(** X13. The two risk clamps of [run_backtest] let no NaN and no
    out-of-range value through: whatever float is passed (NaN and the
    infinities included), [max_portfolio_risk] ends within [0, 1] and
    [trend_threshold] at or above 0.0001. [_safe_position_size] maps every
    number into (0, 1] (0.01 for anything [<= 0], 1.0 for anything above 1)
    but hands a NaN back unchanged. *)
Theorem config_clamps (x : float) :
  (Py.le 0 (max_portfolio_risk_of x) = true
   ∧ Py.le (max_portfolio_risk_of x) 1 = true)
  ∧ Py.ge (trend_threshold_of x) 0.0001 = true
  ∧ (Py.isnan x = false →
     Py.gt (_safe_position_size x) 0 = true
     ∧ Py.le (_safe_position_size x) 1 = true)
  ∧ (Py.isnan x = true → Py.isnan (_safe_position_size x) = true).
Proof.
  split; [|split; [|split]].
  - unfold max_portfolio_risk_of, Py.max2, Py.min2.
    destruct (Py.gt x 0) eqn:Hx.
    + destruct (Py.lt x 1) eqn:Hx1.
      * split; [by apply lt_le|by apply lt_le].
      * done.
    + done.
  - unfold trend_threshold_of, Py.max2.
    destruct (Py.gt x 0.0001) eqn:Hx; [by apply gt_ge|done].
  - intros Hx. unfold _safe_position_size.
    destruct (Py.le x 0) eqn:H0; [done|].
    destruct (Py.gt x 1) eqn:H1; [done|].
    split; [by apply not_le_gt|by apply not_gt_le].
  - intros Hx. unfold _safe_position_size.
    unfold Py.le. rewrite FloatAxioms.leb_spec.
    rewrite (nan_gt_l _ _ Hx).
    apply isnan_spec in Hx as Hx'. rewrite Hx'. done.
Qed.

End ClampFacts.

Section DrawdownFacts.
Import Report.

Lemma drawdown_step_nonneg (acc : float * float) (v : float) :
  Py.ge acc.2 0 = true → Py.ge (drawdown_step acc v).2 0 = true.
Proof.
  intros Hacc. unfold drawdown_step. cbn [snd].
  destruct (Py.gt _ 0); [|done]. unfold Py.max2.
  destruct (Py.gt _ acc.2) eqn:Hgt; [|done]. by eapply ge_zero_gt.
Qed.

Lemma fold_drawdown_nonneg (equity : list float) (acc : float * float) :
  Py.ge acc.2 0 = true → Py.ge (foldl drawdown_step acc equity).2 0 = true.
Proof.
  revert acc. induction equity as [|v rest IH]; intros acc Hacc; [done|].
  simpl. by apply IH, drawdown_step_nonneg.
Qed.

(** *** A curve that never falls *)

(** Floats that compare equal compare alike with every float. *)
Lemma SFcompare_eq_l (a b c : spec_float) :
  SFcompare a b = Some Eq → SFcompare a c = SFcompare b c.
Proof.
  destruct a as [sa|sa| |sa ma ea], b as [sb|sb| |sb mb eb]; simpl;
    try done; try (by destruct sa); try (by destruct sb).
  - by destruct sa, sb.
  - change PosDef.Pos.compare_cont with Pos.compare_cont.
    destruct sa, sb; try done; destruct (Z.compare_spec ea eb) as [->| |];
      try done; intros [= Hm];
      [apply (f_equal CompOpp) in Hm; rewrite CompOpp_involutive in Hm|];
      apply Pos.compare_eq in Hm as ->; done.
Qed.

Lemma SFcompare_eq_finite (s : bool) (m : positive) (e : Z) (y : spec_float) :
  SFcompare y (S754_finite s m e) = Some Eq → y = S754_finite s m e.
Proof.
  destruct y as [sy|sy| |sy my ey]; simpl; try done; try (by destruct s);
    try (by destruct sy).
  change PosDef.Pos.compare_cont with Pos.compare_cont.
  destruct sy, s; try done; destruct (Z.compare_spec ey e) as [->| |];
    try done; intros [= Hm];
    [apply (f_equal CompOpp) in Hm; rewrite CompOpp_involutive in Hm|];
    apply Pos.compare_eq in Hm as ->; done.
Qed.

(** A positive finite float minus itself, over itself, is 0.0. *)
Lemma self_drawdown_zero (x : float) :
  Py.is_positive_finite x → ((x - x) / x)%float = 0%float.
Proof.
  intros (m & e & Hx). apply Prim2SF_inj.
  rewrite FloatAxioms.div_spec, FloatAxioms.sub_spec, Hx, Prim2SF_zero.
  unfold SF64sub, SFsub. cbv zeta. cbn [cond_Zopp].
  rewrite Z.sub_diag. reflexivity.
Qed.

Lemma gt_zero_positive_finite (x : float) :
  Py.isfinite x = true → Py.gt x 0 = true → Py.is_positive_finite x.
Proof.
  rewrite isfinite_spec. unfold Py.gt.
  rewrite FloatAxioms.ltb_spec, Prim2SF_zero. unfold SFltb.
  intros [[s Hx]|(s & m & e & Hx)]; rewrite Hx; simpl; [done|].
  destruct s; [done|]. intros _. by eexists _, _.
Qed.

Lemma same_refl (a : float) : Py.isfinite a = true → same a a.
Proof.
  intros Ha. apply SFcompare_refl. apply isfinite_spec in Ha.
  destruct Ha as [[s Ha]|(s & m & e & Ha)]; by rewrite Ha.
Qed.

Lemma drawdown_step_flat (peak prev v : float) :
  Py.isfinite peak = true → Py.isfinite v = true →
  same peak prev → Py.le prev v = true →
  ∃ peak', drawdown_step (peak, 0%float) v = (peak', 0%float)
           ∧ Py.isfinite peak' = true ∧ same peak' v.
Proof.
  intros Hpeak Hv Hsame Hle. unfold drawdown_step. cbn [fst snd].
  assert (Py.le peak v = true) as Hle'.
  { revert Hle. unfold Py.le. rewrite !FloatAxioms.leb_spec. unfold SFleb.
    by rewrite (SFcompare_eq_l _ _ _ Hsame). }
  destruct (Py.gt v peak) eqn:Hgt.
  - exists v. split; [|split; [done|by apply same_refl]]. f_equal.
    destruct (Py.gt v 0) eqn:Hpos; [|done].
    rewrite self_drawdown_zero by (by apply gt_zero_positive_finite). done.
  - assert (same peak v) as Heq.
    { revert Hle' Hgt. unfold same, Py.le, Py.gt.
      rewrite FloatAxioms.leb_spec, FloatAxioms.ltb_spec. unfold SFleb, SFltb.
      by destruct (SFcompare _ _) as [[]|]. }
    exists peak. split; [|done]. f_equal.
    destruct (Py.gt peak 0) eqn:Hpos; [|done].
    destruct (gt_zero_positive_finite _ Hpeak Hpos) as (m & e & Hp).
    assert (v = peak) as ->.
    { apply Prim2SF_inj. rewrite Hp.
      apply SFcompare_eq_finite.
      unfold same in Heq. rewrite Hp in Heq.
      rewrite SFcompare_antisym, Heq. done. }
    rewrite self_drawdown_zero by (by eexists _, _). done.
Qed.

Lemma fold_drawdown_flat (rest : list float) (peak prev : float) :
  Py.isfinite peak = true → same peak prev →
  Forall (λ v, Py.isfinite v = true) rest →
  never_falls_from prev rest = true →
  (foldl drawdown_step (peak, 0%float) rest).2 = 0%float.
Proof.
  revert peak prev. induction rest as [|v rest IH]; intros peak prev Hp Hs Hfin Hnf;
    [done|].
  simpl in *. apply andb_true_iff in Hnf as [Hle Hnf].
  apply Forall_cons in Hfin as [Hv Hfin].
  destruct (drawdown_step_flat peak prev v Hp Hv Hs Hle) as (peak' & -> & Hp' & Hs').
  by eapply IH.
Qed.

(** X14. [_calc_max_drawdown] never returns a negative number or a NaN,
    whatever the curve holds (negative, infinite or NaN values included),
    and it is 0.0 on the empty curve. On a curve of finite values that never
    falls (every value [>=] the one before) it is exactly 0.0. *)
Theorem max_drawdown_is_nonnegative (equity : list float) :
  Py.ge (_calc_max_drawdown equity) 0 = true
  ∧ _calc_max_drawdown [] = 0%float
  ∧ (Forall (λ v, Py.isfinite v = true) equity →
     never_falls equity = true →
     _calc_max_drawdown equity = 0%float).
Proof.
  split; [by apply fold_drawdown_nonneg|]. split; [done|].
  intros Hfin Hnf. unfold _calc_max_drawdown.
  destruct equity as [|v rest]; [done|].
  apply Forall_cons in Hfin as [Hv Hfin]. simpl in Hnf. simpl.
  assert (drawdown_step (neg_infinity, 0%float) v = (v, 0%float)) as ->.
  { unfold drawdown_step. cbn [fst snd].
    assert (Py.gt v neg_infinity = true) as ->.
    { apply isfinite_spec in Hv. unfold Py.gt.
      rewrite FloatAxioms.ltb_spec, Prim2SF_neg_infinity.
      destruct Hv as [[s Hv]|(s & m & e & Hv)]; by rewrite Hv. }
    f_equal. destruct (Py.gt v 0) eqn:Hpos; [|done].
    rewrite self_drawdown_zero by (by apply gt_zero_positive_finite). done. }
  apply (fold_drawdown_flat rest v v); try done. by apply same_refl.
Qed.

End DrawdownFacts.

(** ** The Pair-Spread Builder: the shape of the frame *)

Section SpreadFacts.
Import Pd Spread SpreadShape.
Context `{Numerics}.

(** *** Timestamps *)

Lemma sublist_strongly_sorted {A} (R : relation A) (l1 l2 : list A) :
  l1 `sublist_of` l2 → StronglySorted R l2 → StronglySorted R l1.
Proof.
  induction 1 as [|x l1 l2 Hsub IH|x l1 l2 Hsub IH]; intros Hs; [done|..];
    apply StronglySorted_inv in Hs as [Hs Hall].
  - constructor; [by apply IH|].
    apply Forall_forall. intros y Hy. rewrite Forall_forall in Hall.
    apply Hall. by eapply elem_of_sublist.
  - by apply IH.
Qed.

Lemma sublist_list_filter {A} (f : A → bool) (l : list A) :
  List.filter f l `sublist_of` l.
Proof.
  induction l as [|x l IH]; [done|]. simpl.
  destruct (f x); by constructor.
Qed.

Lemma sublist_zip_with_l {A B C D} (f : A → B → C) (g : A → D) (h : C → D)
    (l : list A) (k : list B) :
  (∀ x y, h (f x y) = g x) →
  map h (zip_with f l k) `sublist_of` map g l.
Proof.
  intros Hf. revert k. induction l as [|x l IH]; intros [|y k]; simpl;
    try done.
  - apply sublist_nil_l.
  - rewrite Hf. by constructor.
Qed.

Lemma sublist_omap {A B D} (f : A → option B) (g : A → D) (h : B → D)
    (l : list A) :
  (∀ x y, f x = Some y → h y = g x) →
  map h (omap f l) `sublist_of` map g l.
Proof.
  intros Hf. induction l as [|x l IH]; [done|]. simpl.
  destruct (f x) as [y|] eqn:Hy; simpl.
  - rewrite (Hf _ _ Hy). by constructor.
  - by constructor.
Qed.

Lemma sort_values_elem (x : Bar) (l : list Bar) :
  x ∈ sort_values l → x ∈ l.
Proof. unfold sort_values. by rewrite sort_by_permutation. Qed.

Lemma sort_values_sorted (l : list Bar) :
  StronglySorted Z.le (map timestamp (sort_values l)).
Proof. apply sort_by_sorted. Qed.

Lemma length_sort_values (l : list Bar) : length (sort_values l) = length l.
Proof. unfold sort_values. by rewrite sort_by_permutation. Qed.

Lemma drop_duplicates_from_spec (l : list Bar) (seen : option Z) :
  StronglySorted Z.le (map timestamp l) →
  (∀ t, seen = Some t → Forall (λ u, t <= u) (map timestamp l)) →
  StronglySorted Z.lt (map timestamp (drop_duplicates_from seen l))
  ∧ drop_duplicates_from seen l `sublist_of` l
  ∧ ∀ t, seen = Some t →
         Forall (λ u, t < u) (map timestamp (drop_duplicates_from seen l)).
Proof.
  revert seen. induction l as [|x l IH]; intros seen Hs Hseen; simpl.
  { repeat split; [constructor|done|by constructor]. }
  apply StronglySorted_inv in Hs as [Hs Hall].
  destruct (decide (seen = Some (timestamp x))) as [->|Hne].
  - rewrite bool_decide_eq_true_2 by done.
    destruct (IH (Some (timestamp x)) Hs) as (H1 & H2 & H3).
    { by intros t [= <-]. }
    split; [done|]. split; [by constructor|]. done.
  - rewrite bool_decide_eq_false_2 by done.
    destruct (IH (Some (timestamp x)) Hs) as (H1 & H2 & H3).
    { by intros t [= <-]. }
    simpl. split; [constructor; [done|by apply H3]|].
    split; [by constructor|].
    intros t ->. specialize (Hseen t eq_refl).
    apply Forall_cons in Hseen as [Hx _].
    constructor; [assert (t ≠ timestamp x) by congruence; lia|].
    eapply Forall_impl; [by apply H3|]. simpl. lia.
Qed.

Lemma base_frame_spec (bars : list Bar) :
  let base := drop_duplicates (sort_values bars) in
  StronglySorted Z.lt (map timestamp base) ∧ ∀ b, b ∈ base → b ∈ bars.
Proof.
  destruct (drop_duplicates_from_spec (sort_values bars) None)
    as (H1 & H2 & _); [apply sort_values_sorted|done|].
  split; [done|]. intros b Hb. apply sort_values_elem.
  by eapply elem_of_sublist.
Qed.

Lemma length_base_frame (bars : list Bar) :
  (length (drop_duplicates (sort_values bars)) <= length bars)%nat.
Proof.
  rewrite <-(length_sort_values bars). apply sublist_length.
  by destruct (drop_duplicates_from_spec (sort_values bars) None)
    as (_ & ? & _); [apply sort_values_sorted|done|].
Qed.

(** The first row of a frame survives [drop_duplicates]. *)
Lemma drop_duplicates_nonempty (l : list Bar) :
  l ≠ [] → (1 <= length (drop_duplicates l))%nat.
Proof. destruct l as [|x l]; [done|]. intros _. simpl. lia. Qed.

Lemma spread_rows_timestamps (sym : string) (w : nat) (merged : list Merged) :
  map (λ r, timestamp (spread_bar r)) (spread_rows sym w merged)
  `sublist_of` map (λ m, timestamp (base_row m)) merged.
Proof.
  unfold spread_rows. cbv zeta.
  etrans; [apply fmap_sublist, sublist_list_filter|].
  apply sublist_zip_with_l. by intros m (h & c & o).
Qed.

Lemma merge_rows_timestamps (base pair : list Bar) (tol : Z) :
  map (λ m, timestamp (base_row m)) (merge_rows base pair tol)
  `sublist_of` map timestamp base.
Proof.
  unfold merge_rows. apply sublist_omap.
  intros b m. destruct (asof_nearest _ _ _) as [q|]; [|done].
  destruct (pair_columns_present q); [|done]. by intros [= <-].
Qed.

(** A frame the builder returns is made from a join of the two sorted
    legs, under some tolerance. *)
Lemma build_stat_arb_df_spec (primary secondary : list Bar) (sym : string)
    (w : nat) (rows : list SpreadBar) :
  _build_stat_arb_df primary secondary sym w = Some rows →
  ∃ tol,
    rows = spread_rows sym w
             (merge_rows (drop_duplicates (sort_values primary))
                (drop_duplicates (sort_values secondary)) tol).
Proof.
  unfold _build_stat_arb_df, merged_legs. cbv zeta.
  destruct (_median_step_ns _) as [base_step|]; [|done].
  destruct (_median_step_ns _) as [pair_step|]; [|done].
  destruct (tolerance_ns base_step pair_step) as [tol|]; [|done].
  destruct (merge_rows _ _ tol) as [|m merged] eqn:Hm; [done|].
  intros [= <-]. exists tol. by rewrite Hm.
Qed.

(** X15. The frame the builder returns has strictly increasing timestamps,
    each of them the timestamp of a primary bar, and carries the given pair
    symbol on every row; it holds at most one row per primary bar. *)
Theorem spread_frame_is_ordered (primary secondary : list Bar) (sym : string)
    (w : nat) (rows : list SpreadBar) :
  _build_stat_arb_df primary secondary sym w = Some rows →
  StronglySorted Z.lt (map (λ r, timestamp (spread_bar r)) rows)
  ∧ (∀ r, r ∈ rows →
          timestamp (spread_bar r) ∈ map timestamp primary
          ∧ pair_symbol r = sym)
  ∧ (length rows <= length primary)%nat.
Proof.
  intros Hrows. apply build_stat_arb_df_spec in Hrows as [tol ->].
  set (base := drop_duplicates (sort_values primary)).
  set (merged := merge_rows base _ _).
  destruct (base_frame_spec primary) as [Hsorted Hin]. fold base in Hsorted, Hin.
  assert (map (λ r, timestamp (spread_bar r)) (spread_rows sym w merged)
          `sublist_of` map timestamp base) as Hsub.
  { etrans; [apply spread_rows_timestamps|apply merge_rows_timestamps]. }
  split; [by eapply sublist_strongly_sorted|]. split.
  - intros r Hr. split.
    + assert (timestamp (spread_bar r) ∈ map timestamp base) as Ht.
      { eapply elem_of_sublist; [|exact Hsub].
        apply list_elem_of_fmap. eauto. }
      apply list_elem_of_fmap in Ht as (b & -> & Hb).
      apply list_elem_of_fmap. eauto.
    + unfold spread_rows in Hr. cbv zeta in Hr.
      apply list_elem_of_In, filter_In in Hr as [Hr _].
      apply list_elem_of_In, elem_of_zip_with in Hr as (m & [h [c o]] & -> & _).
      done.
  - apply sublist_length in Hsub. rewrite !length_map in Hsub.
    etrans; [exact Hsub|]. apply length_base_frame.
Qed.

(** *** Candles and the hedge ratio *)

Lemma replace_zero_inf_ok (xs : list float) :
  Forall (λ x, usable_or_missing x = true) (replace_zero_inf xs).
Proof.
  unfold replace_zero_inf. apply Forall_fmap, Forall_forall. intros x _. simpl.
  unfold usable_or_missing, usable, Py.isfinite, isna.
  destruct (Py.eq x 0) eqn:Hz; simpl; [by vm_compute|].
  destruct (Py.isinf x) eqn:Hi; simpl; [by vm_compute|].
  rewrite Hz, Hi. by destruct (Py.isnan x).
Qed.

Lemma bfill_ok (xs : list float) :
  Forall (λ x, usable_or_missing x = true) xs →
  Forall (λ x, usable_or_missing x = true) (bfill xs).
Proof.
  induction 1 as [|x r Hx Hr IH]; simpl; [done|].
  constructor; [|done]. destruct (isna x); [|done].
  destruct IH; [by vm_compute|done].
Qed.

Lemma ffill_from_ok (prev : float) (xs : list float) :
  usable_or_missing prev = true →
  Forall (λ x, usable_or_missing x = true) xs →
  Forall (λ x, usable_or_missing x = true) (ffill_from prev xs).
Proof.
  intros Hp Hxs. revert prev Hp.
  induction Hxs as [|x r Hx Hr IH]; intros prev Hp; simpl; [done|].
  destruct (isna x); constructor; try done; by apply IH.
Qed.

Lemma hedge_ratio_column_usable (w : nat) (merged : list Merged) :
  Forall (λ x, usable x = true) (hedge_ratio_column w merged).
Proof.
  unfold hedge_ratio_column, fillna, ffill. cbv zeta.
  apply Forall_fmap.
  eapply Forall_impl;
    [apply ffill_from_ok; [done|apply bfill_ok, replace_zero_inf_ok]|].
  intros x. unfold usable_or_missing, fill1. simpl.
  destruct (isna x); simpl; [by intros _|done].
Qed.

Lemma max_skipna_bounds (c o : float) :
  notna c = true → notna o = true →
  Py.le c (max_skipna c o) = true ∧ Py.le o (max_skipna c o) = true
  ∧ Py.le (min_skipna c o) c = true ∧ Py.le (min_skipna c o) o = true.
Proof.
  unfold notna, isna, max_skipna, min_skipna, isna.
  intros Hc%negb_true_iff Ho%negb_true_iff. rewrite Hc, Ho.
  assert (Py.le c c = true ∧ Py.le o o = true) as [Hcc Hoo].
  { split; apply not_gt_le; try done; apply gt_irrefl. }
  destruct (Py.lt c o) eqn:Hco, (Py.lt o c) eqn:Hoc;
    repeat split; try done;
    try (by apply lt_le); by apply not_gt_le.
Qed.

(** X16. Every row of the frame the builder returns is a proper candle
    with a usable hedge ratio: its high is the larger and its low the
    smaller of its open and close (so [low <= open, close <= high]), none of
    its five price and volume fields is NaN, and its hedge ratio is finite
    and not zero: a ratio that is missing, zero or infinite is filled from
    its neighbours, or with 1.0 when there is none. *)
Theorem spread_rows_are_candles (primary secondary : list Bar) (sym : string)
    (w : nat) (rows : list SpreadBar) :
  _build_stat_arb_df primary secondary sym w = Some rows →
  ∀ r, r ∈ rows →
    let b := spread_bar r in
    (Py.le (low b) (open b) = true ∧ Py.le (open b) (high b) = true
     ∧ Py.le (low b) (close b) = true ∧ Py.le (close b) (high b) = true)
    ∧ (notna (open b) && notna (high b) && notna (low b) && notna (close b)
       && notna (volume b) = true)
    ∧ Py.isfinite (hedge_ratio r) = true
    ∧ Py.eq (hedge_ratio r) 0 = false.
Proof.
  intros Hrows r Hr. apply build_stat_arb_df_spec in Hrows as [tol ->].
  set (merged := merge_rows _ _ _) in Hr.
  unfold spread_rows in Hr. cbv zeta in Hr.
  apply list_elem_of_In, filter_In in Hr as [Hr Hna].
  apply list_elem_of_In, elem_of_zip_with in Hr as (m & [h [c o]] & -> & _ & Hcols).
  apply elem_of_zip_l in Hcols.
  pose proof (hedge_ratio_column_usable w merged) as Hh.
  rewrite Forall_forall in Hh. specialize (Hh h Hcols).
  apply andb_true_iff in Hh as [Hfin Hnz%negb_true_iff].
  cbn [spread_bar open high low close volume hedge_ratio] in *.
  split; [|done].
  repeat (apply andb_true_iff in Hna as [Hna ?]).
  destruct (max_skipna_bounds c o) as (? & ? & ? & ?); done.
Qed.

End SpreadFacts.

Section SpreadExamples.
Import Pd Spread.

Lemma spread_frame_is_ordered_witness :
  ∃ rows, _build_stat_arb_df (H:=naive) big_primary big_secondary "PAIR2" 20
          = Some rows
          ∧ StronglySorted Z.lt (map (λ r, timestamp (spread_bar r)) rows).
Proof.
  eexists. split; [vm_compute; reflexivity|].
  refine (proj1 (spread_frame_is_ordered (H:=naive) big_primary big_secondary
                   "PAIR2" 20 _ _)).
  vm_compute; reflexivity.
Defined.

Lemma spread_rows_are_candles_witness :
  ∃ rows r, _build_stat_arb_df (H:=naive) big_primary big_secondary "PAIR2" 20
            = Some rows
            ∧ rows !! 1%nat = Some r
            ∧ Py.isfinite (hedge_ratio r) = true
            ∧ Py.eq (hedge_ratio r) 0 = false.
Proof.
  eexists _, _. split; [vm_compute; reflexivity|]. split; [reflexivity|].
  refine (proj2 (proj2 (spread_rows_are_candles (H:=naive) big_primary
                          big_secondary "PAIR2" 20 _ _ _ _))).
  - vm_compute; reflexivity.
  - apply list_elem_of_lookup. by exists 1%nat.
Defined.

End SpreadExamples.

(** ** Fetching: the page loop of [fetch_ohlcv] *)

Section FetchFacts.
Import Fetch.
Context `{Pd.Numerics}.

Lemma fetch_pages_spec (fetch : Pager) (limit : Z) (n call : nat) (since : Z)
    (acc : list Bar) (pages : Pages) :
  fetch_pages fetch limit n call since acc = Some pages →
  (call <= calls pages <= call + n)%nat
  ∧ ((0 < n)%nat → (call < calls pages)%nat)
  ∧ (∃ extra, all_rows pages = acc ++ extra)
  ∧ (honours fetch limit → Z.of_nat (length acc) < 50000 →
     Z.of_nat (length (all_rows pages)) < 50000 + limit
     ∨ all_rows pages = acc).
Proof.
  revert call since acc.
  induction n as [|n IH]; intros call since acc; simpl.
  { intros [= <-]. simpl. repeat split; try lia; [by exists []; rewrite app_nil_r|].
    intros _ _. by right. }
  destruct (fetch call since) as [rows|] eqn:Hfetch; [|done].
  destruct (last rows) as [final|] eqn:Hlast.
  2:{ intros [= <-]. simpl. repeat split; try lia;
        [by exists []; rewrite app_nil_r|]. intros _ _. by right. }
  destruct (Z.ltb_spec (Z.of_nat (length rows)) limit).
  { intros [= <-]. simpl. repeat split; try lia; [by eexists|].
    intros _ Hacc. left. rewrite length_app. lia. }
  destruct (Z.leb_spec 50000 (Z.of_nat (length (acc ++ rows)))).
  { intros [= <-]. simpl. repeat split; try lia; [by eexists|].
    intros Hh Hacc. left. rewrite length_app. specialize (Hh _ _ _ Hfetch). lia. }
  intros Hrec. destruct (IH _ _ _ Hrec) as (Hc & _ & [extra Hextra] & Hbound).
  repeat split; try lia.
  - exists (rows ++ extra). by rewrite Hextra, app_assoc.
  - intros Hh Hacc. left. pose proof (Hh _ _ _ Hfetch).
    destruct (Hbound Hh ltac:(lia)) as [?|Heq]; [lia|rewrite Heq; lia].
Qed.

Lemma fold_min_le (stamps : list Z) (a : Z) : foldl Z.min a stamps <= a.
Proof.
  revert a. induction stamps as [|t ts IH]; intros a; simpl; [lia|].
  specialize (IH (Z.min a t)). lia.
Qed.

Lemma fold_max_ge (stamps : list Z) (a : Z) : a <= foldl Z.max a stamps.
Proof.
  revert a. induction stamps as [|t ts IH]; intros a; simpl; [lia|].
  specialize (IH (Z.max a t)). lia.
Qed.

(** X23. [fetch_ohlcv] rejects [--days], [--limit] or [--max-pages] that
    are not positive before it asks the exchange anything. Otherwise it
    makes at least one and at most [--max-pages] requests. It reports no
    data exactly when the first page is empty. A saved frame has strictly
    increasing timestamps, at least one row, and [from <= to]; and when the
    exchange never returns more than [--limit] rows per page, fewer than
    50000 + limit rows. *)
Theorem fetch_is_bounded (args : FetchArgs) (fetch : Pager) (since : Z) :
  (days args <= 0 ∨ limit args <= 0 ∨ max_pages args <= 0 →
   fetch_ohlcv args fetch since = None)
  ∧ ∀ result requests,
      fetch_ohlcv args fetch since = Some (result, requests) →
      (1 <= requests <= Z.to_nat (max_pages args))%nat
      ∧ (result = no_data ↔ fetch 0%nat since = Some [])
      ∧ ∀ rows from to frame, result = saved rows from to frame →
          rows = length frame ∧ (1 <= rows)%nat ∧ from <= to
          ∧ StronglySorted Z.lt (map timestamp frame)
          ∧ (honours fetch (limit args) → Z.of_nat rows < 50000 + limit args).
Proof.
  unfold fetch_ohlcv. split.
  { intros Hbad.
    destruct (Z.leb_spec (days args) 0); [done|].
    destruct (Z.leb_spec (limit args) 0); [done|].
    destruct (Z.leb_spec (max_pages args) 0); [done|]. lia. }
  intros result requests.
  destruct (Z.leb_spec (days args) 0); [done|].
  destruct (Z.leb_spec (limit args) 0); [done|].
  destruct (Z.leb_spec (max_pages args) 0); [done|].
  destruct (fetch_pages _ _ _ _ _ _) as [pages|] eqn:Hpages; [|done].
  pose proof (fetch_pages_spec _ _ _ _ _ _ _ Hpages)
    as (Hcalls & Hprogress & _ & Hbound).
  assert (all_rows pages = [] ↔ fetch 0%nat since = Some []) as Hempty.
  { destruct (Z.to_nat (max_pages args)) as [|n] eqn:Hn; [lia|].
    simpl in Hpages.
    destruct (fetch 0%nat since) as [rows|]; [|done].
    destruct rows as [|r rows].
    { simpl in Hpages. injection Hpages as <-. done. }
    destruct (last (r :: rows)) as [final|] eqn:Hlast;
      [|by apply last_None in Hlast].
    split; [|done]. intros Hnil. exfalso.
    destruct (_ <? _); [by injection Hpages as <-|].
    destruct (_ <=? _); [by injection Hpages as <-|].
    apply fetch_pages_spec in Hpages as (_ & _ & [extra Hextra] & _).
    rewrite Hnil in Hextra. done. }
  destruct (all_rows pages) as [|first rest] eqn:Hrows.
  - intros [= <- <-]. split; [lia|]. split; [by rewrite <-Hempty|]. done.
  - intros [= <- <-]. split; [lia|]. split.
    { split; [done|]. intros Hx. by apply Hempty in Hx. }
    intros rows from to frame [= <- <- <- <-].
    destruct (base_frame_spec (first :: rest)) as [Hsorted _].
    split; [done|]. split;
      [|split; [pose proof (fold_min_le (map timestamp rest) (timestamp first));
                pose proof (fold_max_ge (map timestamp rest) (timestamp first));
                lia|split; [done|]]].
    + apply drop_duplicates_nonempty. intros Hnil.
      pose proof (length_sort_values (first :: rest)) as Hlen.
      by rewrite Hnil in Hlen.
    + intros Hh.
      assert (Z.of_nat (length (first :: rest)) < 50000 + limit args) as Hlen.
      { destruct (Hbound Hh) as [?|?]; first [done|simpl; lia]. }
      eapply Z.le_lt_trans; [|exact Hlen].
      apply inj_le, (length_base_frame (first :: rest)).
Qed.

End FetchFacts.

Section FetchExamples.
Import Fetch.

Lemma fetch_is_bounded_witness :
  fetch_ohlcv (H:=Pd.naive) {| days := 0; limit := 1000; max_pages := 1000 |} refusing 0
  = None
  ∧ ∃ frame, fetch_ohlcv (H:=Pd.naive) {| days := 1; limit := 1000; max_pages := 1000 |}
               two_bars 0
             = Some (saved 2 1700000000000000000 1700003600000000000 frame,
                     1%nat).
Proof.
  split.
  - apply (fetch_is_bounded (H:=Pd.naive) {| days := 0; limit := 1000; max_pages := 1000 |}).
    left. simpl. lia.
  - eexists. vm_compute. reflexivity.
Defined.

End FetchExamples.

(** ** Configuration: the two trend windows *)

(** X18. After normalisation both trend windows are at least 2, the slow one
    is the requested slow window floored at 2, and the fast one never
    exceeds it; the fast window is strictly below the slow one exactly when
    the requested slow window is at least 3. A request that already has
    [2 <= fast < slow] is left as it is. *)
Theorem normalize_momentum_characterised (fast_arg slow_arg : Z) :
  let fast := fst (normalize_momentum fast_arg slow_arg) in
  let slow := snd (normalize_momentum fast_arg slow_arg) in
  2 <= fast ∧ fast <= slow ∧ slow = Z.max 2 slow_arg
  ∧ (fast < slow ↔ 3 <= slow_arg)
  ∧ (2 <= fast_arg < slow_arg → fast = fast_arg ∧ slow = slow_arg).
Proof.
  unfold normalize_momentum.
  destruct (Z.geb_spec (Z.max 2 fast_arg) (Z.max 2 slow_arg)); simpl; lia.
Qed.

(** ** The Probability Overlay: features and the test window *)

Section OverlayShape.
Import Pd Overlay.
Context `{Numerics}.

(** X19. Every row [_build_ml_features] keeps has its thirteen columns, all
    of them finite (no NaN and no infinity reaches the classifier), and is
    labelled with the position of a row of the frame. *)
Theorem feature_rows_are_finite (df : list Row) (sentiment : list float)
    (fr : FeatureRow) :
  fr ∈ _build_ml_features df sentiment →
  length (columns fr) = 13%nat
  ∧ Forall (λ x, Py.isfinite x = true) (columns fr)
  ∧ (label fr < length df)%nat.
Proof.
  unfold _build_ml_features. cbv zeta. intros Hfr.
  apply list_elem_of_In, filter_In in Hfr as [Hfr Hna].
  apply list_elem_of_In, list_elem_of_fmap in Hfr as (fr0 & -> & Hfr0).
  apply elem_of_lookup_imap in Hfr0 as (i & r & -> & Hr).
  cbn [columns label] in *. split; [done|]. split.
  - rewrite forallb_forall in Hna. apply Forall_forall. intros y Hy.
    specialize (Hna y (proj1 (list_elem_of_In _ _) Hy)).
    apply list_elem_of_fmap in Hy as (x & -> & _).
    unfold Py.isfinite. unfold notna, isna in Hna.
    destruct (Py.isinf x) eqn:Hx; [done|]. by rewrite Hna, Hx.
  - by eapply lookup_lt_Some.
Qed.

Variable env : MLEnv.

(** *** Labels and the assignment of the predictions *)

Lemma feature_labels (df : list Row) (sentiment : list float) :
  map label (_build_ml_features df sentiment) `sublist_of` seq 0 (length df).
Proof.
  unfold _build_ml_features. cbv zeta.
  etrans; [apply fmap_sublist, sublist_list_filter|].
  rewrite <-list_fmap_compose, fmap_imap.
  rewrite (imap_ext _ (λ i _, i)) by done.
  rewrite imap_seq_0. by rewrite list_fmap_id.
Qed.

Lemma training_labels (df : list Row) (sentiment : list float) (horizon : Z) :
  map (λ ft, label ft.1) (training_data df sentiment horizon)
  `sublist_of` seq 0 (length df).
Proof.
  unfold training_data. cbv zeta.
  etrans; [apply fmap_sublist, sublist_list_filter|].
  rewrite <-list_fmap_compose. apply feature_labels.
Qed.

Lemma sublist_seq_spec (labels : list nat) (n : nat) :
  labels `sublist_of` seq 0 n → NoDup labels ∧ Forall (λ i, (i < n)%nat) labels.
Proof.
  intros Hsub. split.
  - eapply sublist_NoDup; [apply NoDup_seq|exact Hsub].
  - apply Forall_forall. intros i Hi.
    eapply elem_of_sublist in Hi; [|exact Hsub].
    apply elem_of_seq in Hi. lia.
Qed.

Lemma insert_all_length (labels : list nat) (values base : list float) :
  length (foldl (λ acc iv, <[iv.1 := iv.2]> acc) base (zip labels values))
  = length base.
Proof.
  revert values base. induction labels as [|i labels IH];
    intros [|v values] base; simpl; try done.
  by rewrite IH, length_insert.
Qed.

Lemma insert_all_elsewhere (labels : list nat) (values base : list float)
    (i : nat) :
  i ∉ labels →
  foldl (λ acc iv, <[iv.1 := iv.2]> acc) base (zip labels values) !! i
  = base !! i.
Proof.
  revert values base. induction labels as [|j labels IH];
    intros [|v values] base Hi; simpl; try done.
  apply not_elem_of_cons in Hi as [Hj Hi].
  rewrite IH by done. by apply list_lookup_insert_ne.
Qed.

Lemma insert_all_lookup (labels : list nat) (values base : list float)
    (j i : nat) (x : float) :
  NoDup labels → Forall (λ i, (i < length base)%nat) labels →
  labels !! j = Some i → values !! j = Some x →
  foldl (λ acc iv, <[iv.1 := iv.2]> acc) base (zip labels values) !! i
  = Some x.
Proof.
  revert values base j. induction labels as [|i0 labels IH];
    intros [|v values] base j Hnd Hlt Hi Hx; try done.
  apply NoDup_cons in Hnd as [Hfresh Hnd].
  apply Forall_cons in Hlt as [Hi0 Hlt].
  destruct j as [|j]; simpl in *.
  - injection Hi as ->. injection Hx as ->.
    rewrite insert_all_elsewhere by done.
    by apply list_lookup_insert_eq.
  - apply (IH values _ j); try done.
    eapply Forall_impl; [exact Hlt|]. intros k Hk. by rewrite length_insert.
Qed.

(** X20. A trained overlay predicts out of sample only: the joined rows are
    split in order into a training window of at least 40 rows and a test
    window of at least one, which together are all the rows; the classifier
    is fitted on the columns and classes of the training rows alone and asked
    for the test rows alone; the probability at the label of each test row
    is the classifier's answer for that row, and every bar that is not the
    label of a test row keeps the neutral 0.5. *)
Theorem trained_overlay_predicts_out_of_sample
    (df : list Row) (sentiment : list float) (a : MLArgs) (res : MLResult) :
  _build_ml_probabilities env df sentiment a = Some res →
  model_fit res = "trained" →
  let data := training_data df sentiment (Z.max 1 (ml_horizon a)) in
  let train := take (train_rows res) data in
  let test := drop (train_rows res) data in
  let class_of := λ ft : FeatureRow * float, if Py.eq ft.2 0 then 0 else 1 in
  (train_rows res + test_rows res = length data)%nat
  ∧ (40 <= train_rows res)%nat ∧ (1 <= test_rows res)%nat
  ∧ ∃ model proba,
      select_model env (model_type a) = Some model
      ∧ fit_predict env model
          (map (λ ft, columns ft.1) train) (map class_of train)
          (map (λ ft, columns ft.1) test) = Some proba
      ∧ length proba = length test
      ∧ (∀ j ft x, test !! j = Some ft → proba !! j = Some x →
           probability res !! label ft.1 = Some x)
      ∧ (∀ i, (∀ ft, ft ∈ test → label ft.1 ≠ i) →
           probability res !! i = replicate (length df) 0.5%float !! i).
Proof.
  unfold _build_ml_probabilities. cbv zeta.
  set (data := training_data df sentiment (Z.max 1 (ml_horizon a))).
  destruct (negb (ml_enabled a)); [by intros [= <-]|].
  destruct (_ <? _)%nat; [by intros [= <-]|].
  destruct (_ <? _)%nat; [by intros [= <-]|].
  destruct (_ <? _)%nat; [by intros [= <-]|].
  destruct (_ <? _)%nat; [by intros [= <-]|].
  destruct (split_index _ _) as [split|]; [|done].
  destruct (_ || _) eqn:Hs; [by intros [= <-]|].
  apply orb_false_iff in Hs as [Hlo%Z.ltb_ge Hhi%Z.leb_gt].
  destruct (_ =? _)%nat; [by intros [= <-]|].
  destruct (select_model env (model_type a)) as [model|] eqn:Hmodel;
    [|by intros [= <-]].
  destruct (fit_predict env model _ _ _) as [proba|] eqn:Hfit; [|done].
  destruct (assign_at _ _ _) as [assigned|] eqn:Hassign; [|done].
  intros [= <-] _. cbn [train_rows test_rows probability].
  rewrite !length_map, length_take, length_drop.
  assert (Z.to_nat split `min` length data = Z.to_nat split)%nat as Hk by lia.
  rewrite Hk.
  split; [lia|]. split; [lia|]. split; [lia|].
  exists model, proba. split; [done|]. split; [exact Hfit|].
  unfold assign_at in Hassign. rewrite length_map in Hassign.
  destruct (Nat.eqb_spec (length (drop (Z.to_nat split) data)) (length proba))
    as [Hlen|]; [|done].
  injection Hassign as <-. split; [done|].
  destruct (sublist_seq_spec _ _ (training_labels df sentiment
                                    (Z.max 1 (ml_horizon a)))) as [Hnd Hlt].
  fold data in Hnd, Hlt.
  rewrite <-(take_drop (Z.to_nat split) data), fmap_app in Hnd, Hlt.
  apply NoDup_app in Hnd as (_ & _ & Hnd).
  apply Forall_app in Hlt as [_ Hlt].
  split.
  - intros j ft x Hft Hx.
    apply (insert_all_lookup _ _ _ j); try done.
    + by rewrite length_replicate.
    + by rewrite list_lookup_fmap, Hft.
  - intros i Hi. apply insert_all_elsewhere.
    intros Hin. apply list_elem_of_fmap in Hin as (ft & -> & Hft).
    by eapply Hi.
Qed.

End OverlayShape.

Section OverlayShapeExamples.
Import Pd Overlay.

Lemma feature_rows_are_finite_witness :
  ∃ fr, _build_ml_features (H:=naive) zigzag_frame no_sentiment !! 0%nat
        = Some fr
        ∧ label fr = 24%nat
        ∧ Forall (λ x, Py.isfinite x = true) (columns fr).
Proof.
  eexists. split; [vm_compute; reflexivity|]. split; [reflexivity|].
  refine (proj1 (proj2 (feature_rows_are_finite (H:=naive) zigzag_frame
                          no_sentiment _ _))).
  apply list_elem_of_lookup. exists 0%nat. vm_compute; reflexivity.
Defined.

(** On the zigzag frame 106 rows are joined: the first 74 train the model,
    the last 32 (bars 98 to 129) are predicted. *)
Lemma trained_overlay_predicts_out_of_sample_witness :
  ∃ res, _build_ml_probabilities (H:=naive) sklearn_only zigzag_frame
           no_sentiment xgboost_args = Some res
         ∧ train_rows res = 74%nat ∧ test_rows res = 32%nat
         ∧ probability res !! 97%nat = Some 0.5%float
         ∧ probability res !! 98%nat = Some 0.9%float
         ∧ probability res !! 129%nat = Some 0.9%float
         ∧ (train_rows res + test_rows res
            = length (training_data (H:=naive) zigzag_frame no_sentiment
                        (Z.max 1 (ml_horizon xgboost_args))))%nat.
Proof.
  eexists. split; [vm_compute; reflexivity|].
  split; [reflexivity|]. split; [reflexivity|].
  split; [reflexivity|]. split; [reflexivity|]. split; [reflexivity|].
  refine (proj1 (trained_overlay_predicts_out_of_sample (H:=naive) sklearn_only
                   zigzag_frame no_sentiment xgboost_args _ _ _)).
  - vm_compute; reflexivity.
  - reflexivity.
Defined.

End OverlayShapeExamples.

(** ** The headline scorer and the stock intervals *)

Section TextFacts.
Import Text.

Lemma lower_lower_code (c : ascii) :
  lower_code (lower_code c) = lower_code c.
Proof. by destruct c as [[] [] [] [] [] [] [] []]. Qed.

Lemma lower_lower (s : string) : lower (lower s) = lower s.
Proof.
  induction s as [|c r IH]; [done|]. simpl. by rewrite lower_lower_code, IH.
Qed.

Lemma lower_app (a b : string) : lower (a ++ b) = (lower a ++ lower b)%string.
Proof. induction a as [|c a IH]; [done|]. simpl. by rewrite IH. Qed.

(** On an ASCII character [str.upper] gives one character, which
    [str.lower] takes to the lower-case form of the original. *)
Lemma lower_upper_char (c : ascii) :
  (nat_of_ascii c <? 128)%nat = true →
  lower (Execute.upper_char c) = String (lower_code c) EmptyString.
Proof. by destruct c as [[] [] [] [] [] [] [] []]. Qed.

Lemma lower_upper (s : string) :
  is_ascii s = true → lower (Execute.upper s) = lower s.
Proof.
  induction s as [|c r IH]; [done|]. simpl.
  intros [Hc Hr]%andb_true_iff.
  by rewrite lower_app, lower_upper_char, IH.
Qed.

Lemma fold_word_score (words : list string) (score : Z) :
  foldl word_score score words
  = score + hits positive words - hits negative words.
Proof.
  revert score. unfold hits.
  induction words as [|w words IH]; intros score; [simpl; lia|].
  cbn [foldl List.filter]. rewrite IH. unfold word_score.
  destruct (member w positive), (member w negative); cbn [length]; lia.
Qed.

(** X21. The headline score is the sign of the number of positive words
    minus the number of negative words among the maximal runs of ASCII
    letters of the lower-cased text, every occurrence counted: 1.0, -1.0 or
    0.0. A text scores like its lower-cased form, and an ASCII text like its
    upper-cased form; no word is in both lexicons, and an argument that is
    not a string scores 0.0. *)
Theorem headline_score_is_the_sign_of_the_hits (s : string) :
  let words := findall_letters EmptyString (lower s) in
  let net := hits positive words - hits negative words in
  _score_text_sentiment (Some s)
  = (if 0 <? net then 1%float else if net <? 0 then (-1)%float else 0%float)
  ∧ _score_text_sentiment (Some (lower s)) = _score_text_sentiment (Some s)
  ∧ (is_ascii s = true →
     _score_text_sentiment (Some (Execute.upper s))
     = _score_text_sentiment (Some s))
  ∧ _score_text_sentiment None = 0%float
  ∧ (∀ w, member w positive = true → member w negative = false).
Proof.
  intros words net. subst words net.
  split; [|split; [|split; [|split]]].
  - unfold _score_text_sentiment.
    destruct (findall_letters EmptyString (lower s)) as [|w ws] eqn:Hw; [done|].
    cbv zeta. rewrite fold_word_score. f_equal.
  - unfold _score_text_sentiment. by rewrite lower_lower.
  - intros Hs. unfold _score_text_sentiment. by rewrite lower_upper.
  - done.
  - intros w. unfold member, positive. simpl.
    rewrite !orb_true_iff, !String.eqb_eq.
    intros Hw. repeat (destruct Hw as [->|Hw]; [reflexivity|]). done.
Qed.

(** A headline in mixed case: two positive words ([RALLY], [Surge]) against
    one negative ([crash]). *)
Lemma headline_score_is_the_sign_of_the_hits_witness :
  let headline := "Bitcoin RALLY and Surge; no crash" in
  findall_letters EmptyString (lower headline)
  = ["bitcoin"; "rally"; "and"; "surge"; "no"; "crash"]
  ∧ _score_text_sentiment (Some headline) = 1%float
  ∧ _score_text_sentiment (Some "BITCOIN RALLY AND SURGE; NO CRASH") = 1%float.
Proof.
  intros headline. split; [reflexivity|].
  destruct (headline_score_is_the_sign_of_the_hits headline)
    as (Hsign & _ & Hupper & _).
  split; [by rewrite Hsign|].
  change "BITCOIN RALLY AND SURGE; NO CRASH" with (Execute.upper headline).
  rewrite Hupper by reflexivity. by rewrite Hsign.
Defined.

End TextFacts.

Section IntervalFacts.
Import Text Fetch.

Lemma stock_mapping_values (k v : string) :
  stock_mapping !! k = Some v → stock_mapping !! v = None ∨ stock_mapping !! v = Some v.
Proof.
  unfold stock_mapping. intros Hk.
  apply elem_of_list_to_map_2 in Hk. unfold stock_intervals in Hk.
  repeat (apply elem_of_cons in Hk as [[= -> ->]|Hk];
          [first [by left; vm_compute | by right; vm_compute]|]).
  by apply elem_of_nil in Hk.
Qed.

Lemma stock_mapping_values_lower (k v : string) :
  stock_mapping !! k = Some v → lower v = v.
Proof.
  unfold stock_mapping. intros Hk.
  apply elem_of_list_to_map_2 in Hk. unfold stock_intervals in Hk.
  repeat (apply elem_of_cons in Hk as [[= -> ->]|Hk]; [reflexivity|]).
  by apply elem_of_nil in Hk.
Qed.

(** X22. [_map_stock_timeframe] is idempotent: the provider interval of an
    interval is itself, so an interval that was already translated ([1wk],
    [1mo]) or that the table does not know passes through (lower-cased)
    unchanged. An interval maps like its lower-cased form, and an ASCII
    interval like its upper-cased form. *)
Theorem stock_interval_is_idempotent (timeframe : string) :
  _map_stock_timeframe (_map_stock_timeframe timeframe)
  = _map_stock_timeframe timeframe
  ∧ _map_stock_timeframe (lower timeframe) = _map_stock_timeframe timeframe
  ∧ (is_ascii timeframe = true →
     _map_stock_timeframe (Execute.upper timeframe)
     = _map_stock_timeframe timeframe)
  ∧ (stock_mapping !! lower timeframe = None →
     _map_stock_timeframe timeframe = lower timeframe).
Proof.
  unfold _map_stock_timeframe. cbv zeta. split; [|split; [|split]].
  - destruct (stock_mapping !! lower timeframe) as [v|] eqn:Hv; simpl.
    + rewrite (stock_mapping_values_lower _ _ Hv).
      by destruct (stock_mapping_values _ _ Hv) as [->| ->].
    + by rewrite lower_lower, Hv.
  - by rewrite lower_lower.
  - intros Hs. by rewrite lower_upper.
  - by intros ->.
Qed.

(** The weekly interval in capitals, an interval the table does not know,
    and U+00C0, which [str.lower] takes to U+00E0. *)
Lemma stock_interval_is_idempotent_witness :
  _map_stock_timeframe "1W" = "1wk"
  ∧ _map_stock_timeframe (_map_stock_timeframe "1W") = "1wk"
  ∧ _map_stock_timeframe "3D" = "3d"
  ∧ _map_stock_timeframe (String (ascii_of_nat 192) EmptyString)
    = String (ascii_of_nat 224) EmptyString.
Proof.
  destruct (stock_interval_is_idempotent "1W") as (Hidem & _).
  split; [reflexivity|]. split; [by rewrite Hidem|].
  split;
    [by apply (stock_interval_is_idempotent "3D")
    |by apply (stock_interval_is_idempotent
                 (String (ascii_of_nat 192) EmptyString))].
Defined.

End IntervalFacts.

(** ** The data checks of [run_backtest] *)

Section GateFacts.
Import Pd Indicators Gate.
Context `{Numerics}.

Lemma filter_skips_head {A} (f : A → bool) (l : list A) (k : nat) :
  (∀ i x, l !! i = Some x → (i < k)%nat → f x = false) →
  (length (List.filter f l) + Nat.min k (length l) <= length l)%nat.
Proof.
  revert k. induction l as [|x l IH]; intros k Hk; simpl; [lia|].
  destruct k as [|k].
  - specialize (IH 0%nat ltac:(intros; lia)).
    destruct (f x); simpl; lia.
  - rewrite (Hk 0%nat x eq_refl ltac:(lia)).
    assert (∀ i y, l !! i = Some y → (i < k)%nat → f y = false) as Hk'.
    { intros i y Hy Hi. apply (Hk (S i)); [done|lia]. }
    specialize (IH k Hk'). lia.
Qed.

(** The rows the loop walks leave out the warm-up at least. *)
Lemma simulation_rows_bound (bars : list Bar) (p : Windows) :
  (length (simulation_rows bars p) + Nat.min (warmup p) (length bars)
   <= length bars)%nat.
Proof.
  unfold simulation_rows.
  pose proof (filter_skips_head indicators_defined (_add_indicators bars p)
                (warmup p) (warmup_rows_undefined bars p)) as Hb.
  unfold _add_indicators in *. rewrite length_imap in Hb. done.
Qed.

(** X24. [run_backtest] simulates only when the primary file exists and
    holds at least 50 rows and, after the indicators are added, at least 30
    rows have all nine of them defined; these rows are what the loop walks.
    The frame the indicators are computed on must therefore hold at least 30
    rows beyond the warm-up (229 bars with the default windows). In stat-arb
    mode that frame is the spread, which needs a secondary file of at least
    [max(30, statarb_window)] rows and at least 30 joined rows. *)
Theorem backtest_needs_thirty_ready_rows (i : Inputs) (rows : list Row) :
  simulation_frame i = inr rows →
  (30 <= length rows)%nat
  ∧ Forall (λ r, indicators_defined r = true) rows
  ∧ ∃ df bars,
      primary i = Some df ∧ (50 <= length df)%nat
      ∧ indicator_bars i = Some bars
      ∧ rows = simulation_rows bars (windows i)
      ∧ (30 + warmup (windows i) <= length bars)%nat
      ∧ (windows i = default_windows → (229 <= length bars)%nat)
      ∧ (strategy_mode i = "stat-arb" →
         (30 <= length bars)%nat
         ∧ ∃ pair_df, secondary i = Some pair_df
             ∧ (Nat.max 30 (statarb_window i) <= length pair_df)%nat).
Proof.
  unfold simulation_frame, indicator_bars.
  destruct (primary i) as [df|]; [|done].
  destruct (Nat.ltb_spec (length df) 50); [done|].
  set (framed := if String.eqb (strategy_mode i) "stat-arb"
                 then spread_frame i df else inr df).
  destruct framed as [refusal|bars] eqn:Hframed; [done|].
  destruct (Nat.ltb_spec (length (simulation_rows bars (windows i))) 30);
    [done|].
  intros [= <-]. split; [done|]. split.
  { apply Forall_forall. intros r Hr. unfold simulation_rows in Hr.
    by apply list_elem_of_In, filter_In in Hr as [_ ?]. }
  pose proof (simulation_rows_bound bars (windows i)) as Hbound.
  exists df, bars. split; [done|]. split; [done|].
  assert (30 + warmup (windows i) <= length bars)%nat as Hneed by lia.
  subst framed.
  destruct (String.eqb_spec (strategy_mode i) "stat-arb") as [Hmode|Hmode].
  - rewrite Hframed. repeat (split; [done|]).
    split; [by intros Hw; rewrite Hw in Hneed|].
    intros _. unfold spread_frame in Hframed.
    destruct (Execute.falsy_str _); [done|].
    destruct (secondary i) as [pair_df|]; [|done].
    destruct (Nat.ltb_spec (length pair_df) (Nat.max 30 (statarb_window i)));
      [done|].
    destruct (Spread._build_stat_arb_df _ _ _ _) as [srows|]; [|done].
    destruct (Nat.ltb_spec (length srows) 30); [done|].
    injection Hframed as <-. rewrite length_map. split; [done|]. by eexists.
  - injection Hframed as <-. repeat (split; [done|]).
    split; [by intros Hw; rewrite Hw in Hneed|]. done.
Qed.

End GateFacts.

Section GateExamples.
Import Pd Indicators Gate.

Lemma backtest_needs_thirty_ready_rows_witness :
  let i := {| primary := Some (map bar Overlay.zigzag_frame);
              secondary_data_csv := None; secondary := None;
              strategy_mode := "adaptive"; pair_symbol := None;
              statarb_window := 100; windows := small_windows |} in
  let rows := simulation_rows (H:=naive) (map bar Overlay.zigzag_frame)
                small_windows in
  simulation_frame (H:=naive) i = inr rows ∧ (30 <= length rows)%nat.
Proof.
  intros i rows.
  assert (simulation_frame (H:=naive) i = inr rows) as Hrun
    by (vm_compute; reflexivity).
  split; [exact Hrun|].
  exact (proj1 (backtest_needs_thirty_ready_rows (H:=naive) i rows Hrun)).
Defined.

End GateExamples.

(** ** When the correlation guard is silent *)

Section GuardFacts.
Import Pd Backtest Report.
Context `{Numerics}.
Variable p : Params.

(** What the guard reads and writes: the length of the signal history, the
    hit counter and the largest correlation seen. *)
Lemma close_trade_guard_frame (ts : Z) (px : float) (why : string) (s : State) :
  let s' := _close_trade p ts px why s in
  strategy_signal_history s' = strategy_signal_history s
  ∧ risk_controls s' = risk_controls s.
Proof. unfold _close_trade. by destruct (Py.eq _ _). Qed.

Lemma drawdown_check_guard_frame (t : Tick) (s : State) :
  let s' := drawdown_check p t s in
  strategy_signal_history s' = strategy_signal_history s
  ∧ strategy_correlation_hits (risk_controls s')
    = strategy_correlation_hits (risk_controls s)
  ∧ max_strategy_correlation_abs (risk_controls s')
    = max_strategy_correlation_abs (risk_controls s).
Proof.
  unfold drawdown_check. cbv zeta.
  destruct (mark_peak_frame t s) as (_ & _ & _ & _ & _ & Hrc & _ & _ & Hsh).
  set (s1 := mark_peak t s) in *.
  destruct (negb _ && _);
    cbn [strategy_signal_history risk_controls append_equity set_halted
         strategy_correlation_hits max_strategy_correlation_abs];
    [|by rewrite Hsh, Hrc].
  set (sa := if Py.gt (position_qty (position s1)) 0
             then _close_trade p (tick_ts t) (tick_close t) "drawdown-halt" s1
             else s1).
  assert (strategy_signal_history sa = strategy_signal_history s1
          ∧ risk_controls sa = risk_controls s1) as [Ha1 Ha2].
  { subst sa. destruct (Py.gt _ _); [apply close_trade_guard_frame|done]. }
  set (sb := if Py.lt (position_qty (position sa)) 0
             then _close_trade p (tick_ts t) (tick_close t) "drawdown-halt" sa
             else sa).
  assert (strategy_signal_history sb = strategy_signal_history sa
          ∧ risk_controls sb = risk_controls sa) as [Hb1 Hb2].
  { subst sb. destruct (Py.lt _ _); [apply close_trade_guard_frame|done]. }
  by rewrite Hb1, Hb2, Ha1, Ha2, Hsh, Hrc.
Qed.

Lemma exit_checks_guard_frame (t : Tick) (sg : Signals) (s s' : State) :
  exit_checks p t sg s = Some s' →
  strategy_signal_history s' = strategy_signal_history s
  ∧ risk_controls s' = risk_controls s.
Proof.
  unfold exit_checks.
  repeat case_match; intros ?; simplify_eq; apply close_trade_guard_frame.
Qed.

Lemma entry_check_guard_frame (t : Tick) (blocked : bool) (sg : Signals)
    (s s' : State) :
  entry_check p t blocked sg s = Some s' →
  strategy_signal_history s' = strategy_signal_history s
  ∧ risk_controls s' = risk_controls s.
Proof.
  unfold entry_check. repeat case_match; intros ?; by simplify_eq.
Qed.

(** The guard on one bar: the history grows by one signal; nothing is
    counted while the history is shorter than the window or the cap is not
    above zero. *)
Lemma correlation_guard_quiet (t : Tick) (s : State) :
  let s' := (correlation_guard p t s).1 in
  let seen := length (momentum (strategy_signal_history s)) in
  length (momentum (strategy_signal_history s')) = S seen
  ∧ ((S seen < strategy_correlation_window p)%nat
     ∨ Py.gt (strategy_correlation_cap p) 0 = false →
     strategy_correlation_hits (risk_controls s')
     = strategy_correlation_hits (risk_controls s))
  ∧ ((S seen < strategy_correlation_window p)%nat →
     max_strategy_correlation_abs (risk_controls s')
     = max_strategy_correlation_abs (risk_controls s)).
Proof.
  unfold correlation_guard. cbv zeta.
  cbn [momentum strategy_signal_history set_history].
  rewrite length_app. cbn [length].
  replace (length (momentum (strategy_signal_history s)) + 1)%nat
    with (S (length (momentum (strategy_signal_history s)))) by lia.
  destruct (Nat.leb_spec (strategy_correlation_window p)
              (S (length (momentum (strategy_signal_history s))))) as [Hw|Hw].
  - destruct (_safe_correlation _ _) as [corr|]; [|cbn; by rewrite length_app; cbn; intuition lia].
    destruct (Py.gt (strategy_correlation_cap p) 0) eqn:Hcap; cbn -[Py.gt].
    + destruct (Py.gt (abs corr) _); cbn; rewrite length_app; cbn;
        (split; [lia|]); split; intros; try lia; intuition (lia || congruence).
    + rewrite length_app; cbn. split; [lia|]. split; [done|]. intros; lia.
  - cbn. rewrite length_app. cbn. split; [lia|done].
Qed.

Lemma step_quiet (t : Tick) (s s' : State) :
  step p t s = Some s' →
  let seen := length (momentum (strategy_signal_history s)) in
  (length (momentum (strategy_signal_history s')) <= S seen)%nat
  ∧ ((S seen < strategy_correlation_window p)%nat
     ∨ Py.gt (strategy_correlation_cap p) 0 = false →
     strategy_correlation_hits (risk_controls s')
     = strategy_correlation_hits (risk_controls s))
  ∧ ((S seen < strategy_correlation_window p)%nat →
     max_strategy_correlation_abs (risk_controls s')
     = max_strategy_correlation_abs (risk_controls s)).
Proof.
  unfold step. cbv zeta.
  destruct (drawdown_check_guard_frame t s) as (Hh & Hhits & Hmax).
  destruct (halted (drawdown_check p t s)).
  { intros [= <-]. rewrite Hh, Hhits, Hmax. split; [lia|done]. }
  pose proof (correlation_guard_quiet t (drawdown_check p t s)) as Hq.
  cbv zeta in Hq. rewrite Hh, Hhits, Hmax in Hq.
  destruct (correlation_guard p t (drawdown_check p t s)) as [s2 blocked].
  cbn [fst] in Hq. destruct Hq as (Hlen & Hq1 & Hq2).
  intros Hrest.
  assert (strategy_signal_history s' = strategy_signal_history s2
          ∧ risk_controls s' = risk_controls s2) as [-> ->].
  { destruct (exit_checks p t _ s2) as [s3|] eqn:Hexit.
    - injection Hrest as <-. by eapply exit_checks_guard_frame.
    - by eapply entry_check_guard_frame. }
  split; [lia|done].
Qed.

Lemma run_loop_quiet (ticks : list Tick) (s s' : State) :
  run_loop p ticks s = Some s' →
  let seen := length (momentum (strategy_signal_history s)) in
  ((seen + length ticks < strategy_correlation_window p)%nat
   ∨ Py.gt (strategy_correlation_cap p) 0 = false →
   strategy_correlation_hits (risk_controls s')
   = strategy_correlation_hits (risk_controls s))
  ∧ ((seen + length ticks < strategy_correlation_window p)%nat →
     max_strategy_correlation_abs (risk_controls s')
     = max_strategy_correlation_abs (risk_controls s)).
Proof.
  revert s. induction ticks as [|t rest IH]; intros s; simpl.
  { by intros [= <-]. }
  destruct (step p t s) as [s1|] eqn:Hstep; [|done].
  intros Hrun. destruct (step_quiet t s s1 Hstep) as (Hlen & Hhits & Hmax).
  destruct (IH s1 Hrun) as [IH1 IH2]. split.
  - intros Hc. rewrite IH1, Hhits; [done| |]; destruct Hc; (by right) || (left; lia).
  - intros Hc. rewrite IH2, Hmax; [done| |]; lia.
Qed.

(** X25. The correlation guard needs a full window of signals and a cap
    above zero. A run over fewer bars than [strategy_correlation_window]
    (at least 20 after normalisation) never computes a correlation: it
    reports [strategy_correlation_hits] 0 and [max_strategy_correlation_abs]
    0.0. With a cap that is not above zero (0, negative or NaN) the guard
    never blocks, however long the run: [strategy_correlation_hits] is 0 and
    the event log holds no [strategy_correlation_block]. *)
Theorem correlation_guard_needs_window_and_cap
    (initial_cash : float) (ticks : list Tick) (s : State) :
  simulate p initial_cash ticks = Some s →
  ((length ticks < strategy_correlation_window p)%nat →
   strategy_correlation_hits (risk_controls s) = 0%nat
   ∧ max_strategy_correlation_abs (risk_controls s) = 0%float)
  ∧ ((length ticks < strategy_correlation_window p)%nat
     ∨ Py.gt (strategy_correlation_cap p) 0 = false →
     strategy_correlation_hits (risk_controls s) = 0%nat
     ∧ List.filter is_correlation_event (risk_events s) = []).
Proof.
  unfold simulate. intros Hsim.
  destruct (run_loop p ticks (initial_state p initial_cash)) as [s0|] eqn:Hrun;
    [|done].
  injection Hsim as <-.
  assert (counters_match (initial_state p initial_cash)) as Hinit.
  { unfold counters_match. simpl. done. }
  pose proof (run_loop_counters p _ _ _ Hinit Hrun) as (_ & Hev & _).
  destruct (run_loop_quiet _ _ _ Hrun) as [Hhits Hmax]. simpl in Hhits, Hmax.
  assert (risk_controls (close_at_end p ticks s0) = risk_controls s0
          ∧ risk_events (close_at_end p ticks s0) = risk_events s0) as [-> ->].
  { unfold close_at_end. destruct (Py.ne _ _); [|done].
    destruct (last ticks) as [t|]; [|done].
    by destruct (close_trade_frame p (tick_ts t) (tick_close t) "eod_close" s0)
      as (_ & _ & _ & -> & -> & _). }
  split.
  - intros Hw. split; [apply Hhits; by left|by apply Hmax].
  - intros Hc. specialize (Hhits Hc). split; [done|].
    rewrite Hhits in Hev. symmetry in Hev. by apply length_zero_iff_nil in Hev.
Qed.

End GuardFacts.

Section GuardExamples.
Import Pd Backtest Report.

Lemma correlation_guard_needs_window_and_cap_witness :
  ∃ s, simulate (H:=naive) stat_arb_params 10000
         [short_entry_tick; short_stop_tick] = Some s
       ∧ strategy_correlation_hits (risk_controls s) = 0%nat
       ∧ max_strategy_correlation_abs (risk_controls s) = 0%float.
Proof.
  eexists. split; [vm_compute; reflexivity|].
  refine (proj1 (correlation_guard_needs_window_and_cap (H:=naive)
                   stat_arb_params 10000 [short_entry_tick; short_stop_tick]
                   _ _) _); vm_compute; first [reflexivity|lia].
Defined.

End GuardExamples.
